(** * WebDAV plugin of uWSGI (plugins/webdav/webdav.c): a shallow embedding

    The handlers of the plugin are pure functions over an explicit model of
    what they act on: a POSIX-like file tree (directories, regular files,
    symbolic links, extended attributes), the request record of the core and
    the response head the core builds.  The C character buffers
    [(char *, uint16_t len)] and C strings are Rocq strings (no NUL inside,
    lengths within their C types). *)

From Stdlib Require Import String Ascii List Arith Lia Bool ZArith DecimalString
  Permutation.
Import ListNotations.
Local Open Scope string_scope.
Local Open Scope list_scope.
Set Warnings "-abstract-large-number".

(** ** Character buffers and path text *)

Definition slash : ascii := "/"%char.

(** The components of a path, cut at every '/'.  Empty components (leading,
    doubled or trailing slashes) are kept: the resolver skips them, but a
    trailing one still counts as "more path follows". *)
Fixpoint split_slash (s : string) : list string :=
  match s with
  | EmptyString => [EmptyString]
  | String c s' =>
      if Ascii.eqb c slash then EmptyString :: split_slash s'
      else match split_slash s' with
           | [] => [String c EmptyString]
           | x :: xs => String c x :: xs
           end
  end.

Fixpoint join_slash (cs : list string) : string :=
  match cs with
  | [] => EmptyString
  | [c] => c
  | c :: cs' => (c ++ "/" ++ join_slash cs')%string
  end.

(** The text of a canonical path: "/" for the root, "/a/b" otherwise. *)
Definition render (p : list string) : string :=
  match p with
  | [] => "/"
  | _ => ("/" ++ join_slash p)%string
  end.

Definition is_absolute (s : string) : bool :=
  match s with
  | String c _ => Ascii.eqb c slash
  | EmptyString => false
  end.

Fixpoint has_char (c : ascii) (s : string) : bool :=
  match s with
  | EmptyString => false
  | String d s' => Ascii.eqb d c || has_char c s'
  end.

(** A directory entry name: not empty, not "." or "..", no '/'. *)
Definition good_name (c : string) : bool :=
  negb (String.eqb c "") && negb (String.eqb c ".") && negb (String.eqb c "..")
  && negb (has_char slash c).

(** Modelled from the spec: [uwsgi_get_last_charn] of the core, which
    "locates the last '/'": the position of the last occurrence of the
    character, [None] for the NULL result. *)
Fixpoint uwsgi_get_last_charn (s : string) (needle : ascii) : option nat :=
  match s with
  | EmptyString => None
  | String c s' =>
      match uwsgi_get_last_charn s' needle with
      | Some i => Some (S i)
      | None => if Ascii.eqb c needle then Some 0 else None
      end
  end.

(** ** The file tree *)

Definition xattrs := list (string * string).

#[warnings="-register-all"]
Inductive node : Type :=
| File (writable : bool) (data : string) (xa : xattrs)
| Symlink (target : string)
| Dir (writable : bool) (xa : xattrs) (entries : list (string * node)).

Fixpoint assoc {A : Type} (k : string) (l : list (string * A)) : option A :=
  match l with
  | [] => None
  | (k', v) :: l' => if String.eqb k k' then Some v else assoc k l'
  end.

Fixpoint remove_assoc {A : Type} (k : string) (l : list (string * A))
  : list (string * A) :=
  match l with
  | [] => []
  | (k', v) :: l' => if String.eqb k k' then l' else (k', v) :: remove_assoc k l'
  end.

Fixpoint set_assoc {A : Type} (k : string) (v : A) (l : list (string * A))
  : list (string * A) :=
  match l with
  | [] => [(k, v)]
  | (k', v') :: l' =>
      if String.eqb k k' then (k, v) :: l' else (k', v') :: set_assoc k v l'
  end.

(** The node a canonical path (a list of names from the root) designates. *)
Fixpoint find_node (n : node) (p : list string) : option node :=
  match p with
  | [] => Some n
  | c :: p' =>
      match n with
      | Dir _ _ es =>
          match assoc c es with
          | Some ch => find_node ch p'
          | None => None
          end
      | _ => None
      end
  end.

(** Rewrites the node at [p] with [f]; fails when [p] does not exist or [f]
    refuses. *)
Fixpoint alter (f : node -> option node) (n : node) (p : list string)
  : option node :=
  match p with
  | [] => f n
  | c :: p' =>
      match n with
      | Dir w xa es =>
          match assoc c es with
          | Some ch =>
              match alter f ch p' with
              | Some ch' => Some (Dir w xa (set_assoc c ch' es))
              | None => None
              end
          | None => None
          end
      | _ => None
      end
  end.

(** The world the handlers act on: the tree, the free space left on the
    volume (what makes a write(2) come back short) and the directories, by
    canonical path, of which the process can open a stream (what makes
    opendir(3) come back NULL on a directory: no read permission). *)
Record filesys : Type :=
  mkfs { root : node; avail : nat; may_opendir : list string -> bool }.

(** ** Path resolution as realpath(3) does it *)

(** Symbolic links followed before ELOOP. *)
Definition MAXSYMLINKS : nat := 40.

(** Component-by-component resolution.  [stack] is the canonical path reached
    so far, [cs] the components still to go.  "" and "." are skipped, ".."
    pops, a name must exist; a symbolic link is replaced by its target's
    components (from the root if the target is absolute); anything that is
    not a directory with path left over is ENOTDIR. *)
Fixpoint walk (r : node) (budget : nat) : list string -> list string -> option (list string) :=
  fix go (stack cs : list string) {struct cs} : option (list string) :=
    match cs with
    | [] => Some stack
    | c :: cs' =>
        if String.eqb c "" || String.eqb c "." then go stack cs'
        else if String.eqb c ".." then go (removelast stack) cs'
        else
          match find_node r (stack ++ [c]) with
          | None => None
          | Some (Symlink t) =>
              match budget with
              | O => None
              | S budget' =>
                  walk r budget' (if is_absolute t then [] else stack)
                       (split_slash t ++ cs')
              end
          | Some (Dir _ _ _) => go (stack ++ [c]) cs'
          | Some (File _ _ _) =>
              match cs' with
              | [] => Some (stack ++ [c])
              | _ => None
              end
          end
    end.

(** Canonical location of a path: every component resolved, every link
    followed.  There is no working directory here: only absolute paths
    resolve (the plugin always passes docroot-prefixed ones). *)
Definition namei (fs : filesys) (path : string) : option (list string) :=
  if is_absolute path then walk (root fs) MAXSYMLINKS [] (split_slash path)
  else None.

(** realpath(3): the canonical text, or NULL. *)
Definition realpath (fs : filesys) (path : string) : option string :=
  option_map render (namei fs path).

(** ** Applications (mountpoints) and requests *)

Record uwsgi_app : Type := mkapp {
  mountpoint : string;
  interpreter : string   (* the docroot, canonicalised at mount time *)
}.

Record response : Type := mkresp {
  statuses : list string;          (* every status line prepared, in order *)
  headers : list (string * string);
  body_out : string
}.

Record wsgi_request : Type := mkreq {
  protocol : string;
  scheme : string;
  host : string;
  path_info : string;
  vars : list (string * string);
  post_cl : nat;
  body_in : string;                (* the bytes the client actually sends *)
  post_pos : nat;
  app : uwsgi_app;                 (* uwsgi_apps[wsgi_req->app_id] *)
  resp : response
}.

Definition PATH_MAX : nat := 4096.

(** ** The two resolvers (webdav.c, 215-242) *)

(** [uwsgi_webdav_expand_path]: docroot + "/" + item through realpath.  The
    C function returns the length of the canonical name and 0 for failure;
    here [Some filename] stands for the non-zero length together with the
    buffer it filled. *)
Definition uwsgi_webdav_expand_path (fs : filesys) (ua : uwsgi_app)
  (item : string) : option string :=
  let docroot := interpreter ua in
  let tmp_filename := (docroot ++ "/" ++ item)%string in
  realpath fs tmp_filename.

(** [uwsgi_webdav_expand_fake_path]: resolve what precedes the last '/',
    then copy the rest (the '/' included) behind it. *)
Definition uwsgi_webdav_expand_fake_path (fs : filesys) (ua : uwsgi_app)
  (item : string) : option string :=
  match uwsgi_get_last_charn item slash with
  | None => None
  | Some last_slash =>
      match uwsgi_webdav_expand_path fs ua (substring 0 last_slash item) with
      | None => None
      | Some filename =>
          let item_len := String.length item in
          if Nat.leb PATH_MAX (String.length filename + (item_len - last_slash))
          then None
          else Some (filename ++ substring last_slash (item_len - last_slash) item)%string
      end
  end.

(** ** System calls on the tree *)

Definition set_root (fs : filesys) (r : node) : filesys :=
  mkfs r (avail fs) (may_opendir fs).

(** stat(2): the object the path leads to, links followed. *)
Definition stat (fs : filesys) (path : string) : option node :=
  match namei fs path with
  | Some p => find_node (root fs) p
  | None => None
  end.

(** Modelled from the spec: [uwsgi_is_dir] of the core, the test for a
    collection: stat and S_ISDIR. *)
Definition uwsgi_is_dir (fs : filesys) (path : string) : bool :=
  match stat fs path with
  | Some (Dir _ _ _) => true
  | _ => false
  end.

(** The directory a path's last component lives in, and that component.
    The calls that create or remove a name do not follow a link in the last
    position; they all refuse "", "." and ".." there. *)
Definition parent_leaf (fs : filesys) (path : string)
  : option (list string * string) :=
  if is_absolute path then
    let cs := split_slash path in
    let leaf := last cs EmptyString in
    if good_name leaf then
      match walk (root fs) MAXSYMLINKS [] (removelast cs) with
      | Some p =>
          match find_node (root fs) p with
          | Some (Dir _ _ _) => Some (p, leaf)
          | _ => None
          end
      | None => None
      end
    else None
  else None.

Definition drop_entry (leaf : string) (d : node) : option node :=
  match d with
  | Dir w xa es => Some (Dir w xa (remove_assoc leaf es))
  | _ => None
  end.

Definition put_entry (leaf : string) (n : node) (d : node) : option node :=
  match d with
  | Dir w xa es => Some (Dir w xa (set_assoc leaf n es))
  | _ => None
  end.

(** unlink(2): removes a name that is not a directory; the directory holding
    it must be writable. *)
Definition unlink (fs : filesys) (path : string) : option filesys :=
  match parent_leaf fs path with
  | Some (p, leaf) =>
      match find_node (root fs) p with
      | Some (Dir true _ es) =>
          match assoc leaf es with
          | Some (Dir _ _ _) => None
          | Some _ => option_map (set_root fs) (alter (drop_entry leaf) (root fs) p)
          | None => None
          end
      | _ => None
      end
  | None => None
  end.

Inductive errno : Type := ENOENT | EACCES | ENOTDIR | ENOTEMPTY.

Inductive sysres (A : Type) : Type :=
| Ok (a : A)
| Err (e : errno).
Arguments Ok {A} a.
Arguments Err {A} e.

(** rmdir(2): removes an empty directory; permission is checked before
    emptiness. *)
Definition rmdir (fs : filesys) (path : string) : sysres filesys :=
  match parent_leaf fs path with
  | Some (p, leaf) =>
      match find_node (root fs) p with
      | Some (Dir w _ es) =>
          match assoc leaf es with
          | Some (Dir _ _ ces) =>
              if negb w then Err EACCES
              else
                match ces with
                | [] =>
                    match alter (drop_entry leaf) (root fs) p with
                    | Some r' => Ok (set_root fs r')
                    | None => Err ENOENT
                    end
                | _ :: _ => Err ENOTEMPTY
                end
          | Some _ => Err ENOTDIR
          | None => Err ENOENT
          end
      | _ => Err ENOENT
      end
  | None => Err ENOENT
  end.

(** mkdir(2): a new empty directory under a writable parent. *)
Definition mkdir (fs : filesys) (path : string) : option filesys :=
  match parent_leaf fs path with
  | Some (p, leaf) =>
      match find_node (root fs) p with
      | Some (Dir true _ es) =>
          match assoc leaf es with
          | Some _ => None
          | None =>
              option_map (set_root fs)
                (alter (put_entry leaf (Dir true [] [])) (root fs) p)
          end
      | _ => None
      end
  | None => None
  end.

Fixpoint is_prefix (p q : list string) : bool :=
  match p, q with
  | [], _ => true
  | a :: p', b :: q' => String.eqb a b && is_prefix p' q'
  | _ :: _, [] => false
  end.

Definition dir_writable (r : node) (p : list string) : bool :=
  match find_node r p with
  | Some (Dir true _ _) => true
  | _ => false
  end.

(** rename(2).  Both parents must be writable; a directory cannot move
    below itself; an existing target is replaced when the kinds agree (a
    directory only over an empty directory). *)
Definition rename (fs : filesys) (oldpath newpath : string) : option filesys :=
  match parent_leaf fs oldpath, parent_leaf fs newpath with
  | Some (po, lo), Some (pn, ln) =>
      match find_node (root fs) (po ++ [lo]) with
      | None => None
      | Some src =>
          if negb (dir_writable (root fs) po && dir_writable (root fs) pn)
          then None
          else if is_prefix (po ++ [lo]) (pn ++ [ln])
                  && is_prefix (pn ++ [ln]) (po ++ [lo])
          then Some fs
          else
            let fits :=
              match src, find_node (root fs) (pn ++ [ln]) with
              | Dir _ _ _, None => negb (is_prefix (po ++ [lo]) pn)
              | Dir _ _ _, Some (Dir _ _ []) => true
              | Dir _ _ _, Some _ => false
              | _, Some (Dir _ _ _) => false
              | _, _ => true
              end in
            if fits then
              match alter (drop_entry lo) (root fs) po with
              | Some r1 =>
                  option_map (set_root fs) (alter (put_entry ln src) r1 pn)
              | None => None
              end
            else None
      end
  | _, _ => None
  end.

(** A descriptor opened for writing: where the file is and the offset. *)
Record fdesc : Type := mkfd { fd_path : list string; fd_off : nat }.

(** open(2) with O_WRONLY | O_CREAT and mode 0644: an existing file must be
    a writable regular file; a missing one is created empty under a writable
    parent.  (A dangling link in the last position is refused here.)  No
    O_TRUNC: the old contents stay. *)
Definition open_wronly_creat (fs : filesys) (path : string)
  : option (fdesc * filesys) :=
  match namei fs path with
  | Some p =>
      match find_node (root fs) p with
      | Some (File true _ _) => Some (mkfd p 0, fs)
      | _ => None
      end
  | None =>
      match parent_leaf fs path with
      | Some (pp, leaf) =>
          match find_node (root fs) pp with
          | Some (Dir true _ es) =>
              match assoc leaf es with
              | Some _ => None
              | None =>
                  match alter (put_entry leaf (File true "" [])) (root fs) pp with
                  | Some r' => Some (mkfd (pp ++ [leaf]) 0, set_root fs r')
                  | None => None
                  end
              end
          | _ => None
          end
      | None => None
      end
  end.

(** [buf] laid over [data] from offset [off]. *)
Definition overlay (data : string) (off : nat) (buf : string) : string :=
  (substring 0 off data ++ buf
   ++ substring (off + String.length buf)
                (String.length data - (off + String.length buf)) data)%string.

(** write(2): the bytes written.  Growing the file takes free space; when
    there is not enough the write comes back short (0 bytes: nothing fit). *)
Definition write (fs : filesys) (fd : fdesc) (buf : string)
  : nat * fdesc * filesys :=
  match find_node (root fs) (fd_path fd) with
  | Some (File w data xa) =>
      let need := (fd_off fd + String.length buf) - String.length data in
      let n := if Nat.leb need (avail fs) then String.length buf
               else String.length buf - (need - avail fs) in
      let data' := overlay data (fd_off fd) (substring 0 n buf) in
      let grown := String.length data' - String.length data in
      match alter (fun _ => Some (File w data' xa)) (root fs) (fd_path fd) with
      | Some r' => (n, mkfd (fd_path fd) (fd_off fd + n), mkfs r' (avail fs - grown) (may_opendir fs))
      | None => (0, fd, fs)
      end
  | _ => (0, fd, fs)
  end.

(** Directory streams.  d_type of an entry; readdir yields "." and ".."
    first, then the names in directory order. *)
Inductive d_type_t : Type := DT_DIR | DT_REG | DT_LNK.

Record dirent : Type := mkdirent { d_name : string; d_type : d_type_t }.

Definition dtype_of (n : node) : d_type_t :=
  match n with
  | Dir _ _ _ => DT_DIR
  | File _ _ _ => DT_REG
  | Symlink _ => DT_LNK
  end.

(** opendir(3): the stream of a directory the process may read; NULL
    ([None]) for anything else. *)
Definition opendir (fs : filesys) (path : string) : option (list dirent) :=
  match namei fs path with
  | Some p =>
      match find_node (root fs) p with
      | Some (Dir _ _ es) =>
          if may_opendir fs p
          then Some (mkdirent "." DT_DIR :: mkdirent ".." DT_DIR
                     :: map (fun e => mkdirent (fst e) (dtype_of (snd e))) es)
          else None
      | _ => None
      end
  | None => None
  end.

(** Extended attributes, kept in the order they were created. *)
Definition XATTR_NAME_MAX : nat := 255.
Definition XATTR_SIZE_MAX : nat := 65536.

Definition node_xattrs (n : node) : option xattrs :=
  match n with
  | File _ _ xa => Some xa
  | Dir _ xa _ => Some xa
  | Symlink _ => None
  end.

Definition with_xattrs (f : xattrs -> option xattrs) (n : node) : option node :=
  match n with
  | File true d xa => option_map (File true d) (f xa)
  | Dir true xa es => option_map (fun xa' => Dir true xa' es) (f xa)
  | _ => None
  end.

Definition NUL : ascii := Ascii.zero.

(** listxattr(2): the names, each closed by a NUL byte, in one buffer. *)
Definition name_buffer (names : list string) : string :=
  fold_right (fun k buf => (k ++ String NUL buf)%string) EmptyString names.

Definition listxattr (fs : filesys) (path : string) : option string :=
  match stat fs path with
  | Some n => option_map (fun xa => name_buffer (map fst xa)) (node_xattrs n)
  | None => None
  end.

Definition getxattr (fs : filesys) (path key : string) : option string :=
  match stat fs path with
  | Some n =>
      match node_xattrs n with
      | Some xa => assoc key xa
      | None => None
      end
  | None => None
  end.

(** setxattr(2) with flags 0: create or replace. *)
Definition setxattr (fs : filesys) (path key value : string) : option filesys :=
  if Nat.ltb XATTR_NAME_MAX (String.length key)
     || Nat.ltb XATTR_SIZE_MAX (String.length value)
     || String.eqb key ""
  then None
  else
    match namei fs path with
    | Some p =>
        option_map (set_root fs)
          (alter (with_xattrs (fun xa => Some (set_assoc key value xa))) (root fs) p)
    | None => None
    end.

(** removexattr(2): the attribute must be there. *)
Definition removexattr (fs : filesys) (path key : string) : option filesys :=
  match namei fs path with
  | Some p =>
      option_map (set_root fs)
        (alter (with_xattrs (fun xa =>
                  match assoc key xa with
                  | Some _ => Some (remove_assoc key xa)
                  | None => None
                  end)) (root fs) p)
  | None => None
  end.

(** ** The core's side of a request *)

(** Modelled from the spec: the request variables of the HTTP collaborator
    ([uwsgi_get_var] of the core, not part of this plugin).  [None] is the
    NULL result, which leaves the caller's length at 0. *)
Definition uwsgi_get_var (req : wsgi_request) (key : string) : option string :=
  assoc key (vars req).

Definition set_resp (req : wsgi_request) (r : response) : wsgi_request :=
  mkreq (protocol req) (scheme req) (host req) (path_info req) (vars req)
        (post_cl req) (body_in req) (post_pos req) (app req) r.

Definition set_path_info (req : wsgi_request) (pi : string) : wsgi_request :=
  mkreq (protocol req) (scheme req) (host req) pi (vars req)
        (post_cl req) (body_in req) (post_pos req) (app req) (resp req).

Definition set_post_pos (req : wsgi_request) (n : nat) : wsgi_request :=
  mkreq (protocol req) (scheme req) (host req) (path_info req) (vars req)
        (post_cl req) (body_in req) n (app req) (resp req).

(** Modelled from the spec: the "prepare status" operation of the HTTP
    collaborator ([uwsgi_response_prepare_headers] of the core).  Until the
    head is sent each call starts the response head afresh with the given
    status line, so the status on the wire is that of the last call. *)
Definition uwsgi_response_prepare_headers (req : wsgi_request) (status : string)
  : wsgi_request :=
  set_resp req (mkresp (statuses (resp req) ++ [status]) [] (body_out (resp req))).

(** The status line the response carries when the handler returns. *)
Definition final_status (req : wsgi_request) : string :=
  last (statuses (resp req)) EmptyString.

(** Modelled from the spec: the core's ready-made error response
    [uwsgi_403], a single HTTP status. *)
Definition uwsgi_403 (req : wsgi_request) : wsgi_request :=
  uwsgi_response_prepare_headers req "403 Forbidden".

(** Modelled from the spec: [uwsgi_404] of the core, likewise. *)
Definition uwsgi_404 (req : wsgi_request) : wsgi_request :=
  uwsgi_response_prepare_headers req "404 Not Found".

(** What a read of the request body gives: NULL, the empty marker of the
    core, or bytes. *)
Inductive body_chunk : Type :=
| BodyNull
| BodyEmpty
| BodyData (b : string).

(** Modelled from the spec: the body streaming primitive
    ([uwsgi_request_body_read] of the core).  Nothing left of the announced
    length gives the empty marker; otherwise up to [hint] bytes, or NULL
    when the peer stops short of what it announced. *)
Definition uwsgi_request_body_read (req : wsgi_request) (hint : nat)
  : body_chunk * wsgi_request :=
  let left := post_cl req - post_pos req in
  if Nat.eqb left 0 then (BodyEmpty, req)
  else
    let want := Nat.min hint left in
    let got := substring (post_pos req) want (body_in req) in
    if Nat.ltb (String.length got) want then (BodyNull, req)
    else (BodyData got, set_post_pos req (post_pos req + want)).

(** ** PUT (webdav.c, 514-545) *)

(** The most the copy loop asks of the reader at once. *)
Definition BODY_CHUNK : nat := 32768.

(** The copy loop.  [remains] is never decreased by the C code: the loop
    ends when the reader reports nothing left, or fails, or a write comes
    back short.  [fuel] bounds the iterations; [None] is running out. *)
Fixpoint put_body_loop (fuel : nat) (remains : nat) (req : wsgi_request)
  (fd : fdesc) (fs : filesys) : option (wsgi_request * filesys) :=
  match fuel with
  | O => None
  | S fuel' =>
      if Nat.ltb 0 remains then
        match uwsgi_request_body_read req (Nat.min remains BODY_CHUNK) with
        | (BodyData body, req') =>
            match write fs fd body with
            | (n, fd', fs') =>
                if Nat.eqb n (String.length body)
                then put_body_loop fuel' remains req' fd' fs'
                else Some (req', fs')
            end
        | (_, req') => Some (req', fs)
        end
      else Some (req, fs)
  end.

(** [uwsgi_wevdav_manage_put].  The copy loop gets fuel for one read per
    announced byte and the last, empty one. *)
Definition uwsgi_wevdav_manage_put (req : wsgi_request) (fs : filesys)
  : option (wsgi_request * filesys) :=
  let resolved :=
    match uwsgi_webdav_expand_path fs (app req) (path_info req) with
    | Some filename => Some filename
    | None => uwsgi_webdav_expand_fake_path fs (app req) (path_info req)
    end in
  match resolved with
  | None => Some (uwsgi_response_prepare_headers req "409 Conflict", fs)
  | Some filename =>
      match open_wronly_creat fs filename with
      | None => Some (uwsgi_403 req, fs)
      | Some (fd, fs1) =>
          let req1 := uwsgi_response_prepare_headers req "201 Created" in
          put_body_loop (post_cl req + 2) (post_cl req) req1 fd fs1
      end
  end.

(** ** DELETE (webdav.c, 547-616) *)

(** The removals a traversal carried out, in order: ghost state, for the
    claims about the order of the traversal. *)
Inductive fs_action : Type :=
| Unlinked (path : string)
| Removed (path : string).

(** The loop of [uwsgi_webdav_massive_delete] over the directory stream;
    [rec] is the function itself, for the entries that are directories. *)
Fixpoint delete_loop
  (rec : filesys -> string -> option (Z * filesys * list fs_action))
  (dir : string) (d : list dirent) (fs : filesys) (log : list fs_action)
  : option (Z * filesys * list fs_action) :=
  match d with
  | [] =>
      match rmdir fs dir with
      | Ok fs' => Some (0%Z, fs', log ++ [Removed dir])
      | Err _ => Some ((-1)%Z, fs, log)
      end
  | de :: d' =>
      (* skip myself and parent *)
      if String.eqb (d_name de) "." || String.eqb (d_name de) ".."
      then delete_loop rec dir d' fs log
      else
        let item := (dir ++ "/" ++ d_name de)%string in
        match d_type de with
        | DT_DIR =>
            match rec fs item with
            | None => None
            | Some (ret, fs', sub) =>
                if Z.eqb ret 0 then delete_loop rec dir d' fs' (log ++ sub)
                else Some ((-1)%Z, fs', log ++ sub)
            end
        | _ =>
            match unlink fs item with
            | Some fs' => delete_loop rec dir d' fs' (log ++ [Unlinked item])
            | None => Some ((-1)%Z, fs, log)
            end
        end
  end.

(** [uwsgi_webdav_massive_delete]: 0 or -1, the tree it leaves and what it
    removed.  [fuel] bounds the nesting of the recursive calls; [None] is
    running out of it, or the NULL stream of a failed opendir. *)
Fixpoint uwsgi_webdav_massive_delete (fuel : nat) (fs : filesys) (dir : string)
  : option (Z * filesys * list fs_action) :=
  match fuel with
  | O => None
  | S fuel' =>
      match opendir fs dir with
      | None => None
      | Some d => delete_loop (uwsgi_webdav_massive_delete fuel') dir d fs []
      end
  end.

(** Nesting depth of a tree: enough fuel for any directory in it. *)
Fixpoint height (n : node) : nat :=
  match n with
  | Dir _ _ es =>
      S ((fix hs (es : list (string * node)) : nat :=
            match es with
            | [] => 0
            | e :: es' => Nat.max (height (snd e)) (hs es')
            end) es)
  | _ => 0
  end.

(** [uwsgi_wevdav_manage_delete].  The recursive delete gets fuel for the
    depth of the whole tree, so that [None] is never running out of it: it
    is the recursive delete reading from the NULL stream of an opendir that
    failed. *)
Definition uwsgi_wevdav_manage_delete (req : wsgi_request) (fs : filesys)
  : option (wsgi_request * filesys) :=
  match uwsgi_webdav_expand_path fs (app req) (path_info req) with
  | None => Some (uwsgi_404 req, fs)
  | Some filename =>
      if uwsgi_is_dir fs filename then
        match rmdir fs filename with
        | Ok fs' => Some (uwsgi_response_prepare_headers req "200 OK", fs')
        | Err ENOTEMPTY =>
            match uwsgi_webdav_massive_delete (height (root fs)) fs filename with
            | None => None
            | Some (ret, fs', _) =>
                if Z.eqb ret 0
                then Some (uwsgi_response_prepare_headers req "200 OK", fs')
                else Some (uwsgi_403 req, fs')
            end
        | Err _ => Some (uwsgi_403 req, fs)
        end
      else
        match unlink fs filename with
        | Some fs' => Some (uwsgi_response_prepare_headers req "200 OK", fs')
        | None => Some (uwsgi_403 req, fs)
        end
  end.

(** ** MOVE (webdav.c, 796-859) *)

Definition uint16 (n : nat) : nat := n mod 65536.

(** The path part of the Destination header: scheme ("http" when the request
    has none), "://" and the host are skipped by their lengths.  When the
    header is shorter than that, [destination + skip] lies past its end and
    [destination_len - skip] wraps around in 16 bits: the C code reads
    memory that is not the header, and there is no result ([None]). *)
Definition destination_item (req : wsgi_request) (destination : string)
  : option string :=
  let destination_len := String.length destination in
  let scheme_len :=
    if Nat.eqb (String.length (scheme req)) 0 then 4
    else String.length (scheme req) in
  let skip := uint16 (scheme_len + 3 + String.length (host req)) in
  if Nat.ltb destination_len skip then None
  else Some (substring skip (uint16 (destination_len - skip)) destination).

(** [overwrite[0] == 'F'].  (For an empty value the C code looks at the byte
    behind it; here that is not an 'F'.) *)
Definition starts_with_F (s : string) : bool :=
  match s with
  | String c _ => Ascii.eqb c "F"%char
  | EmptyString => false
  end.

(** [uwsgi_wevdav_manage_move].  [None] when the path of the destination
    would be read past the end of the header. *)
Definition uwsgi_wevdav_manage_move (req : wsgi_request) (fs : filesys)
  : option (wsgi_request * filesys) :=
  match uwsgi_webdav_expand_path fs (app req) (path_info req) with
  | None => Some (uwsgi_404 req, fs)
  | Some filename =>
      let destination := uwsgi_get_var req "HTTP_DESTINATION" in
      let destination_len :=
        match destination with
        | Some d => String.length d
        | None => 0
        end in
      if Nat.eqb destination_len 0 then Some (uwsgi_403 req, fs)
      else
        let can_overwrite :=
          match uwsgi_get_var req "HTTP_OVERWRITE" with
          | Some overwrite => negb (starts_with_F overwrite)
          | None => true
          end in
        match destination_item req
                (match destination with Some d => d | None => EmptyString end)
        with
        | None => None
        | Some d_item =>
            let strict := uwsgi_webdav_expand_path fs (app req) d_item in
            let already_exists :=
              match strict with Some _ => true | None => false end in
            if already_exists && negb can_overwrite
            then Some (uwsgi_response_prepare_headers req
                         "412 Precondition Failed", fs)
            else
              let d_resolved :=
                match strict with
                | Some d_filename => Some d_filename
                | None => uwsgi_webdav_expand_fake_path fs (app req) d_item
                end in
              match d_resolved with
              | None => Some (uwsgi_response_prepare_headers req "409 Conflict", fs)
              | Some d_filename =>
                  match rename fs filename d_filename with
                  | None => Some (uwsgi_403 req, fs)
                  | Some fs' =>
                      if already_exists
                      then Some (uwsgi_response_prepare_headers req
                                   "204 No Content", fs')
                      else Some (uwsgi_response_prepare_headers req
                                   "201 Created", fs')
                  end
              end
        end
  end.

(** ** MKCOL (webdav.c, 861-890) *)

Definition ends_with_slash (s : string) : bool :=
  match get (String.length s - 1) s with
  | Some c => Ascii.eqb c slash
  | None => false
  end.

Definition uwsgi_wevdav_manage_mkcol (req : wsgi_request) (fs : filesys)
  : wsgi_request * filesys :=
  if Nat.ltb 0 (post_cl req)
  then (uwsgi_response_prepare_headers req "415 Unsupported Media Type", fs)
  else
    match uwsgi_webdav_expand_path fs (app req) (path_info req) with
    | Some _ => (uwsgi_response_prepare_headers req "405 Method Not Allowed", fs)
    | None =>
        (* remove the last slash (if needed) *)
        let req :=
          if Nat.ltb 1 (String.length (path_info req))
             && ends_with_slash (path_info req)
          then set_path_info req
                 (substring 0 (String.length (path_info req) - 1) (path_info req))
          else req in
        match uwsgi_webdav_expand_fake_path fs (app req) (path_info req) with
        | None => (uwsgi_response_prepare_headers req "409 Conflict", fs)
        | Some filename =>
            (* the 409 branch has no return: control falls to the 201 *)
            let '(req, fs) :=
              match mkdir fs filename with
              | None => (uwsgi_response_prepare_headers req "409 Conflict", fs)
              | Some fs' => (req, fs')
              end in
            (uwsgi_response_prepare_headers req "201 Created", fs)
        end
    end.

(** ** LOCK (webdav.c, 892-895) *)

(** The shared lock cache of the core: full URL of the request to token.
    The handler is given it and hands it back. *)
Definition lock_cache := list (string * string).

Definition uwsgi_wevdav_manage_lock (req : wsgi_request) (cache : lock_cache)
  : wsgi_request * lock_cache :=
  (uwsgi_response_prepare_headers req "201 Created", cache).

(** ** Properties (webdav.c, 89-213 and 363-393) *)

(** An element of a response document: namespace (href), local name, text.
    (The one element with an element child, resourcetype of a collection,
    carries that child's name as its content.) *)
Record xml_prop : Type := mkprop {
  p_ns : option string;
  p_name : string;
  p_text : option string
}.

(** One [D:response] of a multistatus: the URI that becomes its href (the
    core percent-encodes it on the way), the status line of its propstat,
    and the children of its [D:prop]. *)
Record dav_response : Type := mkdavresp {
  r_uri : string;
  r_status : string;
  r_props : list xml_prop
}.

Definition DAV : option string := Some "DAV:".

(** The namespace of an element that xmlNewChild or xmlNewTextChild makes
    with a NULL namespace under a parent in DAV:, as every parent is here:
    it takes the parent's, and keeps it unless xmlSetNs then gives it the
    code's [own]. *)
Definition element_ns (own : option string) : option string :=
  match own with
  | Some href => Some href
  | None => DAV
  end.

Definition xattr_prefix : string := "user.uwsgi.webdav.".

(** Modelled from the spec: [uwsgi_starts_with] of the core, here as the
    truth of "the key begins with the fixed prefix" (the C function answers
    0 for it). *)
Definition uwsgi_starts_with (key pre : string) : bool := String.prefix pre key.

(** [strchr(s, c)]: what precedes the first [c] and what follows it. *)
Fixpoint strchr_split (c : ascii) (s : string) : option (string * string) :=
  match s with
  | EmptyString => None
  | String d s' =>
      if Ascii.eqb d c then Some (EmptyString, s')
      else match strchr_split c s' with
           | Some (a, b) => Some (String d a, b)
           | None => None
           end
  end.

Definition pipe : ascii := "|"%char.

Definition drop_str (n : nat) (s : string) : string :=
  substring n (String.length s - n) s.

(** What the listing loop does with one complete key of the name buffer
    (lines 170-202).  [rlen] is the length of the name buffer: the C code
    tests it, not the length of the value. *)
Definition xattr_item (fs : filesys) (filename : string) (with_values : bool)
  (rlen : nat) (key : string) : list xml_prop :=
  if uwsgi_starts_with key xattr_prefix then
    let rest := drop_str 18 key in
    let separator := strchr_split pipe rest in
    let xattr_key :=
      match separator with
      | Some (_, after) => after
      | None => rest
      end in
    let xattr_ns :=
      match separator with
      | Some (before, _) => Some before
      | None => None
      end in
    if with_values then
      if Nat.ltb 0 rlen then
        match getxattr fs filename key with
        | Some xvalue =>
            (* the second getxattr must return more than 0 *)
            if Nat.ltb 0 (String.length xvalue)
            then [mkprop (element_ns xattr_ns) xattr_key (Some xvalue)]
            else []
        | None => []
        end
      else if Nat.eqb rlen 0 then [mkprop (element_ns xattr_ns) xattr_key None]
      else []
    else [mkprop (element_ns xattr_ns) xattr_key None]
  else [].

(** The scan of the name buffer (lines 164-208): [key] is the name being
    read, if any; a NUL closes it; a NUL with no name open ends the scan. *)
Fixpoint xattr_scan (fs : filesys) (filename : string) (with_values : bool)
  (rlen : nat) (buf : string) (key : option string) : list xml_prop :=
  match buf with
  | EmptyString => []
  | String c buf' =>
      if Ascii.eqb c NUL then
        match key with
        | None => []
        | Some k =>
            xattr_item fs filename with_values rlen k
            ++ xattr_scan fs filename with_values rlen buf' None
        end
      else
        match key with
        | None => xattr_scan fs filename with_values rlen buf' (Some (String c ""))
        | Some k =>
            xattr_scan fs filename with_values rlen buf' (Some (k ++ String c ""))%string
        end
  end.

(** The dead properties of a file, as the listing reports them. *)
Definition dead_props (fs : filesys) (filename : string) (with_values : bool)
  : list xml_prop :=
  match listxattr fs filename with
  | None => []
  | Some xattrs_buf =>
      let rlen := String.length xattrs_buf in
      if Nat.leb rlen 0 then []
      else xattr_scan fs filename with_values rlen xattrs_buf None
  end.

(** Modelled from the spec: [uwsgi_num2str] of the core, the decimal text
    of getcontentlength. *)
Definition uwsgi_num2str (n : nat) : string :=
  NilEmpty.string_of_uint (Nat.to_uint n).

(** The live properties (lines 110-150).  Timestamps and MIME types are not
    part of the tree: the two date elements are there without text and
    getcontenttype is left out, as when no MIME type is known. *)
Definition live_props (uri : string) (st : node) (with_values : bool)
  : list xml_prop :=
  let is_dir := match st with Dir _ _ _ => true | _ => false end in
  if with_values then
    [mkprop DAV "displayname" (Some uri)]
    ++ (if is_dir then [mkprop DAV "resourcetype" (Some "collection")]
        else [mkprop DAV "resourcetype" None;
              mkprop DAV "getcontentlength"
                (Some (uwsgi_num2str
                         (match st with
                          | File _ d _ => String.length d
                          | _ => 0
                          end)))])
    ++ [mkprop DAV "creationdate" None;
        mkprop DAV "getlastmodified" None;
        mkprop DAV "executable" None]
  else
    [mkprop DAV "displayname" None; mkprop DAV "resourcetype" None]
    ++ (if is_dir then []
        else [mkprop DAV "getcontentlength" None;
              mkprop DAV "getcontenttype" None])
    ++ [mkprop DAV "creationdate" None; mkprop DAV "getlastmodified" None].

(** [uwsgi_webdav_add_props]: -1 and nothing added when stat fails,
    otherwise 0 and one more [D:response]. *)
Definition uwsgi_webdav_add_props (req : wsgi_request) (fs : filesys)
  (multistatus : list dav_response) (uri filename : string) (with_values : bool)
  : Z * list dav_response :=
  match stat fs filename with
  | None => ((-1)%Z, multistatus)
  | Some st =>
      let r_status := (protocol req ++ " 200 OK")%string in
      (0%Z,
       multistatus
       ++ [mkdavresp uri r_status
             (live_props uri st with_values ++ dead_props fs filename with_values)])
  end.

(** The attribute a property is kept in: the fixed prefix, the namespace
    and '|' when there is a namespace, the name (both functions below build
    it the same way). *)
Definition xattr_name_of (ns : option string) (attr : string) : string :=
  match ns with
  | Some ns => (xattr_prefix ++ ns ++ "|" ++ attr)%string
  | None => (xattr_prefix ++ attr)%string
  end.

Definition uwsgi_webdav_prop_set (fs : filesys) (filename attr : string)
  (ns : option string) (body : string) : Z * filesys :=
  let xattr_name := xattr_name_of ns attr in
  match setxattr fs filename xattr_name body with
  | Some fs' => (0%Z, fs')
  | None => ((-1)%Z, fs)
  end.

Definition uwsgi_webdav_prop_del (fs : filesys) (filename attr : string)
  (ns : option string) : Z * filesys :=
  let xattr_name := xattr_name_of ns attr in
  match removexattr fs filename xattr_name with
  | Some fs' => (0%Z, fs')
  | None => ((-1)%Z, fs)
  end.

(** ** PROPFIND: the Depth header (webdav.c, 244-302) *)

(** Modelled from the spec: the core's number reader ([uwsgi_str_num]): the
    characters taken as decimal digits by position, whatever they are. *)
Definition uwsgi_str_num (s : string) : Z :=
  fold_left (fun num c => (num * 10 + (Z.of_nat (nat_of_ascii c) - 48))%Z)
            (list_ascii_of_string s) 0%Z.

(** [uwsgi_webdav_manage_prop]: the multistatus built for the target.
    [None] stands for the NULL directory stream the C code would read from
    when opendir fails on the target of a deeper listing (not a directory,
    or one the process may not read): its result is not checked. *)
Definition uwsgi_webdav_manage_prop (req : wsgi_request) (fs : filesys)
  (filename : string) (with_values : bool) : option (list dav_response) :=
  let depth :=
    match uwsgi_get_var req "HTTP_DEPTH" with
    | Some http_depth => uwsgi_str_num http_depth
    | None => 0%Z
    end in
  if Z.eqb depth 0 then
    let uri := path_info req in
    Some (snd (uwsgi_webdav_add_props req fs [] uri filename with_values))
  else
    match opendir fs filename with
    | None => None
    | Some collection =>
        Some
          (fold_left
             (fun multistatus de =>
                if String.eqb (d_name de) ".." then multistatus
                else
                  let '(uri, direntry) :=
                    if String.eqb (d_name de) "."
                    then (path_info req, filename)
                    else if ends_with_slash (path_info req)
                    then ((path_info req ++ d_name de)%string,
                          (filename ++ "/" ++ d_name de)%string)
                    else ((path_info req ++ "/" ++ d_name de)%string,
                          (filename ++ "/" ++ d_name de)%string) in
                  snd (uwsgi_webdav_add_props req fs multistatus uri direntry
                         with_values))
             collection [])
    end.

Module Sample.

(** /srv/dav is the docroot; /srv/secret lies beside it. *)
Definition tree : node :=
  Dir true [] [
    ("srv", Dir true [] [
       ("dav", Dir true [] [
          ("a.txt", File true "hello" []);
          ("d", Dir true [] [("a", File true "1" []); ("b", File true "2" [])]);
          ("out", Symlink "/srv/secret");
          ("ro", Dir false [] [("f", File true "x" [])])
        ]);
       ("secret", Dir true [] [("key", File true "k" [])])
     ])
  ].

Definition fs : filesys := mkfs tree 1000 (fun _ => true).
Definition dav : uwsgi_app := mkapp "" "/srv/dav".

(** The same with more below /srv/dav/d: a subdirectory that holds a
    directory and a symbolic link leading out of the docroot. *)
Definition nested : filesys :=
  mkfs
    (Dir true [] [
       ("srv", Dir true [] [
          ("dav", Dir true [] [
             ("a.txt", File true "hello" []);
             ("d", Dir true [] [
                ("a", File true "1" []);
                ("sub", Dir true [] [
                   ("deep", Dir true [] [("x", File true "3" [])]);
                   ("l", Symlink "/srv/secret")
                 ]);
                ("b", File true "2" [])
              ])
           ]);
          ("secret", Dir true [] [("key", File true "k" [])])
        ])
     ])
    1000 (fun _ => true).

(** The sample tree when the process may not read /srv/dav/d. *)
Definition locked : filesys :=
  mkfs tree 1000
       (fun p => if list_eq_dec string_dec p ["srv"; "dav"; "d"] then false
                 else true).

(** A request to http://h with the given path, variables and body. *)
Definition request (pi : string) (v : list (string * string)) (body : string)
  : wsgi_request :=
  mkreq "HTTP/1.1" "http" "h" pi v (String.length body) body 0 dav
        (mkresp [] [] "").

End Sample.


(** * What the claims speak of *)

Definition is_link (n : node) : bool :=
  match n with
  | Symlink _ => true
  | _ => false
  end.

Definition is_dir (n : node) : bool :=
  match n with
  | Dir _ _ _ => true
  | _ => false
  end.

(** A canonical path: made of entry names, leading to something that is
    not a symbolic link. *)
Definition canon_path (r : node) (s : list string) : Prop :=
  Forall (fun c => good_name c = true) s
  /\ exists n, find_node r s = Some n /\ is_link n = false.

Definition no_slash (c : string) : Prop := has_char slash c = false.

(** "Has the docroot as a prefix, followed by '/' or equal to it"; under
    the docroot "/" every absolute name qualifies. *)
Definition under_docroot (docroot f : string) : bool :=
  String.eqb f docroot
  || String.prefix (docroot ++ "/") f
  || (String.eqb docroot "/" && String.prefix "/" f).

(** Escape safety of the strict resolver at one request path. *)
Definition escape_safe (fs : filesys) (ua : uwsgi_app) (p : string) : Prop :=
  match uwsgi_webdav_expand_path fs ua p with
  | Some filename => under_docroot (interpreter ua) filename = true
  | None => True
  end.

(** No symbolic link anywhere in a tree. *)
Fixpoint no_links (n : node) : bool :=
  match n with
  | Symlink _ => false
  | File _ _ _ => true
  | Dir _ _ es =>
      (fix all (es : list (string * node)) : bool :=
         match es with
         | [] => true
         | e :: es' => no_links (snd e) && all es'
         end) es
  end.

(** No ".." among the components of a request path. *)
Definition no_dotdot (p : string) : bool :=
  negb (existsb (String.eqb "..") (split_slash p)).

(** Parity of the two resolvers at one request path. *)
Definition parent_parity (fs : filesys) (ua : uwsgi_app) (p : string) : Prop :=
  forall filename,
    uwsgi_webdav_expand_path fs ua p = Some filename ->
    uwsgi_webdav_expand_fake_path fs ua p = Some filename.

(** What a handler left behind: the status on the wire and the tree. *)
Definition leaves (out : wsgi_request * filesys) (status : string)
  (fs' : filesys) : Prop :=
  final_status (fst out) = status /\ snd out = fs'.

(** The same of a handler that may have no result: it has one. *)
Definition returns_leaving (out : option (wsgi_request * filesys))
  (status : string) (fs' : filesys) : Prop :=
  exists o, out = Some o /\ leaves o status fs'.

(** The results MOVE can have. *)
Definition move_result (req : wsgi_request) (fs : filesys)
  (o : wsgi_request * filesys) : Prop :=
  o = (uwsgi_404 req, fs)
  \/ o = (uwsgi_403 req, fs)
  \/ o = (uwsgi_response_prepare_headers req "412 Precondition Failed", fs)
  \/ o = (uwsgi_response_prepare_headers req "409 Conflict", fs)
  \/ exists filename d_filename fs',
       uwsgi_webdav_expand_path fs (app req) (path_info req) = Some filename
       /\ rename fs filename d_filename = Some fs'
       /\ (o = (uwsgi_response_prepare_headers req "204 No Content", fs')
           \/ o = (uwsgi_response_prepare_headers req "201 Created", fs')).

(** The Destination header, where MOVE gets to read its path, is as long as
    what is skipped of it. *)
Definition destination_in_bounds (req : wsgi_request) : Prop :=
  forall destination,
    uwsgi_get_var req "HTTP_DESTINATION" = Some destination ->
    destination <> EmptyString ->
    destination_item req destination <> None.

(** The URIs a multistatus reports on. *)
Definition reported (out : option (list dav_response)) : option (list string) :=
  option_map (map r_uri) out.

(** [uri] names the collection at [base] itself or one of its direct
    members, as the listing loop writes them. *)
Definition self_or_member (base : string) (names : list string) (uri : string)
  : Prop :=
  uri = base
  \/ exists name,
       In name names
       /\ (uri = (base ++ name)%string \/ uri = (base ++ "/" ++ name)%string).

(** The tree with the node at [p] exchanged for [n'] (the tree itself when
    there is nothing at [p]). *)
Fixpoint replace (r : node) (p : list string) (n' : node) : node :=
  match p with
  | [] => n'
  | c :: p' =>
      match r with
      | Dir w xa es =>
          match assoc c es with
          | Some ch => Dir w xa (set_assoc c (replace ch p' n') es)
          | None => r
          end
      | _ => r
      end
  end.

(** [r'] is [r] except, at most, below the existing path [p]. *)
Definition changed_below (r : node) (p : list string) (r' : node) : Prop :=
  exists n n', find_node r p = Some n /\ r' = replace r p n'.

(** [r'] is [r] with the entry [leaf] of the directory at [q], and all that
    hangs below it, taken out. *)
Definition removed_at (r : node) (q : list string) (leaf : string) (r' : node)
  : Prop :=
  exists w xa es,
    find_node r q = Some (Dir w xa es)
    /\ r' = replace r q (Dir w xa (remove_assoc leaf es)).

(** Every entry name in the tree is a name a directory can hold. *)
Fixpoint good_tree (n : node) : bool :=
  match n with
  | Dir _ _ es =>
      (fix all (es : list (string * node)) : bool :=
         match es with
         | [] => true
         | e :: es' => good_name (fst e) && good_tree (snd e) && all es'
         end) es
  | _ => true
  end.

(** Every directory of the tree can be written to (entries taken out). *)
Fixpoint all_writable (n : node) : bool :=
  match n with
  | Dir w _ es =>
      w && (fix all (es : list (string * node)) : bool :=
              match es with
              | [] => true
              | e :: es' => all_writable (snd e) && all es'
              end) es
  | _ => true
  end.

(** The two states differ in the tree alone. *)
Definition same_volume (fs fs' : filesys) : Prop :=
  avail fs' = avail fs /\ may_opendir fs' = may_opendir fs.

(** The state with a stream allowed on every directory. *)
Definition open_all (fs : filesys) : filesys :=
  mkfs (root fs) (avail fs) (fun _ => true).

(** The removals of a depth-first traversal of the directory [n] named
    [dir]: for each entry in directory order, the traversal of a
    subdirectory or the unlinking of anything else; the directory last. *)
Fixpoint postorder (dir : string) (n : node) : list fs_action :=
  match n with
  | Dir _ _ es =>
      (fix each (es : list (string * node)) : list fs_action :=
         match es with
         | [] => []
         | e :: es' =>
             match snd e with
             | Dir _ _ _ => postorder (dir ++ "/" ++ fst e)%string (snd e)
             | _ => [Unlinked (dir ++ "/" ++ fst e)%string]
             end ++ each es'
         end) es
      ++ [Removed dir]
  | _ => []
  end.

Definition trivial_comp (c : string) : bool :=
  String.eqb c "" || String.eqb c ".".

(** [dir] is text for the canonical path [p]: absolute, its last component
    the last name of [p], and before it the names of the rest of [p] with
    nothing but "" and "." in between. *)
Definition spells (dir : string) (p : list string) : Prop :=
  is_absolute dir = true
  /\ Forall (fun c => good_name c = true) p
  /\ exists cs q leaf,
       p = q ++ [leaf]
       /\ split_slash dir = cs ++ [leaf]
       /\ filter (fun c => negb (trivial_comp c)) cs = q.

(** The directory stream of a directory with the entries [es]. *)
Definition stream_of (es : list (string * node)) : list dirent :=
  mkdirent "." DT_DIR :: mkdirent ".." DT_DIR
  :: map (fun e => mkdirent (fst e) (dtype_of (snd e))) es.

(** What a run of the recursive delete on a directory amounts to, when a
    stream opens on the directory and on every directory below it: it
    returns; with 0 the directory is gone from its parent, removed in
    depth-first order; with -1 nothing outside the directory has changed;
    and it is 0 when the parent, the directory and every directory below it
    can be written to. *)
Definition delete_spec
  (run : filesys -> string -> option (Z * filesys * list fs_action))
  (bound : nat) : Prop :=
  forall fs dir q leaf w xa es,
    spells dir (q ++ [leaf]) ->
    find_node (root fs) (q ++ [leaf]) = Some (Dir w xa es) ->
    good_tree (Dir w xa es) = true ->
    height (Dir w xa es) <= bound ->
    (forall s, may_opendir fs ((q ++ [leaf]) ++ s) = true) ->
    exists ret fs' log,
      run fs dir = Some (ret, fs', log)
      /\ same_volume fs fs'
      /\ ((ret = 0%Z
           /\ removed_at (root fs) q leaf (root fs')
           /\ log = postorder dir (Dir w xa es))
          \/ (ret = (-1)%Z
              /\ changed_below (root fs) (q ++ [leaf]) (root fs')))
      /\ (dir_writable (root fs) q = true ->
          all_writable (Dir w xa es) = true -> ret = 0%Z).

(** What resolution looks at in a node. *)
Inductive kind : Type :=
| KFile
| KLink (target : string)
| KDir.

Definition kind_of (n : node) : kind :=
  match n with
  | File _ _ _ => KFile
  | Symlink t => KLink t
  | Dir _ _ _ => KDir
  end.

Definition entries_of (n : node) : list (string * node) :=
  match n with
  | Dir _ _ es => es
  | _ => []
  end.

(** Attribute names as the kernel keeps them: not empty, no NUL inside, no
    name twice. *)
Definition wf_xattrs (xa : xattrs) : Prop :=
  Forall (fun k => k <> EmptyString /\ has_char NUL k = false) (map fst xa)
  /\ NoDup (map fst xa).

Definition put_xattrs (n : node) (xa' : xattrs) : node :=
  match n with
  | File w d _ => File w d xa'
  | Dir w _ es => Dir w xa' es
  | Symlink t => Symlink t
  end.

(** * Further behaviour of the handlers *)

(** The URI the listing loop gives a member of the collection. *)
Definition child_uri (req : wsgi_request) (name : string) : string :=
  if ends_with_slash (path_info req) then (path_info req ++ name)%string
  else (path_info req ++ "/" ++ name)%string.

(** The status lines MOVE can leave. *)
Definition move_statuses : list string :=
  ["404 Not Found"; "403 Forbidden"; "412 Precondition Failed";
   "409 Conflict"; "204 No Content"; "201 Created"].

(** No name twice in a list. *)
Fixpoint distinct (l : list string) : bool :=
  match l with
  | [] => true
  | k :: l' => negb (existsb (String.eqb k) l') && distinct l'
  end.

(** No directory of the tree holds a name twice. *)
Fixpoint unique_names (n : node) : bool :=
  match n with
  | Dir _ _ es =>
      distinct (map fst es)
      && (fix all (es : list (string * node)) : bool :=
            match es with
            | [] => true
            | e :: es' => unique_names (snd e) && all es'
            end) es
  | _ => true
  end.

(** The request path MKCOL resolves the parent of: one trailing '/' is
    dropped from a path longer than one character. *)
Definition mkcol_path (req : wsgi_request) : string :=
  if Nat.ltb 1 (String.length (path_info req)) && ends_with_slash (path_info req)
  then substring 0 (String.length (path_info req) - 1) (path_info req)
  else path_info req.

(** * The rest of the plugin *)

Local Open Scope string_scope.

(** ** What the tree does not record *)

(** The tree keeps contents, write permission and attributes.  What else
    the handlers ask of the system is given beside it: whether the process
    may open a file for reading (for the stream of a directory that is
    [may_opendir] of the state), the time it was last modified, the text of
    a date,
    the MIME type the core's table has for a file name, and the order
    versionsort puts two directory entries in. *)
Record environ : Type := mkenv {
  may_read : list string -> bool;
  st_mtime : list string -> nat;
  http_date : nat -> string;
  uwsgi_get_mime_type : string -> option string;
  versionsort : dirent -> dirent -> bool
}.

(** [struct uwsgi_webdav udav] (webdav.c, 50-57): the options. *)
Record uwsgi_webdav : Type := mkudav {
  mountpoints : list string;
  css : list string;
  javascript : list string;
  class_directory : option string;
  div : option string;
  udav_lock_cache : option string
}.

(** ** More of the core's side of a response *)

(** Modelled from the spec: the "add header" operation of the HTTP
    collaborator ([uwsgi_response_add_header] of the core). *)
Definition uwsgi_response_add_header (req : wsgi_request) (key value : string)
  : wsgi_request :=
  set_resp req (mkresp (statuses (resp req))
                       (headers (resp req) ++ [(key, value)])
                       (body_out (resp req))).

(** Modelled from the spec: "add content-length" of the HTTP collaborator. *)
Definition uwsgi_response_add_content_length (req : wsgi_request) (n : nat)
  : wsgi_request :=
  uwsgi_response_add_header req "Content-Length" (uwsgi_num2str n).

(** Modelled from the spec: "add content-type" of the HTTP collaborator. *)
Definition uwsgi_response_add_content_type (req : wsgi_request) (ct : string)
  : wsgi_request :=
  uwsgi_response_add_header req "Content-Type" ct.

(** Modelled from the spec: "add last-modified" of the HTTP collaborator. *)
Definition uwsgi_response_add_last_modified (env : environ)
  (req : wsgi_request) (t : nat) : wsgi_request :=
  uwsgi_response_add_header req "Last-Modified" (http_date env t).

(** Modelled from the spec: "write body" of the HTTP collaborator
    ([uwsgi_response_write_body_do] of the core). *)
Definition uwsgi_response_write_body_do (req : wsgi_request) (buf : string)
  : wsgi_request :=
  set_resp req (mkresp (statuses (resp req)) (headers (resp req))
                       (body_out (resp req) ++ buf)).

(** ** Reading from the tree *)

(** open(2) with O_RDONLY: the object must exist and be readable. *)
Definition open_rdonly (env : environ) (fs : filesys) (path : string)
  : option fdesc :=
  match namei fs path with
  | Some p => if may_read env p then Some (mkfd p 0) else None
  | None => None
  end.

(** fstat(2), as far as the handlers look: the object behind the
    descriptor. *)
Definition fstat (fs : filesys) (fd : fdesc) : option node :=
  find_node (root fs) (fd_path fd).

Definition st_size (n : node) : nat :=
  match n with
  | File _ d _ => String.length d
  | _ => 0
  end.

(** read(2): up to [count] bytes from the offset; -1 on what is not a
    regular file. *)
Definition read (fs : filesys) (fd : fdesc) (count : nat)
  : Z * string * fdesc :=
  match find_node (root fs) (fd_path fd) with
  | Some (File _ d _) =>
      let buf := substring (fd_off fd) count d in
      (Z.of_nat (String.length buf), buf,
       mkfd (fd_path fd) (fd_off fd + String.length buf))
  | _ => ((-1)%Z, EmptyString, fd)
  end.

(** The entries of a directory in the order of the comparison (scandir(3)
    with versionsort; "." and ".." are among them). *)
Fixpoint sort_insert (le : dirent -> dirent -> bool) (x : dirent)
  (l : list dirent) : list dirent :=
  match l with
  | [] => [x]
  | y :: l' => if le x y then x :: l else y :: sort_insert le x l'
  end.

Definition scandir (env : environ) (fs : filesys) (dir : string)
  : option (list dirent) :=
  option_map (fold_right (sort_insert (versionsort env)) [])
             (opendir fs dir).

(** ** The directory listing (webdav.c, 618-721) *)

Definition dquote : string := String "034"%char EmptyString.

(** [uwsgi_webdav_dirlist_add_item]; the buffer grows as needed. *)
Definition uwsgi_webdav_dirlist_add_item (udav : uwsgi_webdav) (ub item : string)
  (is_dir : bool) : string :=
  let ub :=
    if is_dir then
      match class_directory udav with
      | Some c =>
          ub ++ ("<li class=" ++ dquote) ++ c ++ (dquote ++ "><a href=" ++ dquote)
      | None =>
          ub ++ ("<li class=" ++ dquote ++ "directory" ++ dquote
                 ++ "><a href=" ++ dquote)
      end
    else ub ++ ("<li><a href=" ++ dquote) in
  let ub := ub ++ item in
  let ub :=
    if is_dir then (ub ++ ("/" ++ dquote ++ ">")) ++ item ++ "/"
    else (ub ++ (dquote ++ ">")) ++ item in
  ub ++ "</a></li>".

(** [d_name[0] == '.'] *)
Definition starts_with_dot (s : string) : bool :=
  match s with
  | String c _ => Ascii.eqb c "."%char
  | EmptyString => false
  end.

Definition is_dt_dir (t : d_type_t) : bool :=
  match t with
  | DT_DIR => true
  | _ => false
  end.

(** [uwsgi_webdav_dirlist]: the page, then its type, its length and the
    page itself as the body. *)
Definition uwsgi_webdav_dirlist (env : environ) (udav : uwsgi_webdav)
  (req : wsgi_request) (fs : filesys) (dir : string) : wsgi_request :=
  let ub := "<html><head><title>" ++ dir ++ "</title>" in
  let ub :=
    fold_left
      (fun ub usl =>
         ub ++ ("<link rel=" ++ dquote ++ "stylesheet" ++ dquote
                ++ " href=" ++ dquote)
            ++ usl ++ (dquote ++ " type=" ++ dquote ++ "text/css" ++ dquote ++ ">"))
      (css udav) ub in
  let ub :=
    fold_left
      (fun ub usl =>
         ub ++ ("<script src=" ++ dquote) ++ usl ++ (dquote ++ "></script>"))
      (javascript udav) ub in
  let ub := ub ++ "</head><body>" in
  let ub :=
    match div udav with
    | Some d => ub ++ ("<div id=" ++ dquote) ++ d ++ (dquote ++ ">")
    | None => ub ++ "<div>"
    end in
  let ub := uwsgi_webdav_dirlist_add_item udav ub ".." true in
  match scandir env fs dir with
  | None => req
  | Some tasklist =>
      let ub :=
        fold_left
          (fun ub de =>
             if starts_with_dot (d_name de) then ub
             else uwsgi_webdav_dirlist_add_item udav ub (d_name de)
                    (is_dt_dir (d_type de)))
          tasklist ub in
      let ub := ub ++ "</ul></div></body></html>" in
      let req := uwsgi_response_add_content_type req "text/html" in
      let req := uwsgi_response_add_content_length req (String.length ub) in
      uwsgi_response_write_body_do req ub
  end.

(** ** GET and HEAD (webdav.c, 723-787) *)

(** The loop that sends the file: [remains] bytes are still to go.  A read
    that gives nothing ends it.  [fuel] bounds the iterations; [None] is
    running out. *)
Fixpoint get_body_loop (fuel : nat) (remains : nat) (fs : filesys)
  (fd : fdesc) (req : wsgi_request) : option wsgi_request :=
  match fuel with
  | O => None
  | S fuel' =>
      if Nat.ltb 0 remains then
        match read fs fd (Nat.min BODY_CHUNK remains) with
        | (rlen, buf, fd') =>
            if Z.leb rlen 0 then Some req
            else get_body_loop fuel' (remains - Z.to_nat rlen) fs fd'
                   (uwsgi_response_write_body_do req buf)
        end
      else Some req
  end.

(** [uwsgi_wevdav_manage_get]; [send_body] is 1 for GET and 0 for HEAD.
    The loop gets fuel for one read per byte of the file. *)
Definition uwsgi_wevdav_manage_get (env : environ) (udav : uwsgi_webdav)
  (req : wsgi_request) (fs : filesys) (send_body : bool)
  : option wsgi_request :=
  match uwsgi_webdav_expand_path fs (app req) (path_info req) with
  | None => Some (uwsgi_404 req)
  | Some filename =>
      if uwsgi_is_dir fs filename then
        let req := uwsgi_response_prepare_headers req "200 OK" in
        Some (if send_body then uwsgi_webdav_dirlist env udav req fs filename
              else req)
      else
        match open_rdonly env fs filename with
        | None => Some (uwsgi_403 req)
        | Some fd =>
            match fstat fs fd with
            | None => Some (uwsgi_403 req)
            | Some st =>
                let req := uwsgi_response_prepare_headers req "200 OK" in
                let req := uwsgi_response_add_content_length req (st_size st) in
                let req :=
                  uwsgi_response_add_last_modified env req
                    (st_mtime env (fd_path fd)) in
                let req :=
                  match uwsgi_get_mime_type env filename with
                  | Some mime_type =>
                      uwsgi_response_add_content_type req mime_type
                  | None => req
                  end in
                if send_body
                then get_body_loop (st_size st + 1) (st_size st) fs fd req
                else Some req
            end
        end
  end.


Module SampleEnv.

Definition env : environ :=
  mkenv (fun _ => true) (fun _ => 0) (fun _ => "Thu, 01 Jan 1970 00:00:00 GMT")
        (fun _ => Some "text/plain")
        (fun a b => String.leb (d_name a) (d_name b)).

Definition udav : uwsgi_webdav := mkudav ["/srv/dav"] [] [] None None None.

(** The sample tree without its symbolic link. *)
Definition plain_tree : node :=
  Dir true [] [
    ("srv", Dir true [] [
       ("dav", Dir true [] [
          ("a.txt", File true "hello" []);
          ("d", Dir true [] [("a", File true "1" []); ("b", File true "2" [])])
        ])
     ])
  ].

Definition plain : filesys := mkfs plain_tree 1000 (fun _ => true).

End SampleEnv.

(** ** Request documents and the two XML handlers (webdav.c, 304-361 and
    395-511) *)

(** A node of a parsed request body, as far as the handlers look: its
    type, and for an element its namespace (the href), its local name and
    its children. *)
#[warnings="-register-all"]
Inductive xmlNode : Type :=
| XML_ELEMENT_NODE (ns : option string) (name : string)
    (children : list xmlNode)
| XML_TEXT_NODE (content : string)
| XML_COMMENT_NODE (content : string).

(** A parsed document: the nodes at its top. *)
Definition xmlDoc : Type := list xmlNode.

Definition is_element (n : xmlNode) : bool :=
  match n with
  | XML_ELEMENT_NODE _ _ _ => true
  | _ => false
  end.

Definition xmlDocGetRootElement (doc : xmlDoc) : option xmlNode :=
  find is_element doc.

(** [node->ns && !strcmp(node->ns->href, "DAV:")] *)
Definition in_dav (ns : option string) : bool :=
  match ns with
  | Some href => String.eqb href "DAV:"
  | None => false
  end.

(** One [propstat] of a PROPPATCH answer: the property element (it has no
    text) and the status element the code puts beside it, inside [prop]. *)
Record propstat : Type := mkpropstat {
  ps_prop : xml_prop;
  ps_status : option string
}.

(** The documents the plugin answers with: the multistatus of PROPFIND, and
    that of PROPPATCH with its one response (the URI that becomes its href
    and its propstats). *)
Inductive xmlRdoc : Type :=
| Multistatus (responses : list dav_response)
| MultistatusUpdate (uri : string) (propstats : list propstat).

(** libxml2 at the two ends: the parser and the serialiser. *)
Record libxml2 : Type := mklibxml2 {
  xmlReadMemory : string -> option xmlDoc;
  xmlDocDumpFormatMemory : xmlRdoc -> string
}.

Definition UWSGI_OK : Z := 0%Z.

Definition xml_content_type : string :=
  "application/xml; charset=" ++ dquote ++ "utf-8" ++ dquote.

(** The children of [propfind] are scanned for the first DAV: element named
    prop, allprop or propname (lines 329-342): [Some true] is a listing with
    values, [Some false] one of names, [None] no such child. *)
Fixpoint propfind_kind (children : list xmlNode) : option bool :=
  match children with
  | [] => None
  | XML_ELEMENT_NODE ns name _ :: rest =>
      if in_dav ns then
        if String.eqb name "prop" || String.eqb name "allprop" then Some true
        else if String.eqb name "propname" then Some false
        else propfind_kind rest
      else propfind_kind rest
  | _ :: rest => propfind_kind rest
  end.

(** The end of both handlers: the document is serialised and sent. *)
Definition send_rdoc (xml : libxml2) (req : wsgi_request) (rdoc : xmlRdoc)
  : wsgi_request :=
  let xmlbuf := xmlDocDumpFormatMemory xml rdoc in
  let req := uwsgi_response_add_content_length req (String.length xmlbuf) in
  uwsgi_response_write_body_do req xmlbuf.

(** [uwsgi_wevdav_manage_propfind]; [doc] is [None] for a request without
    body.  The outer [None] is the read from a NULL directory stream of
    [uwsgi_webdav_manage_prop]. *)
Definition uwsgi_wevdav_manage_propfind (xml : libxml2) (req : wsgi_request)
  (fs : filesys) (doc : option xmlDoc) : option (Z * wsgi_request) :=
  match uwsgi_webdav_expand_path fs (app req) (path_info req) with
  | None => Some (UWSGI_OK, uwsgi_404 req)
  | Some filename =>
      let element :=
        match doc with
        | Some d => xmlDocGetRootElement d
        | None => None
        end in
      let bad_root :=
        match doc, element with
        | Some _, None => true
        | Some _, Some (XML_ELEMENT_NODE _ name _) =>
            negb (String.eqb name "propfind")
        | Some _, Some _ => true
        | None, _ => false
        end in
      if bad_root then Some ((-1)%Z, req)
      else
        let req := uwsgi_response_prepare_headers req "207 Multi-Status" in
        let req := uwsgi_response_add_content_type req xml_content_type in
        let kind :=
          match doc, element with
          | Some _, Some (XML_ELEMENT_NODE _ _ children) =>
              propfind_kind children
          | Some _, _ => None
          | None, _ => Some true
          end in
        match kind with
        | None => Some (UWSGI_OK, req)
        | Some with_values =>
            match uwsgi_webdav_manage_prop req fs filename with_values with
            | None => None
            | Some multistatus =>
                Some (UWSGI_OK, send_rdoc xml req (Multistatus multistatus))
            end
        end
  end.

(** [node->children ? node->children->content : ""]: the content of the
    first child; an element has none (NULL). *)
Definition first_content (children : list xmlNode) : option string :=
  match children with
  | [] => Some EmptyString
  | XML_TEXT_NODE c :: _ => Some c
  | XML_COMMENT_NODE c :: _ => Some c
  | XML_ELEMENT_NODE _ _ _ :: _ => None
  end.

Definition update_status (req : wsgi_request) (ret : Z) : string :=
  if Z.eqb ret 0 then (protocol req ++ " 200 OK")%string
  else (protocol req ++ " 403 Forbidden")%string.

(** [uwsgi_webdav_do_prop_update] over the children of a [prop]; action 0
    sets, action 1 removes.  [None] is the NULL value handed to strlen when
    the first child of a property to set is an element. *)
Fixpoint uwsgi_webdav_do_prop_update (req : wsgi_request) (fs : filesys)
  (children : list xmlNode) (response : list propstat) (filename : string)
  (action : nat) : option (list propstat * filesys) :=
  match children with
  | [] => Some (response, fs)
  | XML_ELEMENT_NODE ns name kids :: rest =>
      let new_prop := mkprop (element_ns ns) name None in
      if Nat.eqb action 0 then
        match first_content kids with
        | None => None
        | Some body =>
            let '(ret, fs') := uwsgi_webdav_prop_set fs filename name ns body in
            uwsgi_webdav_do_prop_update req fs' rest
              (response ++ [mkpropstat new_prop (Some (update_status req ret))])
              filename action
        end
      else if Nat.eqb action 1 then
        let '(ret, fs') := uwsgi_webdav_prop_del fs filename name ns in
        uwsgi_webdav_do_prop_update req fs' rest
          (response ++ [mkpropstat new_prop (Some (update_status req ret))])
          filename action
      else
        uwsgi_webdav_do_prop_update req fs rest
          (response ++ [mkpropstat new_prop None]) filename action
  | _ :: rest =>
      uwsgi_webdav_do_prop_update req fs rest response filename action
  end.

(** [uwsgi_webdav_manage_prop_update] over the children of a [set] or a
    [remove]: every DAV: element named prop is an update. *)
Fixpoint uwsgi_webdav_manage_prop_update (req : wsgi_request) (fs : filesys)
  (children : list xmlNode) (response : list propstat) (filename : string)
  (action : nat) : option (list propstat * filesys) :=
  match children with
  | [] => Some (response, fs)
  | XML_ELEMENT_NODE ns name kids :: rest =>
      if in_dav ns && String.eqb name "prop" then
        match uwsgi_webdav_do_prop_update req fs kids response filename action with
        | None => None
        | Some (response', fs') =>
            uwsgi_webdav_manage_prop_update req fs' rest response' filename action
        end
      else uwsgi_webdav_manage_prop_update req fs rest response filename action
  | _ :: rest =>
      uwsgi_webdav_manage_prop_update req fs rest response filename action
  end.

(** The loop of [uwsgi_wevdav_manage_proppatch] over the children of
    [propertyupdate] (lines 485-496). *)
Fixpoint proppatch_loop (req : wsgi_request) (fs : filesys)
  (children : list xmlNode) (response : list propstat) (filename : string)
  : option (list propstat * filesys) :=
  match children with
  | [] => Some (response, fs)
  | XML_ELEMENT_NODE ns name kids :: rest =>
      let step :=
        if in_dav ns then
          if String.eqb name "set"
          then uwsgi_webdav_manage_prop_update req fs kids response filename 0
          else if String.eqb name "remove"
          then uwsgi_webdav_manage_prop_update req fs kids response filename 1
          else Some (response, fs)
        else Some (response, fs) in
      match step with
      | None => None
      | Some (response', fs') => proppatch_loop req fs' rest response' filename
      end
  | _ :: rest => proppatch_loop req fs rest response filename
  end.

(** [uwsgi_wevdav_manage_proppatch]. *)
Definition uwsgi_wevdav_manage_proppatch (xml : libxml2) (req : wsgi_request)
  (fs : filesys) (doc : xmlDoc) : option (Z * wsgi_request * filesys) :=
  match uwsgi_webdav_expand_path fs (app req) (path_info req) with
  | None => Some (UWSGI_OK, uwsgi_404 req, fs)
  | Some filename =>
      match xmlDocGetRootElement doc with
      | Some (XML_ELEMENT_NODE _ name children) =>
          if negb (String.eqb name "propertyupdate") then Some ((-1)%Z, req, fs)
          else
            let req := uwsgi_response_prepare_headers req "207 Multi-Status" in
            let req := uwsgi_response_add_content_type req xml_content_type in
            let uri := path_info req in
            match proppatch_loop req fs children [] filename with
            | None => None
            | Some (response, fs') =>
                Some (UWSGI_OK,
                      send_rdoc xml req (MultistatusUpdate uri response), fs')
            end
      | _ => Some ((-1)%Z, req, fs)
      end
  end.

(** ** OPTIONS and COPY (webdav.c, 73-77 and 789-794) *)

Definition uwsgi_wevdav_manage_options (req : wsgi_request) : Z * wsgi_request :=
  (UWSGI_OK,
   uwsgi_response_add_header (uwsgi_response_prepare_headers req "200 OK")
     "Dav" "1, 2").

(** [uwsgi_wevdav_manage_copy]: the Destination header is read and logged;
    nothing else. *)
Definition uwsgi_wevdav_manage_copy (req : wsgi_request) : Z * wsgi_request :=
  ((-1)%Z, req).

(** ** The request hook (webdav.c, 897-1003) *)

(** What the core has made of the request when the plugin is called:
    whether its variables parsed, the method, and the application its
    appid leads to ([None] for the -1 of [uwsgi_get_app_id]). *)
Record core_request : Type := mkcore {
  parse_vars_ok : bool;
  method : string;
  app_of_request : option uwsgi_app
}.

Definition set_app (req : wsgi_request) (ua : uwsgi_app) : wsgi_request :=
  mkreq (protocol req) (scheme req) (host req) (path_info req) (vars req)
        (post_cl req) (body_in req) (post_pos req) ua (resp req).

(** Modelled from the spec: [uwsgi_500] of the core, a single HTTP
    status. *)
Definition uwsgi_500 (req : wsgi_request) : wsgi_request :=
  uwsgi_response_prepare_headers req "500 Internal Server Error".

(** Modelled from the spec: [uwsgi_strncmp] of the core as the hook uses
    it: 0 (here [true]) when lengths and bytes agree. *)
Definition method_is (m name : string) : bool := String.eqb m name.

(** The body read in one piece and handed to the parser: NULL from the
    reader gives no document. *)
Definition read_document (xml : libxml2) (req : wsgi_request)
  : option xmlDoc * wsgi_request :=
  match uwsgi_request_body_read req (post_cl req) with
  | (BodyData body, req') => (xmlReadMemory xml body, req')
  | (BodyEmpty, req') => (xmlReadMemory xml EmptyString, req')
  | (BodyNull, req') => (None, req')
  end.

(** How a block of the hook that does not return leaves: on to the tests
    that follow, to the label [end], or by the crash of a handler. *)
Inductive flow : Type :=
| Continue (req : wsgi_request)
| GotoEnd (req : wsgi_request)
| Crashed.

(** The PROPFIND block (lines 933-948): it does not return. *)
Definition propfind_block (xml : libxml2) (req : wsgi_request) (fs : filesys)
  : flow :=
  if Nat.ltb 0 (post_cl req) then
    match read_document xml req with
    | (None, req') => GotoEnd req'
    | (Some doc, req') =>
        match uwsgi_wevdav_manage_propfind xml req' fs (Some doc) with
        | Some (_, req'') => Continue req''
        | None => Crashed
        end
    end
  else
    match uwsgi_wevdav_manage_propfind xml req fs None with
    | Some (_, req') => Continue req'
    | None => Crashed
    end.

(** [uwsgi_webdav_request]: the value returned to the core, the request
    with its response, the tree and the lock cache. *)
Definition uwsgi_webdav_request (env : environ) (xml : libxml2)
  (udav : uwsgi_webdav) (core : core_request) (cache : lock_cache)
  (req : wsgi_request) (fs : filesys)
  : option (Z * wsgi_request * filesys * lock_cache) :=
  match mountpoints udav with
  | [] => Some ((-1)%Z, uwsgi_500 req, fs, cache)
  | _ :: _ =>
      if negb (parse_vars_ok core) then Some ((-1)%Z, req, fs, cache)
      else if Nat.eqb (String.length (path_info req)) 0
      then Some (UWSGI_OK, uwsgi_403 req, fs, cache)
      else
        match app_of_request core with
        | None => Some (UWSGI_OK, uwsgi_403 req, fs, cache)
        | Some ua =>
            let req := set_app req ua in
            let m := method core in
            if method_is m "OPTIONS" then
              let '(ret, req') := uwsgi_wevdav_manage_options req in
              Some (ret, req', fs, cache)
            else if method_is m "GET" then
              option_map (fun req' => (UWSGI_OK, req', fs, cache))
                (uwsgi_wevdav_manage_get env udav req fs true)
            else if method_is m "HEAD" then
              option_map (fun req' => (UWSGI_OK, req', fs, cache))
                (uwsgi_wevdav_manage_get env udav req fs false)
            else
              match (if method_is m "PROPFIND" then propfind_block xml req fs
                     else Continue req) with
              | Crashed => None
              | GotoEnd req => Some (UWSGI_OK, req, fs, cache)
              | Continue req =>
                  if method_is m "PUT" then
                    option_map (fun out => (UWSGI_OK, fst out, snd out, cache))
                      (uwsgi_wevdav_manage_put req fs)
                  else if method_is m "DELETE" then
                    option_map (fun out => (UWSGI_OK, fst out, snd out, cache))
                      (uwsgi_wevdav_manage_delete req fs)
                  else if method_is m "MKCOL" then
                    let out := uwsgi_wevdav_manage_mkcol req fs in
                    Some (UWSGI_OK, fst out, snd out, cache)
                  else if method_is m "COPY" then
                    let '(ret, req') := uwsgi_wevdav_manage_copy req in
                    Some (ret, req', fs, cache)
                  else if method_is m "MOVE" then
                    option_map (fun out => (UWSGI_OK, fst out, snd out, cache))
                      (uwsgi_wevdav_manage_move req fs)
                  else if method_is m "LOCK" then
                    let parsed :=
                      if Nat.ltb 0 (post_cl req) then
                        match read_document xml req with
                        | (None, req') => (false, req')
                        | (Some _, req') => (true, req')
                        end
                      else (true, req) in
                    if fst parsed then
                      let out := uwsgi_wevdav_manage_lock (snd parsed) cache in
                      Some (UWSGI_OK, fst out, fs, snd out)
                    else Some (UWSGI_OK, snd parsed, fs, cache)
                  else if method_is m "PROPPATCH" then
                    if Nat.eqb (post_cl req) 0 then Some (UWSGI_OK, req, fs, cache)
                    else
                      match read_document xml req with
                      | (None, req') => Some (UWSGI_OK, req', fs, cache)
                      | (Some doc, req') =>
                          match uwsgi_wevdav_manage_proppatch xml req' fs doc with
                          | Some (_, req'', fs') =>
                              Some (UWSGI_OK, req'', fs', cache)
                          | None => None
                          end
                      end
                  else Some (UWSGI_OK, req, fs, cache)
              end
        end
  end.

(** The methods the hook knows. *)
Definition known_methods : list string :=
  ["OPTIONS"; "GET"; "HEAD"; "PROPFIND"; "PUT"; "DELETE"; "MKCOL"; "COPY";
   "MOVE"; "LOCK"; "PROPPATCH"].

(** The methods whose handlers answer whatever the request. *)
Definition answering_methods : list string :=
  ["OPTIONS"; "GET"; "HEAD"; "PUT"; "DELETE"; "MKCOL"; "MOVE"].

(** ** Mounting (webdav.c, 1005-1039) *)

Definition equal_sign : ascii := "="%char.

(** One value of the option: [mountpoint=]<dir>, cut at the first '='. *)
Definition mount_value (value : string) : string * string :=
  match strchr_split equal_sign value with
  | Some (mountpoint, docroot) => (mountpoint, docroot)
  | None => (EmptyString, value)
  end.

(** [uwsgi_webdav_mount] over the values; the applications of the worker
    are a list, the next id its length.  [None] is exit(1). *)
Fixpoint uwsgi_webdav_mount (fs : filesys) (max_apps : nat)
  (uwsgi_apps : list uwsgi_app) (usl : list string) : option (list uwsgi_app) :=
  match usl with
  | [] => Some uwsgi_apps
  | value :: usl' =>
      if Nat.leb max_apps (List.length uwsgi_apps) then None
      else
        let '(mountpoint, docroot) := mount_value value in
        match realpath fs docroot with
        | None => None
        | Some wd_docroot =>
            uwsgi_webdav_mount fs max_apps
              (uwsgi_apps ++ [mkapp mountpoint wd_docroot]) usl'
        end
  end.

(** A [propertyupdate] with one instruction for one property. *)
Definition update_doc (instruction : string) (ns : option string)
  (name : string) (kids : list xmlNode) : xmlDoc :=
  [XML_ELEMENT_NODE DAV "propertyupdate"
     [XML_ELEMENT_NODE DAV instruction
        [XML_ELEMENT_NODE DAV "prop" [XML_ELEMENT_NODE ns name kids]]]].

Module SampleXml.

(** A serialiser that only tells the documents apart by the number of their
    parts (the proofs hold for any). *)
Definition xml : libxml2 :=
  mklibxml2 (fun _ => None)
            (fun rdoc =>
               match rdoc with
               | Multistatus l => "<multistatus/>"
               | MultistatusUpdate _ l => "<multistatus/>"
               end).

(** A property name too long for an attribute key. *)
Definition long_name : string := string_of_list_ascii (repeat "a"%char 300).

End SampleXml.

Local Open Scope list_scope.

(** The contents and the attributes of what stat found, if it is a regular
    file; nothing otherwise. *)
Definition data_of (o : option node) : string :=
  match o with
  | Some (File _ d _) => d
  | _ => EmptyString
  end.

Definition xattrs_of (o : option node) : xattrs :=
  match o with
  | Some (File _ _ xa) => xa
  | _ => []
  end.

(** The bytes of the body the client announced. *)
Definition announced (req : wsgi_request) : string :=
  substring 0 (post_cl req) (body_in req).

(** The handler has prepared at least one status line beyond those the
    request came with. *)
Definition answered (req req' : wsgi_request) : Prop :=
  exists added,
    added <> [] /\ statuses (resp req') = statuses (resp req) ++ added.

(** * Facts about path text *)

Lemma split_slash_nonnil (s : string) : split_slash s <> [].
Proof.
  destruct s as [|c s]; simpl; [discriminate|].
  destruct (Ascii.eqb c slash); [discriminate|].
  destruct (split_slash s); discriminate.
Qed.

Lemma split_slash_app (a b : string) :
  split_slash (a ++ String slash b)%string = split_slash a ++ split_slash b.
Proof.
  induction a as [|c a IH]; simpl.
  - reflexivity.
  - destruct (Ascii.eqb c slash).
    + rewrite IH. reflexivity.
    + rewrite IH. destruct (split_slash a) eqn:E.
      * destruct (split_slash_nonnil _ E).
      * reflexivity.
Qed.

Lemma split_slash_noslash (s : string) :
  has_char slash s = false -> split_slash s = [s].
Proof.
  induction s as [|c s IH]; simpl; intros H.
  - reflexivity.
  - apply orb_false_iff in H. destruct H as [Hc Hs].
    rewrite Hc, (IH Hs). reflexivity.
Qed.

Lemma substring_0_all (s : string) : substring 0 (String.length s) s = s.
Proof. induction s; simpl; congruence. Qed.

(** The last '/' cuts a buffer in what precedes it and a tail that starts
    with it and has no other. *)
Lemma last_slash_cut (s : string) (i : nat) :
  uwsgi_get_last_charn s slash = Some i ->
  exists leaf,
    has_char slash leaf = false
    /\ substring i (String.length s - i) s = String slash leaf
    /\ s = (substring 0 i s ++ String slash leaf)%string.
Proof.
  revert i. induction s as [|c s IH]; simpl; intros i H.
  - discriminate.
  - destruct (uwsgi_get_last_charn s slash) as [j|] eqn:E.
    + inversion H; subst i; clear H.
      destruct (IH j eq_refl) as (leaf & Hl & Ht & Hs).
      exists leaf. simpl. rewrite Ht. repeat split; auto.
      rewrite <- Hs. reflexivity.
    + destruct (Ascii.eqb c slash) eqn:Ec; [|discriminate].
      inversion H; subst i; clear H.
      apply Ascii.eqb_eq in Ec. subst c.
      assert (Hn : has_char slash s = false).
      { clear IH. induction s as [|d s IHs]; simpl in *; auto.
        destruct (uwsgi_get_last_charn s slash); [discriminate|].
        destruct (Ascii.eqb d slash); [discriminate|]. simpl. auto. }
      exists s. simpl. rewrite substring_0_all.
      destruct s; simpl; auto.
Qed.

(** * Facts about resolution *)

Section Walk.

Variable r : node.

Lemma walk_nil (b : nat) (stack : list string) : walk r b stack [] = Some stack.
Proof. destruct b; reflexivity. Qed.

Lemma walk_cons (b : nat) (stack : list string) (c : string) (cs : list string) :
  walk r b stack (c :: cs) =
  if String.eqb c "" || String.eqb c "." then walk r b stack cs
  else if String.eqb c ".." then walk r b (removelast stack) cs
  else
    match find_node r (stack ++ [c]) with
    | None => None
    | Some (Symlink t) =>
        match b with
        | O => None
        | S b' =>
            walk r b' (if is_absolute t then [] else stack) (split_slash t ++ cs)
        end
    | Some (Dir _ _ _) => walk r b (stack ++ [c]) cs
    | Some (File _ _ _) =>
        match cs with
        | [] => Some (stack ++ [c])
        | _ => None
        end
    end.
Proof. destruct b; reflexivity. Qed.

(** A path that resolves, resolves up to any point on the way, and the
    rest resolves from there. *)
Lemma walk_split (b : nat) :
  forall cs1 stack cs2 res,
    walk r b stack (cs1 ++ cs2) = Some res ->
    exists r1 b2,
      walk r b stack cs1 = Some r1 /\ b2 <= b /\ walk r b2 r1 cs2 = Some res.
Proof.
  induction b as [|b IHb].
  - induction cs1 as [|c cs1 IH]; intros stack cs2 res H.
    + exists stack, 0. rewrite walk_nil. auto.
    + rewrite <- app_comm_cons in H. rewrite walk_cons in H. rewrite walk_cons.
      destruct (String.eqb c "" || String.eqb c "."); [apply IH; exact H|].
      destruct (String.eqb c ".."); [apply IH; exact H|].
      destruct (find_node r (stack ++ [c])) as [[w d xa|t|w xa es]|];
        try discriminate.
      * destruct (cs1 ++ cs2) eqn:E; [|discriminate].
        apply app_eq_nil in E. destruct E; subst.
        exists (stack ++ [c]), 0. rewrite walk_nil. auto.
      * apply IH; exact H.
  - induction cs1 as [|c cs1 IH]; intros stack cs2 res H.
    + exists stack, (S b). rewrite walk_nil. auto.
    + rewrite <- app_comm_cons in H. rewrite walk_cons in H. rewrite walk_cons.
      destruct (String.eqb c "" || String.eqb c "."); [apply IH; exact H|].
      destruct (String.eqb c ".."); [apply IH; exact H|].
      destruct (find_node r (stack ++ [c])) as [[w d xa|t|w xa es]|];
        try discriminate.
      * destruct (cs1 ++ cs2) eqn:E; [|discriminate].
        apply app_eq_nil in E. destruct E; subst.
        exists (stack ++ [c]), (S b). rewrite walk_nil. auto.
      * rewrite app_assoc in H.
        destruct (IHb _ _ _ _ H) as (r1 & b2 & H1 & Hb & H2).
        exists r1, b2. auto.
      * apply IH; exact H.
Qed.

End Walk.

(** * Facts about the tree *)

Lemma find_node_app (n : node) (p q : list string) :
  find_node n (p ++ q) =
  match find_node n p with
  | Some m => find_node m q
  | None => None
  end.
Proof.
  revert n. induction p as [|c p IH]; intros n; simpl.
  - reflexivity.
  - destruct n as [w d xa|t|w xa es]; try reflexivity.
    destruct (assoc c es); [apply IH|reflexivity].
Qed.

Lemma find_node_snoc (n : node) (p : list string) (c : string) (m : node) :
  find_node n (p ++ [c]) = Some m ->
  exists w xa es, find_node n p = Some (Dir w xa es) /\ assoc c es = Some m.
Proof.
  rewrite find_node_app. destruct (find_node n p) as [k|]; [|discriminate].
  simpl. destruct k as [w d xa|t|w xa es]; try discriminate.
  destruct (assoc c es) eqn:E; [|discriminate].
  intros H; inversion H; subst. eauto.
Qed.

Lemma find_node_removelast (n : node) (p : list string) (m : node) :
  find_node n p = Some m -> p <> [] ->
  exists w xa es, find_node n (removelast p) = Some (Dir w xa es).
Proof.
  intros H Hp. destruct (exists_last Hp) as (q & c & ->).
  rewrite removelast_last. apply find_node_snoc in H.
  destruct H as (w & xa & es & H & _). eauto.
Qed.

Lemma split_slash_no_slash (s : string) : Forall no_slash (split_slash s).
Proof.
  induction s as [|c s IH]; simpl.
  - repeat constructor.
  - destruct (Ascii.eqb c slash) eqn:E.
    + constructor; [reflexivity|exact IH].
    + destruct (split_slash s) as [|x xs]; inversion IH; subst;
        constructor; auto; unfold no_slash; simpl; rewrite E; auto.
Qed.

Lemma good_name_intro (c : string) :
  (String.eqb c "" || String.eqb c ".") = false ->
  String.eqb c ".." = false -> no_slash c -> good_name c = true.
Proof.
  unfold good_name, no_slash. intros H1 H2 H3.
  apply orb_false_iff in H1. destruct H1 as [Ha Hb].
  rewrite Ha, Hb, H2, H3. reflexivity.
Qed.

Lemma good_name_elim (c : string) :
  good_name c = true ->
  (String.eqb c "" || String.eqb c ".") = false
  /\ String.eqb c ".." = false /\ no_slash c.
Proof.
  unfold good_name, no_slash. intros H.
  repeat (apply andb_true_iff in H; destruct H as [H ?]).
  repeat match goal with
         | Hn : negb _ = true |- _ => apply negb_true_iff in Hn
         end.
  rewrite H, H2. auto.
Qed.

Lemma canon_removelast (r : node) (s : list string) :
  canon_path r s -> canon_path r (removelast s).
Proof.
  intros [Hg (n & Hn & Hl)].
  destruct s as [|c s]; [split; eauto|].
  assert (Hne : c :: s <> []) by discriminate.
  split.
  - destruct (exists_last Hne) as (q & d & E). rewrite E in *.
    rewrite removelast_last. apply Forall_app in Hg. tauto.
  - destruct (find_node_removelast _ _ _ Hn Hne) as (w & xa & es & H).
    eauto.
Qed.

Section WalkCanon.

Variable r : node.

Lemma canon_push (stack : list string) (c : string) (n : node) :
  canon_path r stack ->
  (String.eqb c "" || String.eqb c ".") = false ->
  String.eqb c ".." = false -> no_slash c ->
  find_node r (stack ++ [c]) = Some n -> is_link n = false ->
  canon_path r (stack ++ [c]).
Proof.
  intros Hst E1 E2 Hc Hf Hl. split; [|eauto].
  apply Forall_app. split; [apply Hst|].
  constructor; auto using good_name_intro.
Qed.

Lemma canon_root (stack : list string) (c : string) (n : node) :
  find_node r (stack ++ [c]) = Some n -> canon_path r [].
Proof.
  intros Hf. split; [constructor|].
  rewrite find_node_app in Hf. exists r. split; [reflexivity|].
  destruct r; try reflexivity.
  destruct stack; simpl in Hf; discriminate.
Qed.

(** Resolution keeps to canonical paths. *)
Lemma walk_canon_result (b : nat) :
  forall cs stack res,
    Forall no_slash cs -> canon_path r stack ->
    walk r b stack cs = Some res -> canon_path r res.
Proof.
  induction b as [|b IHb]; induction cs as [|c cs IH];
    intros stack res Hcs Hst H;
    try (rewrite walk_nil in H; inversion H; subst; exact Hst);
    rewrite walk_cons in H; inversion Hcs as [|? ? Hc Hcs']; subst;
    (destruct (String.eqb c "" || String.eqb c ".") eqn:E1;
     [exact (IH _ _ Hcs' Hst H)|]);
    (destruct (String.eqb c "..") eqn:E2;
     [exact (IH _ _ Hcs' (canon_removelast _ _ Hst) H)|]);
    destruct (find_node r (stack ++ [c])) as [[w d xa|t|w xa es]|] eqn:Ef;
    try discriminate;
    try (destruct cs; [|discriminate]; inversion H; subst;
         eapply canon_push; eauto; fail);
    try (eapply IH; [exact Hcs'| |exact H]; eapply canon_push; eauto; fail).
  eapply IHb; [| |exact H].
  - apply Forall_app. split; [apply split_slash_no_slash|exact Hcs'].
  - destruct (is_absolute t); [|exact Hst]. eapply canon_root; eauto.
Qed.

(** Walking down a canonical path follows it name by name. *)
Lemma walk_down (b : nat) :
  forall d stack rest,
    Forall (fun c => good_name c = true) d ->
    (exists w xa es, find_node r (stack ++ d) = Some (Dir w xa es)) ->
    walk r b stack (d ++ rest) = walk r b (stack ++ d) rest.
Proof.
  induction d as [|c d IH]; intros stack rest Hg Hd.
  - rewrite app_nil_r. reflexivity.
  - inversion Hg as [|? ? Hc Hg']; subst.
    destruct (good_name_elim _ Hc) as (E1 & E2 & _).
    rewrite <- app_comm_cons, walk_cons, E1, E2.
    destruct Hd as (w & xa & es & Hd).
    replace (stack ++ c :: d) with ((stack ++ [c]) ++ d) in *
      by (rewrite <- app_assoc; reflexivity).
    assert (Hc' : exists w' xa' es', find_node r (stack ++ [c]) = Some (Dir w' xa' es')).
    { destruct d as [|c' d].
      - rewrite app_nil_r in Hd. eauto.
      - rewrite find_node_app in Hd.
        destruct (find_node r (stack ++ [c])) as [[? ? ?|?|? ? ?]|];
          try discriminate; eauto. }
    destruct Hc' as (w' & xa' & es' & Hc'). rewrite Hc'.
    apply IH; eauto.
Qed.

End WalkCanon.

Lemma str_app_assoc (a b c : string) :
  ((a ++ b) ++ c = a ++ (b ++ c))%string.
Proof. induction a; simpl; congruence. Qed.

Lemma str_app_length (a b : string) :
  String.length (a ++ b) = String.length a + String.length b.
Proof. induction a; simpl; congruence. Qed.

Lemma join_slash_app (d q : list string) :
  d <> [] -> q <> [] ->
  join_slash (d ++ q) = (join_slash d ++ String slash (join_slash q))%string.
Proof.
  intros Hd Hq. induction d as [|c d IH]; [congruence|].
  destruct d as [|c' d].
  - simpl. destruct q; [congruence|reflexivity].
  - change ((c :: c' :: d) ++ q) with (c :: ((c' :: d) ++ q)).
    change (join_slash (c :: (c' :: d) ++ q))
      with (c ++ "/" ++ join_slash ((c' :: d) ++ q))%string.
    rewrite IH by discriminate.
    change (join_slash (c :: c' :: d))
      with (c ++ "/" ++ join_slash (c' :: d))%string.
    rewrite !str_app_assoc. reflexivity.
Qed.

Lemma split_join (d : list string) :
  d <> [] -> Forall no_slash d -> split_slash (join_slash d) = d.
Proof.
  intros Hd Hn. induction d as [|c d IH]; [congruence|].
  inversion Hn as [|? ? Hc Hd']; subst.
  destruct d as [|c' d].
  - simpl. apply split_slash_noslash. exact Hc.
  - change (join_slash (c :: c' :: d))
      with (c ++ String slash (join_slash (c' :: d)))%string.
    rewrite split_slash_app, (split_slash_noslash _ Hc), IH; auto; discriminate.
Qed.

Lemma good_names_no_slash (d : list string) :
  Forall (fun c => good_name c = true) d -> Forall no_slash d.
Proof.
  intros H. eapply Forall_impl; [|exact H].
  intros c Hc. apply good_name_elim in Hc. tauto.
Qed.

Lemma prefix_append (a b : string) : String.prefix a (a ++ b) = true.
Proof.
  induction a as [|c a IH]; simpl.
  - destruct b; reflexivity.
  - rewrite IH. destruct (ascii_dec c c); congruence.
Qed.

Lemma render_absolute (d : list string) : is_absolute (render d) = true.
Proof. destruct d; reflexivity. Qed.

Section Docroot.

Variable r : node.
Variable d : list string.
Hypothesis d_good : Forall (fun c => good_name c = true) d.
Hypothesis d_dir : exists w xa es, find_node r d = Some (Dir w xa es).

(** Resolving docroot + "/" + item is resolving item from the docroot. *)
Lemma walk_from_docroot (b : nat) (item : string) :
  walk r b [] (split_slash (render d ++ String slash item)) =
  walk r b d (split_slash item).
Proof.
  rewrite split_slash_app. destruct d as [|c d'] eqn:E.
  - simpl. rewrite !walk_cons. reflexivity.
  - unfold render. change ("/" ++ join_slash (c :: d'))%string
      with (String slash (join_slash (c :: d'))).
    change (split_slash (String slash (join_slash (c :: d'))))
      with ("" :: split_slash (join_slash (c :: d')))%string.
    rewrite split_join by (auto using good_names_no_slash; discriminate).
    rewrite <- app_comm_cons, walk_cons. simpl orb. cbv iota.
    rewrite walk_down; auto.
Qed.

End Docroot.

(** * The strict resolver and the docroot (C1) *)

Lemma no_links_entries (w : bool) (xa : xattrs) (es : list (string * node))
  (c : string) (m : node) :
  no_links (Dir w xa es) = true -> assoc c es = Some m -> no_links m = true.
Proof.
  simpl. induction es as [|[k v] es IH]; simpl; intros H Ha; [discriminate|].
  apply andb_true_iff in H. destruct H as [Hv Hes].
  destruct (String.eqb c k); [inversion Ha; subst; exact Hv|auto].
Qed.

Lemma no_links_find (n : node) (q : list string) (m : node) :
  no_links n = true -> find_node n q = Some m -> no_links m = true.
Proof.
  revert n. induction q as [|c q IH]; intros n Hn Hf; simpl in Hf.
  - inversion Hf; subst; exact Hn.
  - destruct n as [w d xa|t|w xa es]; try discriminate.
    destruct (assoc c es) as [ch|] eqn:E; [|discriminate].
    eapply IH; [|exact Hf]. eapply no_links_entries; eauto.
Qed.

Section Inside.

Variable r : node.
Variable d : list string.
Variable sub : node.
Hypothesis d_sub : find_node r d = Some sub.
Hypothesis sub_no_links : no_links sub = true.

(** Without ".." and without links, resolution never leaves the tree it
    started in. *)
Lemma walk_inside (b : nat) :
  forall cs q res,
    existsb (String.eqb "..") cs = false ->
    walk r b (d ++ q) cs = Some res ->
    exists q', res = d ++ q'.
Proof.
  induction cs as [|c cs IH]; intros q res Hdd H.
  - rewrite walk_nil in H. inversion H; subst. eauto.
  - change (existsb (String.eqb "..") (c :: cs))
      with (String.eqb ".." c || existsb (String.eqb "..") cs) in Hdd.
    apply orb_false_iff in Hdd. destruct Hdd as [Hc Hdd].
    rewrite walk_cons in H. rewrite String.eqb_sym in Hc. rewrite Hc in H.
    destruct (String.eqb c "" || String.eqb c "."); [eauto|].
    destruct (find_node r ((d ++ q) ++ [c])) as [n|] eqn:Ef; [|discriminate].
    assert (Hn : no_links n = true).
    { rewrite <- app_assoc, find_node_app, d_sub in Ef.
      eapply no_links_find; eauto. }
    rewrite <- app_assoc in H.
    destruct n as [w dd xa|t|w xa es]; [|discriminate|eauto].
    destruct cs; [|discriminate]. inversion H; subst. eauto.
Qed.

End Inside.

Lemma render_app (d q : list string) :
  d <> [] -> q <> [] ->
  render (d ++ q) = (render d ++ String slash (join_slash q))%string.
Proof.
  intros Hd Hq. destruct d as [|c d]; [congruence|].
  change (render ((c :: d) ++ q))
    with (String slash (join_slash ((c :: d) ++ q))).
  rewrite join_slash_app by assumption. reflexivity.
Qed.

Lemma under_docroot_render (d q : list string) :
  under_docroot (render d) (render (d ++ q)) = true.
Proof.
  unfold under_docroot. destruct q as [|c q].
  - rewrite app_nil_r, String.eqb_refl. reflexivity.
  - destruct d as [|c' d].
    + simpl. apply orb_true_iff. right.
      match goal with |- prefix "" ?x = true => destruct x; reflexivity end.
    + rewrite render_app by discriminate.
      apply orb_true_iff. left. apply orb_true_iff. right.
      change (String slash (join_slash (c :: q)))
        with ("/" ++ join_slash (c :: q))%string.
      rewrite <- str_app_assoc. apply prefix_append.
Qed.

(** C1 (as amended).  The strict resolver hands back whatever realpath makes
    of docroot + "/" + p; it has no containment check of its own.  What it
    returns is inside the docroot when the docroot is the canonical name of a
    directory with no symbolic link below it and p has no ".." component. *)
Theorem expand_path_inside_docroot (fs : filesys) (ua : uwsgi_app) (p : string)
  (d : list string) (sub : node) :
  interpreter ua = render d ->
  Forall (fun c => good_name c = true) d ->
  find_node (root fs) d = Some sub ->
  is_dir sub = true ->
  no_links sub = true ->
  no_dotdot p = true ->
  escape_safe fs ua p.
Proof.
  intros Hdoc Hg Hsub Hdir Hnl Hdd.
  unfold escape_safe, uwsgi_webdav_expand_path, realpath, namei.
  rewrite Hdoc.
  assert (Habs : is_absolute (render d ++ "/" ++ p) = true)
    by (destruct d; reflexivity).
  rewrite Habs.
  change (render d ++ "/" ++ p)%string with (render d ++ String slash p)%string.
  rewrite walk_from_docroot; auto.
  2:{ destruct sub; try discriminate; eauto. }
  destruct (walk (root fs) MAXSYMLINKS d (split_slash p)) as [res|] eqn:E;
    simpl; [|exact I].
  rewrite <- (app_nil_r d) in E.
  eapply walk_inside in E; eauto.
  - destruct E as (q' & ->). apply under_docroot_render.
  - unfold no_dotdot in Hdd. apply negb_true_iff in Hdd. exact Hdd.
Qed.

Lemma expand_path_inside_docroot_witness :
  escape_safe Sample.fs (mkapp "" "/srv/dav/d") "/./a".
Proof.
  apply (expand_path_inside_docroot Sample.fs (mkapp "" "/srv/dav/d") "/./a"
           ["srv"; "dav"; "d"]
           (Dir true [] [("a", File true "1" []); ("b", File true "2" [])]));
    try reflexivity.
  repeat constructor.
Defined.

(** C1 (as stated) fails: with the docroot /srv/dav the request path "/.."
    resolves to /srv, and the resolver returns it. *)
Lemma expand_path_escapes_docroot :
  uwsgi_webdav_expand_path Sample.fs Sample.dav "/.." = Some "/srv"
  /\ ~ escape_safe Sample.fs Sample.dav "/..".
Proof.
  split; [reflexivity|]. unfold escape_safe. simpl. discriminate.
Qed.

(** * The parent resolver after the strict one (C2) *)

Lemma is_absolute_slash (a x y : string) :
  is_absolute (a ++ String slash x) = is_absolute (a ++ String slash y).
Proof. destruct a; reflexivity. Qed.

Lemma render_snoc (r1 : list string) (leaf : string) :
  r1 <> [] -> render (r1 ++ [leaf]) = (render r1 ++ String slash leaf)%string.
Proof. intros H. apply render_app; [exact H|discriminate]. Qed.

(** C2 (as amended).  When the strict resolver succeeds on a request path
    that has a '/', the strict resolution of what precedes the last '/'
    succeeds too, and the parent resolver returns that followed by the rest
    of the request path as it stands (unless the PATH_MAX guard trips).  This
    is the path the strict resolver returned when the last component is an
    entry name, not a symbolic link, and its parent is not the root. *)
Theorem expand_fake_path_after_strict (fs : filesys) (ua : uwsgi_app)
  (p filename : string) (last_slash : nat) :
  uwsgi_webdav_expand_path fs ua p = Some filename ->
  uwsgi_get_last_charn p slash = Some last_slash ->
  exists parent r1 leaf,
    uwsgi_webdav_expand_path fs ua (substring 0 last_slash p) = Some parent
    /\ parent = render r1
    /\ substring last_slash (String.length p - last_slash) p = String slash leaf
    /\ (String.length parent + (String.length p - last_slash) < PATH_MAX ->
        uwsgi_webdav_expand_fake_path fs ua p
        = Some (parent ++ String slash leaf)%string)
    /\ (good_name leaf = true -> r1 <> [] ->
        (forall t, find_node (root fs) (r1 ++ [leaf]) <> Some (Symlink t)) ->
        (parent ++ String slash leaf)%string = filename).
Proof.
  intros Hs Hl.
  destruct (last_slash_cut _ _ Hl) as (leaf & Hleaf & Htail & Hp).
  set (pre := substring 0 last_slash p) in *.
  unfold uwsgi_webdav_expand_path, realpath, namei in Hs.
  rewrite Hp in Hs.
  change (interpreter ua ++ "/" ++ pre ++ String slash leaf)%string
    with (interpreter ua ++ (String slash pre) ++ String slash leaf)%string in Hs.
  rewrite <- str_app_assoc in Hs.
  rewrite (is_absolute_slash _ leaf "") in Hs.
  rewrite split_slash_app, (split_slash_noslash _ Hleaf) in Hs.
  assert (Habs : is_absolute ((interpreter ua ++ String slash pre) ++ String slash "")
                 = is_absolute (interpreter ua ++ "/" ++ pre)).
  { destruct (interpreter ua); reflexivity. }
  rewrite Habs in Hs.
  destruct (is_absolute (interpreter ua ++ "/" ++ pre)) eqn:Ea; [|discriminate].
  destruct (walk (root fs) MAXSYMLINKS []
              (split_slash (interpreter ua ++ String slash pre) ++ [leaf]))
    as [res|] eqn:Ew; [|discriminate].
  simpl in Hs. inversion Hs; subst filename; clear Hs.
  destruct (walk_split _ _ _ _ _ _ Ew) as (r1 & b2 & H1 & Hb & H2).
  assert (Hpre : uwsgi_webdav_expand_path fs ua pre = Some (render r1)).
  { unfold uwsgi_webdav_expand_path, realpath, namei. rewrite Ea.
    change (interpreter ua ++ "/" ++ pre)%string
      with (interpreter ua ++ String slash pre)%string.
    rewrite H1. reflexivity. }
  exists (render r1), r1, leaf. repeat split; auto.
  - intros Hlen. unfold uwsgi_webdav_expand_fake_path.
    rewrite Hl. fold pre. rewrite Hpre, Htail.
    destruct (Nat.leb PATH_MAX (String.length (render r1)
                                + (String.length p - last_slash))) eqn:E;
      [apply Nat.leb_le in E; lia|reflexivity].
  - intros Hg Hr1 Hnl. rewrite <- render_snoc by exact Hr1. f_equal.
    rewrite walk_cons in H2.
    destruct (good_name_elim _ Hg) as (E1 & E2 & _). rewrite E1, E2 in H2.
    destruct (find_node (root fs) (r1 ++ [leaf])) as [[w dd xa|t|w xa es]|] eqn:Ef;
      try discriminate.
    + inversion H2; reflexivity.
    + destruct (Hnl t eq_refl).
    + rewrite walk_nil in H2. inversion H2; reflexivity.
Qed.

Lemma expand_fake_path_after_strict_witness :
  uwsgi_webdav_expand_path Sample.fs Sample.dav "/d/a" = Some "/srv/dav/d/a"
  /\ uwsgi_webdav_expand_fake_path Sample.fs Sample.dav "/d/a" = Some "/srv/dav/d/a".
Proof.
  split; [reflexivity|].
  destruct (expand_fake_path_after_strict Sample.fs Sample.dav "/d/a"
              "/srv/dav/d/a" 2 eq_refl eq_refl)
    as (parent & r1 & leaf & Hpre & Hr & Htail & Hfake & Hsame).
  vm_compute in Hpre. injection Hpre as <-.
  vm_compute in Htail. injection Htail as <-.
  apply Hfake. vm_compute. lia.
Defined.

(** C2 (as stated) fails: on a symbolic link the strict resolver returns the
    target's name, the parent resolver the link's; on a path without '/' the
    parent resolver fails although the strict one succeeds. *)
Lemma expand_fake_path_differs :
  ~ parent_parity Sample.fs Sample.dav "/out"
  /\ ~ parent_parity Sample.fs Sample.dav "a.txt".
Proof.
  split; intros H.
  - specialize (H "/srv/secret" eq_refl). vm_compute in H. discriminate.
  - specialize (H "/srv/dav/a.txt" eq_refl). vm_compute in H. discriminate.
Qed.

(** * MOVE (C4, C10) *)

Lemma final_status_prepare (req : wsgi_request) (status : string) :
  final_status (uwsgi_response_prepare_headers req status) = status.
Proof. unfold final_status. simpl. apply last_last. Qed.

Lemma final_status_403 (req : wsgi_request) :
  final_status (uwsgi_403 req) = "403 Forbidden".
Proof. apply final_status_prepare. Qed.

(** C10.  A MOVE whose source resolves and whose Destination header is
    missing or empty is answered 403 Forbidden at once; the tree is not
    touched. *)
Theorem move_without_destination (req : wsgi_request) (fs : filesys)
  (filename : string) :
  uwsgi_webdav_expand_path fs (app req) (path_info req) = Some filename ->
  uwsgi_get_var req "HTTP_DESTINATION" = None
  \/ uwsgi_get_var req "HTTP_DESTINATION" = Some "" ->
  uwsgi_wevdav_manage_move req fs = Some (uwsgi_403 req, fs)
  /\ returns_leaving (uwsgi_wevdav_manage_move req fs) "403 Forbidden" fs.
Proof.
  intros Hsrc Hd.
  assert (E : uwsgi_wevdav_manage_move req fs = Some (uwsgi_403 req, fs)).
  { unfold uwsgi_wevdav_manage_move. rewrite Hsrc.
    destruct Hd as [-> | ->]; reflexivity. }
  split; [exact E|]. rewrite E. eexists. split; [reflexivity|].
  split; [apply final_status_403|reflexivity].
Qed.

Lemma move_without_destination_witness :
  returns_leaving
    (uwsgi_wevdav_manage_move (Sample.request "/a.txt" [] "") Sample.fs)
    "403 Forbidden" Sample.fs.
Proof.
  apply (move_without_destination (Sample.request "/a.txt" [] "") Sample.fs
           "/srv/dav/a.txt").
  - reflexivity.
  - left. reflexivity.
Defined.



(** * MKCOL (C5) *)

(** What MKCOL does get right: 415 for a body, 405 for a target that
    resolves, 409 when the parent does not, 201 when mkdir succeeds. *)
Lemma mkcol_status_contract (req : wsgi_request) (fs : filesys) :
  let out := uwsgi_wevdav_manage_mkcol req fs in
  (0 < post_cl req -> leaves out "415 Unsupported Media Type" fs)
  /\ (post_cl req = 0 ->
      forall filename,
        uwsgi_webdav_expand_path fs (app req) (path_info req) = Some filename ->
        leaves out "405 Method Not Allowed" fs)
  /\ (post_cl req = 0 ->
      uwsgi_webdav_expand_path fs (app req) (path_info req) = None ->
      final_status (fst out) = "409 Conflict"
      \/ final_status (fst out) = "201 Created").
Proof.
  cbv zeta. unfold uwsgi_wevdav_manage_mkcol. repeat split.
  - destruct (Nat.ltb 0 (post_cl req)) eqn:E;
      [apply final_status_prepare|apply Nat.ltb_ge in E; lia].
  - destruct (Nat.ltb 0 (post_cl req)) eqn:E;
      [reflexivity|apply Nat.ltb_ge in E; lia].
  - rewrite H, H0. apply final_status_prepare.
  - rewrite H, H0. reflexivity.
  - intros Hcl Hstrict. rewrite Hcl, Hstrict. simpl Nat.ltb. cbv iota.
    match goal with
    | |- context [uwsgi_webdav_expand_fake_path fs (app ?r) (path_info ?r)] =>
        destruct (uwsgi_webdav_expand_fake_path fs (app r) (path_info r))
          as [filename|]
    end.
    + right. destruct (mkdir fs filename); apply final_status_prepare.
    + left. apply final_status_prepare.
Qed.

(** Whatever mkdir answers, the status MKCOL leaves is 201 Created once the
    parent resolved: the 409 prepared for a failed mkdir is overwritten. *)
Lemma mkcol_created_whatever_mkdir (req : wsgi_request) (fs : filesys)
  (filename : string) :
  post_cl req = 0 ->
  uwsgi_webdav_expand_path fs (app req) (path_info req) = None ->
  Nat.ltb 1 (String.length (path_info req)) && ends_with_slash (path_info req)
  = false ->
  uwsgi_webdav_expand_fake_path fs (app req) (path_info req) = Some filename ->
  final_status (fst (uwsgi_wevdav_manage_mkcol req fs)) = "201 Created".
Proof.
  intros Hcl Hstrict Hslash Hfake. unfold uwsgi_wevdav_manage_mkcol.
  rewrite Hcl, Hstrict, Hslash. simpl Nat.ltb. cbv iota. rewrite Hfake.
  destruct (mkdir fs filename); apply final_status_prepare.
Qed.

(** C5 at a failing input.  MKCOL /a.txt/b, where /a.txt is a regular file:
    the target does not resolve, its parent does, mkdir fails; the handler
    prepares 409 Conflict and then 201 Created, and the tree is unchanged. *)
Theorem mkcol_failed_mkdir_created :
  let req := Sample.request "/a.txt/b" [] "" in
  uwsgi_webdav_expand_path Sample.fs (app req) (path_info req) = None
  /\ uwsgi_webdav_expand_fake_path Sample.fs (app req) (path_info req)
     = Some "/srv/dav/a.txt/b"
  /\ mkdir Sample.fs "/srv/dav/a.txt/b" = None
  /\ statuses (resp (fst (uwsgi_wevdav_manage_mkcol req Sample.fs)))
     = ["409 Conflict"; "201 Created"]
  /\ leaves (uwsgi_wevdav_manage_mkcol req Sample.fs) "201 Created" Sample.fs.
Proof. vm_compute. repeat split. Qed.

(** * LOCK (C9) *)

Lemma lock_is_fixed (req : wsgi_request) (cache : lock_cache) :
  uwsgi_wevdav_manage_lock req cache
  = (uwsgi_response_prepare_headers req "201 Created", cache).
Proof. reflexivity. Qed.

(** C9 at a failing input.  LOCK /a.txt while the cache holds a token for
    http://h/a.txt: the answer is 201 Created (not 423), the body is empty (no
    token), and the cache is what it was. *)
Theorem lock_ignores_cache :
  let req := Sample.request "/a.txt" [] "" in
  let cache := [("http://h/a.txt", "urn:uuid:f81d4fae-7dec-11d0-a765-00a0c91e6bf6")] in
  let out := uwsgi_wevdav_manage_lock req cache in
  final_status (fst out) = "201 Created"
  /\ final_status (fst out) <> "423 Locked"
  /\ body_out (resp (fst out)) = ""
  /\ headers (resp (fst out)) = []
  /\ snd out = cache.
Proof. vm_compute. repeat split. discriminate. Qed.

(** * PUT (C6) *)

Lemma body_read_resp (req : wsgi_request) (hint : nat) :
  resp (snd (uwsgi_request_body_read req hint)) = resp req
  /\ post_cl (snd (uwsgi_request_body_read req hint)) = post_cl req.
Proof.
  unfold uwsgi_request_body_read.
  destruct (Nat.eqb (post_cl req - post_pos req) 0); [auto|].
  destruct (Nat.ltb _ _); auto.
Qed.

Lemma BODY_CHUNK_pos : 0 < BODY_CHUNK.
Proof. apply Nat.ltb_lt. vm_compute. reflexivity. Qed.

(** The copy loop always ends, and leaves the response head alone. *)
Lemma put_body_loop_total (fuel : nat) :
  forall remains req fd fs,
    post_cl req - post_pos req < fuel ->
    exists req' fs',
      put_body_loop fuel remains req fd fs = Some (req', fs')
      /\ resp req' = resp req.
Proof.
  induction fuel as [|fuel IH]; intros remains req fd fs Hlt; [lia|].
  simpl. destruct (Nat.ltb 0 remains) eqn:Er; [|eauto].
  apply Nat.ltb_lt in Er.
  unfold uwsgi_request_body_read.
  destruct (Nat.eqb (post_cl req - post_pos req) 0) eqn:E0; [eauto|].
  apply Nat.eqb_neq in E0.
  set (want := Nat.min (Nat.min remains BODY_CHUNK) (post_cl req - post_pos req)).
  assert (Hwant : 0 < want) by (pose proof BODY_CHUNK_pos; unfold want; lia).
  destruct (Nat.ltb (String.length (substring (post_pos req) want (body_in req))) want);
    [eauto|].
  destruct (write fs fd (substring (post_pos req) want (body_in req)))
    as [[n fd'] fs'].
  destruct (Nat.eqb n _); [|eauto].
  destruct (IH remains (set_post_pos req (post_pos req + want)) fd' fs')
    as (req' & fs'' & Hl & Hr); [simpl; lia|].
  eauto.
Qed.

(** C6 (as amended).  PUT answers 409 Conflict when neither the target nor
    its parent resolves and 403 Forbidden when the file cannot be opened for
    writing, the tree untouched in both cases; once the file is open the
    handler prepares 201 Created before it copies the body, and that is the
    status it returns with, whatever becomes of the writes. *)
Theorem put_status_contract (req : wsgi_request) (fs : filesys) :
  exists req' fs',
    uwsgi_wevdav_manage_put req fs = Some (req', fs')
    /\ (uwsgi_webdav_expand_path fs (app req) (path_info req) = None ->
        uwsgi_webdav_expand_fake_path fs (app req) (path_info req) = None ->
        final_status req' = "409 Conflict" /\ fs' = fs)
    /\ (forall filename,
           uwsgi_webdav_expand_path fs (app req) (path_info req) = Some filename
           \/ (uwsgi_webdav_expand_path fs (app req) (path_info req) = None
               /\ uwsgi_webdav_expand_fake_path fs (app req) (path_info req)
                  = Some filename) ->
           (open_wronly_creat fs filename = None ->
            final_status req' = "403 Forbidden" /\ fs' = fs)
           /\ (open_wronly_creat fs filename <> None ->
               final_status req' = "201 Created")).
Proof.
  unfold uwsgi_wevdav_manage_put.
  destruct (uwsgi_webdav_expand_path fs (app req) (path_info req)) as [f|] eqn:Es;
    [|destruct (uwsgi_webdav_expand_fake_path fs (app req) (path_info req))
        as [f|] eqn:Ef].
  3:{ do 2 eexists. split; [reflexivity|]. split.
      - intros _ _. split; [apply final_status_prepare|reflexivity].
      - intros filename [H|[_ H]]; discriminate. }
  all: destruct (open_wronly_creat fs f) as [[fd fs1]|] eqn:Eo.
  all: try (destruct (put_body_loop_total (post_cl req + 2) (post_cl req)
                        (uwsgi_response_prepare_headers req "201 Created") fd fs1)
             as (req' & fs' & Hl & Hr); [simpl; lia|];
            exists req', fs'; split; [exact Hl|]; split;
            [intros; discriminate|];
            intros filename [H|[H1 H]]; try discriminate;
            inversion H; subst filename; rewrite Eo; split;
            [discriminate|];
            intros _; unfold final_status; rewrite Hr;
            apply (final_status_prepare req)).
  all: do 2 eexists; split; [reflexivity|]; split; [intros; discriminate|];
       intros filename [H|[H1 H]]; try discriminate;
       inversion H; subst filename; rewrite Eo; split;
       [intros _; split; [apply final_status_403|reflexivity]|congruence].
Qed.

Lemma put_status_contract_witness :
  exists req' fs',
    uwsgi_wevdav_manage_put (Sample.request "/n.txt" [] "hello") Sample.fs
    = Some (req', fs')
    /\ final_status req' = "201 Created".
Proof.
  destruct (put_status_contract (Sample.request "/n.txt" [] "hello") Sample.fs)
    as (req' & fs' & Hput & _ & Hopen).
  exists req', fs'. split; [exact Hput|].
  apply (Hopen "/srv/dav/n.txt").
  - right. split; reflexivity.
  - vm_compute. discriminate.
Defined.

(** C6 (as stated) fails: with room for three bytes on the volume, PUT
    /n.txt with the body "hello" opens the file, the write comes back short,
    and the status is 201 Created, not 403. *)
Lemma put_short_write_created :
  let req := Sample.request "/n.txt" [] "hello" in
  let fs := mkfs Sample.tree 3 (fun _ => true) in
  exists fd fs1 req' fs',
    open_wronly_creat fs "/srv/dav/n.txt" = Some (fd, fs1)
    /\ fst (fst (write fs1 fd "hello")) = 3
    /\ uwsgi_wevdav_manage_put req fs = Some (req', fs')
    /\ final_status req' = "201 Created"
    /\ final_status req' <> "403 Forbidden".
Proof.
  vm_compute. do 4 eexists. repeat split; discriminate.
Qed.

(** * PROPFIND and the Depth header (C7) *)

Lemma add_props_uris (req : wsgi_request) (fs : filesys)
  (multistatus : list dav_response) (uri filename : string) (wv : bool) :
  let out := snd (uwsgi_webdav_add_props req fs multistatus uri filename wv) in
  out = multistatus
  \/ exists r, out = multistatus ++ [r] /\ r_uri r = uri.
Proof.
  unfold uwsgi_webdav_add_props. destruct (stat fs filename); simpl; eauto.
Qed.

Lemma listing_loop_uris (req : wsgi_request) (fs : filesys) (filename : string)
  (wv : bool) (names : list string) :
  forall (collection : list dirent) (acc : list dav_response),
    (forall de, In de collection -> In (d_name de) names) ->
    Forall (fun r => self_or_member (path_info req) names (r_uri r)) acc ->
    Forall (fun r => self_or_member (path_info req) names (r_uri r))
      (fold_left
         (fun multistatus de =>
            if String.eqb (d_name de) ".." then multistatus
            else
              let '(uri, direntry) :=
                if String.eqb (d_name de) "."
                then (path_info req, filename)
                else if ends_with_slash (path_info req)
                then ((path_info req ++ d_name de)%string,
                      (filename ++ "/" ++ d_name de)%string)
                else ((path_info req ++ "/" ++ d_name de)%string,
                      (filename ++ "/" ++ d_name de)%string) in
              snd (uwsgi_webdav_add_props req fs multistatus uri direntry wv))
         collection acc).
Proof.
  induction collection as [|de collection IH]; intros acc Hin Hacc; simpl.
  - exact Hacc.
  - apply IH; [intros; apply Hin; right; assumption|].
    destruct (String.eqb (d_name de) ".."); [exact Hacc|].
    assert (Hde : In (d_name de) names) by (apply Hin; left; reflexivity).
    destruct (String.eqb (d_name de) ".");
      [|destruct (ends_with_slash (path_info req))];
      match goal with
      | |- context [uwsgi_webdav_add_props req fs acc ?u ?f wv] =>
          destruct (add_props_uris req fs acc u f wv) as [E | (r & E & Hr)];
          cbv zeta in E; rewrite E; [exact Hacc|];
          apply Forall_app; split; [exact Hacc|];
          constructor; [|constructor]; rewrite Hr
      end.
    + left; reflexivity.
    + right; eauto.
    + right; eauto.
Qed.

(** * Rewriting the tree *)

Lemma assoc_set_assoc_same {A : Type} (c : string) (v : A) (es : list (string * A)) :
  assoc c (set_assoc c v es) = Some v.
Proof.
  induction es as [|[k x] es IH]; simpl.
  - rewrite String.eqb_refl. reflexivity.
  - destruct (String.eqb c k) eqn:E; simpl.
    + rewrite String.eqb_refl. reflexivity.
    + rewrite E. exact IH.
Qed.

Lemma assoc_set_assoc_other {A : Type} (c c' : string) (v : A)
  (es : list (string * A)) :
  String.eqb c' c = false -> assoc c' (set_assoc c v es) = assoc c' es.
Proof.
  intros Hne. induction es as [|[k x] es IH]; simpl.
  - rewrite Hne. reflexivity.
  - destruct (String.eqb c k) eqn:E; simpl.
    + apply String.eqb_eq in E. subst k. rewrite Hne. reflexivity.
    + destruct (String.eqb c' k); [reflexivity|exact IH].
Qed.

Lemma set_assoc_twice {A : Type} (c : string) (v v' : A) (es : list (string * A)) :
  set_assoc c v' (set_assoc c v es) = set_assoc c v' es.
Proof.
  induction es as [|[k x] es IH]; simpl.
  - rewrite String.eqb_refl. reflexivity.
  - destruct (String.eqb c k) eqn:E; simpl.
    + rewrite String.eqb_refl. reflexivity.
    + rewrite E, IH. reflexivity.
Qed.

Lemma set_assoc_same {A : Type} (c : string) (v : A) (es : list (string * A)) :
  assoc c es = Some v -> set_assoc c v es = es.
Proof.
  induction es as [|[k x] es IH]; simpl; intros H; [discriminate|].
  destruct (String.eqb c k) eqn:E.
  - apply String.eqb_eq in E. inversion H. subst. reflexivity.
  - rewrite (IH H). reflexivity.
Qed.

Lemma remove_set_assoc {A : Type} (c : string) (v x : A) (es : list (string * A)) :
  assoc c es = Some x ->
  remove_assoc c (set_assoc c v es) = remove_assoc c es.
Proof.
  induction es as [|[k y] es IH]; simpl; intros H; [discriminate|].
  destruct (String.eqb c k) eqn:E; simpl.
  - rewrite String.eqb_refl. reflexivity.
  - rewrite E, (IH H). reflexivity.
Qed.

Lemma alter_spec (f : node -> option node) (r : node) (p : list string) :
  alter f r p =
  match find_node r p with
  | Some n =>
      match f n with
      | Some n' => Some (replace r p n')
      | None => None
      end
  | None => None
  end.
Proof.
  revert r. induction p as [|c p IH]; intros r; simpl.
  - destruct (f r); reflexivity.
  - destruct r as [w d xa|t|w xa es]; try reflexivity.
    destruct (assoc c es) as [ch|]; [|reflexivity].
    rewrite IH. destruct (find_node ch p) as [n|]; [|reflexivity].
    destruct (f n); reflexivity.
Qed.

Lemma find_replace_same (r : node) (p : list string) (n n' : node) :
  find_node r p = Some n -> find_node (replace r p n') p = Some n'.
Proof.
  revert r. induction p as [|c p IH]; intros r H; simpl in *.
  - reflexivity.
  - destruct r as [w d xa|t|w xa es]; try discriminate.
    destruct (assoc c es) as [ch|] eqn:E; [|discriminate].
    simpl. rewrite assoc_set_assoc_same. apply IH. exact H.
Qed.

Lemma replace_twice (r : node) (p : list string) (n1 n2 : node) :
  replace (replace r p n1) p n2 = replace r p n2.
Proof.
  revert r. induction p as [|c p IH]; intros r; simpl.
  - reflexivity.
  - destruct r as [w d xa|t|w xa es]; try reflexivity.
    destruct (assoc c es) as [ch|] eqn:E.
    + simpl. rewrite assoc_set_assoc_same, set_assoc_twice, IH. reflexivity.
    + simpl. rewrite E. reflexivity.
Qed.

Lemma replace_same (r : node) (p : list string) (n : node) :
  find_node r p = Some n -> replace r p n = r.
Proof.
  revert r. induction p as [|c p IH]; intros r H; simpl in *.
  - congruence.
  - destruct r as [w d xa|t|w xa es]; try discriminate.
    destruct (assoc c es) as [ch|] eqn:E; [|discriminate].
    rewrite (IH _ H), (set_assoc_same _ _ _ E). reflexivity.
Qed.

Lemma replace_app (r : node) (q s : list string) (m n' : node) :
  find_node r q = Some m ->
  replace r (q ++ s) n' = replace r q (replace m s n').
Proof.
  revert r. induction q as [|c q IH]; intros r H; simpl in *.
  - congruence.
  - destruct r as [w d xa|t|w xa es]; try discriminate.
    destruct (assoc c es) as [ch|] eqn:E; [|discriminate].
    rewrite (IH _ H). reflexivity.
Qed.

(** Away from [p], neither below it nor above it, nothing changes. *)
Lemma find_replace_other (r : node) (p s : list string) (n' : node) :
  is_prefix p s = false -> is_prefix s p = false ->
  find_node (replace r p n') s = find_node r s.
Proof.
  revert r s. induction p as [|c p IH]; intros r s Hps Hsp.
  - discriminate.
  - destruct s as [|c' s]; [discriminate|]. simpl in Hps, Hsp. simpl.
    destruct r as [w d xa|t|w xa es]; try reflexivity.
    destruct (assoc c es) as [ch|] eqn:E; [|reflexivity].
    simpl. destruct (String.eqb c c') eqn:Ec.
    + apply String.eqb_eq in Ec. subst c'. rewrite String.eqb_refl in Hsp.
      rewrite assoc_set_assoc_same, E. apply IH; assumption.
    + rewrite assoc_set_assoc_other; [reflexivity|].
      rewrite String.eqb_sym. exact Ec.
Qed.

(** Above [p] a directory stays a directory. *)
Lemma find_replace_above (r : node) (q s : list string) (n n' : node) :
  s <> [] -> find_node r (q ++ s) = Some n ->
  exists w xa es es',
    find_node r q = Some (Dir w xa es)
    /\ find_node (replace r (q ++ s) n') q = Some (Dir w xa es').
Proof.
  intros Hs H. rewrite find_node_app in H.
  destruct (find_node r q) as [m|] eqn:Eq; [|discriminate].
  rewrite (replace_app _ _ _ _ _ Eq), (find_replace_same _ _ _ _ Eq).
  destruct s as [|c s]; [congruence|]. simpl in *.
  destruct m as [w d xa|t|w xa es]; try discriminate.
  destruct (assoc c es); [|discriminate].
  do 4 eexists. split; reflexivity.
Qed.

(** * Path text that spells a canonical path *)

Lemma good_name_nontrivial (c : string) :
  good_name c = true -> negb (trivial_comp c) = true.
Proof.
  intros H. apply good_name_elim in H. destruct H as (H & _).
  unfold trivial_comp. rewrite H. reflexivity.
Qed.

Lemma filter_good (q : list string) :
  Forall (fun c => good_name c = true) q ->
  filter (fun c => negb (trivial_comp c)) q = q.
Proof.
  induction 1 as [|c q Hc Hq IH]; simpl; [reflexivity|].
  rewrite (good_name_nontrivial _ Hc), IH. reflexivity.
Qed.

Lemma spells_render (p : list string) :
  p <> [] -> Forall (fun c => good_name c = true) p -> spells (render p) p.
Proof.
  intros Hp Hg. split; [apply render_absolute|]. split; [exact Hg|].
  destruct (exists_last Hp) as (q & leaf & ->).
  exists ("" :: q)%string, q, leaf. split; [reflexivity|].
  apply Forall_app in Hg. destruct Hg as [Hq Hl].
  split.
  - destruct (q ++ [leaf]) as [|c t] eqn:E; [destruct q; discriminate|].
    change (render (c :: t)) with (String slash (join_slash (c :: t))).
    change (split_slash (String slash (join_slash (c :: t))))
      with (""%string :: split_slash (join_slash (c :: t))).
    rewrite split_join; [rewrite <- E; reflexivity|discriminate|].
    rewrite <- E. apply good_names_no_slash, Forall_app. auto.
  - simpl. apply filter_good. exact Hq.
Qed.

Lemma is_absolute_app (a b : string) :
  is_absolute a = true -> is_absolute (a ++ b) = true.
Proof. destruct a; simpl; [discriminate|auto]. Qed.

Lemma spells_child (dir : string) (p : list string) (name : string) :
  spells dir p -> good_name name = true ->
  spells (dir ++ "/" ++ name) (p ++ [name]).
Proof.
  intros (Ha & Hg & cs & q & leaf & Hp & Hs & Hf) Hn.
  split; [apply is_absolute_app; exact Ha|].
  split; [apply Forall_app; auto|].
  exists (cs ++ [leaf]), p, name. split; [reflexivity|].
  split.
  - change (dir ++ "/" ++ name)%string with (dir ++ String slash name)%string.
    rewrite split_slash_app, Hs, split_slash_noslash; [reflexivity|].
    apply good_name_elim in Hn. tauto.
  - rewrite filter_app, Hf. simpl.
    assert (Hl : good_name leaf = true).
    { rewrite Hp in Hg. apply Forall_app in Hg. destruct Hg as [_ Hl].
      inversion Hl; assumption. }
    rewrite (good_name_nontrivial _ Hl). symmetry. exact Hp.
Qed.

Section Spelled.

Variable fs : filesys.

(** Walking text that has only "" and "." between the names of a path of
    directories follows that path. *)
Lemma walk_plain (b : nat) :
  forall cs stack rest,
    Forall (fun c => good_name c = true)
           (filter (fun c => negb (trivial_comp c)) cs) ->
    (exists w xa es,
        find_node (root fs)
          (stack ++ filter (fun c => negb (trivial_comp c)) cs)
        = Some (Dir w xa es)) ->
    walk (root fs) b stack (cs ++ rest)
    = walk (root fs) b (stack ++ filter (fun c => negb (trivial_comp c)) cs) rest.
Proof.
  induction cs as [|c cs IH]; intros stack rest Hg Hd; simpl filter in *.
  - rewrite app_nil_r. reflexivity.
  - rewrite <- app_comm_cons, walk_cons. fold (trivial_comp c).
    destruct (trivial_comp c) eqn:Et; simpl negb in *; cbv iota in *.
    + apply IH; assumption.
    + inversion Hg as [|? ? Hc Hg']; subst.
      destruct (good_name_elim _ Hc) as (_ & E2 & _). rewrite E2.
      destruct Hd as (w & xa & es & Hd).
      replace (stack ++ c :: filter (fun c0 => negb (trivial_comp c0)) cs)
        with ((stack ++ [c]) ++ filter (fun c0 => negb (trivial_comp c0)) cs) in *
        by (rewrite <- app_assoc; reflexivity).
      assert (Hc' : exists w' xa' es',
                 find_node (root fs) (stack ++ [c]) = Some (Dir w' xa' es')).
      { destruct (filter (fun c0 => negb (trivial_comp c0)) cs) as [|c' t].
        - rewrite app_nil_r in Hd. eauto.
        - rewrite find_node_app in Hd.
          destruct (find_node (root fs) (stack ++ [c])) as [[? ? ?|?|? ? ?]|];
            try discriminate; eauto. }
      destruct Hc' as (w' & xa' & es' & Hc'). rewrite Hc'.
      apply IH; eauto.
Qed.

Variables (dir : string) (q : list string) (leaf : string).
Hypothesis dir_spells : spells dir (q ++ [leaf]).
Variables (wq : bool) (xaq : xattrs) (esq : list (string * node)).
Hypothesis parent_dir : find_node (root fs) q = Some (Dir wq xaq esq).

Lemma spelled_parts :
  exists cs,
    split_slash dir = cs ++ [leaf]
    /\ filter (fun c => negb (trivial_comp c)) cs = q
    /\ Forall (fun c => good_name c = true) q
    /\ good_name leaf = true.
Proof.
  destruct dir_spells as (_ & Hg & cs & q' & leaf' & Hp & Hs & Hf).
  apply app_inj_tail in Hp. destruct Hp as [-> ->].
  apply Forall_app in Hg. destruct Hg as [Hq Hl]. inversion Hl; subst.
  exists cs. auto.
Qed.

Lemma parent_leaf_spelled : parent_leaf fs dir = Some (q, leaf).
Proof.
  destruct spelled_parts as (cs & Hs & Hf & Hq & Hl).
  destruct dir_spells as (Ha & _).
  unfold parent_leaf. rewrite Ha, Hs, last_last, Hl, removelast_last.
  rewrite <- (app_nil_r cs).
  rewrite walk_plain; [|rewrite Hf; exact Hq|rewrite Hf; simpl; eauto].
  rewrite walk_nil, Hf. change ([] ++ q) with q.
  rewrite parent_dir. reflexivity.
Qed.

Lemma namei_spelled (n : node) :
  assoc leaf esq = Some n -> is_link n = false ->
  namei fs dir = Some (q ++ [leaf]).
Proof.
  intros Hn Hl.
  destruct spelled_parts as (cs & Hs & Hf & Hq & Hgl).
  destruct dir_spells as (Ha & _).
  unfold namei. rewrite Ha, Hs.
  rewrite walk_plain; [|rewrite Hf; exact Hq|rewrite Hf; simpl; eauto].
  rewrite Hf. change ([] ++ q) with q. rewrite walk_cons.
  destruct (good_name_elim _ Hgl) as (E1 & E2 & _). rewrite E1, E2.
  rewrite find_node_app, parent_dir. simpl. rewrite Hn.
  destruct n; try discriminate; first [reflexivity|apply walk_nil].
Qed.

Lemma opendir_spelled (w : bool) (xa : xattrs) (es : list (string * node)) :
  assoc leaf esq = Some (Dir w xa es) ->
  opendir fs dir
  = if may_opendir fs (q ++ [leaf]) then Some (stream_of es) else None.
Proof.
  intros Hn. unfold opendir.
  rewrite (namei_spelled _ Hn eq_refl), find_node_app, parent_dir.
  simpl. rewrite Hn. reflexivity.
Qed.

Lemma unlink_spelled (n : node) :
  assoc leaf esq = Some n -> is_dir n = false ->
  unlink fs dir =
  if wq
  then Some (set_root fs (replace (root fs) q (Dir wq xaq (remove_assoc leaf esq))))
  else None.
Proof.
  intros Hn Hd. unfold unlink.
  rewrite parent_leaf_spelled, parent_dir.
  destruct wq; [|reflexivity]. rewrite Hn.
  destruct n; try discriminate;
    rewrite alter_spec, parent_dir; reflexivity.
Qed.

Lemma rmdir_spelled (w : bool) (xa : xattrs) (es : list (string * node)) :
  assoc leaf esq = Some (Dir w xa es) ->
  rmdir fs dir =
  if negb wq then Err EACCES
  else match es with
       | [] => Ok (set_root fs
                     (replace (root fs) q (Dir wq xaq (remove_assoc leaf esq))))
       | _ :: _ => Err ENOTEMPTY
       end.
Proof.
  intros Hn. unfold rmdir.
  rewrite parent_leaf_spelled, parent_dir, Hn.
  destruct (negb wq); [reflexivity|].
  destruct es; [|reflexivity].
  rewrite alter_spec, parent_dir. reflexivity.
Qed.

End Spelled.

(** * The recursive delete (C8) *)

Lemma changed_below_refl (r : node) (p : list string) (n : node) :
  find_node r p = Some n -> changed_below r p r.
Proof. intros H. exists n, n. split; [exact H|]. symmetry. apply replace_same, H. Qed.

Lemma changed_below_trans (r r1 r2 : node) (p : list string) :
  changed_below r p r1 -> changed_below r1 p r2 -> changed_below r p r2.
Proof.
  intros (n & n1 & Hn & ->) (m & n2 & Hm & ->).
  exists n, n2. split; [exact Hn|]. apply replace_twice.
Qed.

Lemma changed_below_up (r r1 : node) (p s : list string) :
  changed_below r (p ++ s) r1 -> changed_below r p r1.
Proof.
  intros (n & n' & Hn & ->). rewrite find_node_app in Hn.
  destruct (find_node r p) as [m|] eqn:E; [|discriminate].
  exists m, (replace m s n'). split; [exact E|].
  apply replace_app. exact E.
Qed.

Lemma removed_changes (r r' : node) (q : list string) (leaf : string) :
  removed_at r q leaf r' -> changed_below r q r'.
Proof. intros (w & xa & es & H & ->). eexists _, _. split; [exact H|reflexivity]. Qed.

Lemma removed_after_change (r r1 r' : node) (q : list string) (leaf : string) :
  changed_below r (q ++ [leaf]) r1 ->
  removed_at r1 q leaf r' -> removed_at r q leaf r'.
Proof.
  intros (n & n' & Hn & ->) (w & xa & es & Hf & ->).
  destruct (find_node_snoc _ _ _ _ Hn) as (w0 & xa0 & es0 & Hq & Ha).
  rewrite (replace_app _ _ _ _ _ Hq) in *.
  rewrite (find_replace_same _ _ _ _ Hq) in Hf.
  simpl in Hf. rewrite Ha in Hf. inversion Hf; subst w xa es; clear Hf.
  exists w0, xa0, es0. split; [exact Hq|].
  rewrite replace_twice, (remove_set_assoc _ _ _ _ Ha). reflexivity.
Qed.

Lemma good_tree_cons (w : bool) (xa : xattrs) (name : string) (child : node)
  (es : list (string * node)) :
  good_tree (Dir w xa ((name, child) :: es)) = true ->
  good_name name = true /\ good_tree child = true
  /\ good_tree (Dir w xa es) = true.
Proof.
  simpl. intros H.
  apply andb_true_iff in H. destruct H as [H H3].
  apply andb_true_iff in H. destruct H as [H1 H2]. auto.
Qed.

Lemma height_cons (w : bool) (xa : xattrs) (e : string * node)
  (es : list (string * node)) :
  height (snd e) < height (Dir w xa (e :: es))
  /\ height (Dir w xa es) <= height (Dir w xa (e :: es)).
Proof. simpl. lia. Qed.

Lemma postorder_cons (dir : string) (w : bool) (xa : xattrs) (e : string * node)
  (es : list (string * node)) :
  postorder dir (Dir w xa (e :: es)) =
  match snd e with
  | Dir _ _ _ => postorder (dir ++ "/" ++ fst e)%string (snd e)
  | _ => [Unlinked (dir ++ "/" ++ fst e)%string]
  end ++ postorder dir (Dir w xa es).
Proof. simpl. rewrite <- app_assoc. reflexivity. Qed.

Lemma good_name_not_dots (name : string) :
  good_name name = true ->
  String.eqb name "." || String.eqb name ".." = false.
Proof.
  intros H. destruct (good_name_elim _ H) as (H1 & H2 & _).
  apply orb_false_iff in H1. destruct H1 as [_ H1]. rewrite H1, H2. reflexivity.
Qed.

Lemma all_writable_cons (w : bool) (xa : xattrs) (name : string) (child : node)
  (es : list (string * node)) :
  all_writable (Dir w xa ((name, child) :: es)) = true ->
  w = true /\ all_writable child = true /\ all_writable (Dir w xa es) = true.
Proof.
  simpl. intros H.
  apply andb_true_iff in H. destruct H as [Hw H].
  apply andb_true_iff in H. destruct H as [H1 H2]. rewrite Hw. auto.
Qed.

Lemma dir_writable_below (r : node) (q s : list string) (n n' : node) :
  s <> [] -> find_node r (q ++ s) = Some n ->
  dir_writable (replace r (q ++ s) n') q = dir_writable r q.
Proof.
  intros Hs H.
  destruct (find_replace_above r q s n n' Hs H) as (w & xa & es & es' & H1 & H2).
  unfold dir_writable. rewrite H1, H2. reflexivity.
Qed.

Section DeleteLoop.

Variable rec : filesys -> string -> option (Z * filesys * list fs_action).
Variable fuel' : nat.
Hypothesis rec_spec : delete_spec rec fuel'.

Variables (dir : string) (q : list string) (leaf : string).
Hypothesis dir_spells : spells dir (q ++ [leaf]).
Variables (w : bool) (xa : xattrs).

Lemma delete_loop_spec :
  forall es fs log0,
    find_node (root fs) (q ++ [leaf]) = Some (Dir w xa es) ->
    good_tree (Dir w xa es) = true ->
    height (Dir w xa es) <= S fuel' ->
    (forall s, may_opendir fs ((q ++ [leaf]) ++ s) = true) ->
    exists ret fs' log,
      delete_loop rec dir (map (fun e => mkdirent (fst e) (dtype_of (snd e))) es)
                  fs log0
      = Some (ret, fs', log)
      /\ same_volume fs fs'
      /\ ((ret = 0%Z
           /\ removed_at (root fs) q leaf (root fs')
           /\ log = log0 ++ postorder dir (Dir w xa es))
          \/ (ret = (-1)%Z
              /\ changed_below (root fs) (q ++ [leaf]) (root fs')))
      /\ (dir_writable (root fs) q = true ->
          all_writable (Dir w xa es) = true -> ret = 0%Z).
Proof.
  induction es as [|[name child] es IH]; intros fs log0 Hfind Hgood Hh Hread.
  - (* the stream is exhausted: rmdir *)
    destruct (find_node_snoc _ _ _ _ Hfind) as (wq & xaq & esq & Hq & Ha).
    simpl. rewrite (rmdir_spelled fs dir q leaf dir_spells wq xaq esq Hq _ _ _ Ha).
    destruct wq; simpl.
    + do 3 eexists. split; [reflexivity|]. split; [split; reflexivity|].
      split; [|reflexivity].
      left. split; [reflexivity|]. split; [|reflexivity].
      exists true, xaq, esq. auto.
    + do 3 eexists. split; [reflexivity|]. split; [split; reflexivity|].
      split.
      * right. split; [reflexivity|]. eapply changed_below_refl; eauto.
      * intros Hwq _. unfold dir_writable in Hwq. rewrite Hq in Hwq.
        discriminate.
  - destruct (good_tree_cons _ _ _ _ _ Hgood) as (Hname & Hchild & Hrest).
    destruct (height_cons w xa (name, child) es) as [Hhc Hhr]. simpl snd in Hhc.
    assert (Hitem : spells (dir ++ "/" ++ name) ((q ++ [leaf]) ++ [name]))
      by (apply spells_child; assumption).
    assert (Hassoc : assoc name ((name, child) :: es) = Some child)
      by (simpl; rewrite String.eqb_refl; reflexivity).
    (* once the first entry is gone, the rest of the loop *)
    assert (Hnext : forall fs1 log1,
               root fs1 = replace (root fs) (q ++ [leaf]) (Dir w xa es) ->
               same_volume fs fs1 ->
               exists ret fs' log,
                 delete_loop rec dir
                   (map (fun e => mkdirent (fst e) (dtype_of (snd e))) es) fs1 log1
                 = Some (ret, fs', log)
                 /\ same_volume fs fs'
                 /\ ((ret = 0%Z
                      /\ removed_at (root fs) q leaf (root fs')
                      /\ log = log1 ++ postorder dir (Dir w xa es))
                     \/ (ret = (-1)%Z
                         /\ changed_below (root fs) (q ++ [leaf]) (root fs')))
                 /\ (dir_writable (root fs) q = true ->
                     all_writable (Dir w xa es) = true -> ret = 0%Z)).
    { intros fs1 log1 Hr1 [Ha1 Hm1].
      assert (Hc1 : changed_below (root fs) (q ++ [leaf]) (root fs1))
        by (eexists _, _; split; [exact Hfind|exact Hr1]).
      assert (Hf1 : find_node (root fs1) (q ++ [leaf]) = Some (Dir w xa es))
        by (rewrite Hr1; eapply find_replace_same; eauto).
      assert (Hread1 : forall s, may_opendir fs1 ((q ++ [leaf]) ++ s) = true)
        by (intros s; rewrite Hm1; apply Hread).
      destruct (IH fs1 log1 Hf1 Hrest ltac:(lia) Hread1)
        as (ret & fs' & log & Hl & [Hav Hmo] & Hres & Hok).
      exists ret, fs', log. split; [exact Hl|].
      split; [split; congruence|]. split.
      - destruct Hres as [(-> & Hrem & ->) | (-> & Hch)].
        + left. split; [reflexivity|]. split; [|reflexivity].
          eapply removed_after_change; eauto.
        + right. split; [reflexivity|]. eapply changed_below_trans; eauto.
      - intros Hwq Hall. apply Hok; [|exact Hall]. rewrite Hr1.
        rewrite (dir_writable_below _ q [leaf] _ _ ltac:(discriminate) Hfind).
        exact Hwq. }
    simpl map. simpl delete_loop. simpl d_name. simpl d_type.
    rewrite (good_name_not_dots _ Hname).
    change (dir ++ String "/" name)%string with (dir ++ "/" ++ name)%string.
    destruct child as [fw fd fxa|t|cw cxa ces] eqn:Echild; simpl dtype_of; cbv iota.
    + (* a regular file: unlink *)
      rewrite (unlink_spelled fs _ _ _ Hitem w xa _ Hfind _ Hassoc eq_refl).
      destruct w.
      * simpl remove_assoc. rewrite String.eqb_refl.
        destruct (Hnext (set_root fs (replace (root fs) (q ++ [leaf]) (Dir true xa es)))
                    (log0 ++ [Unlinked (dir ++ "/" ++ name)%string])
                    eq_refl (conj eq_refl eq_refl))
          as (ret & fs' & log & Hl & Hav & Hres & Hok).
        exists ret, fs', log. split; [exact Hl|]. split; [exact Hav|]. split.
        -- destruct Hres as [(-> & Hrem & ->) | Hres]; [left|right; exact Hres].
           split; [reflexivity|]. split; [exact Hrem|].
           rewrite postorder_cons, <- app_assoc. reflexivity.
        -- intros Hwq Hall. apply Hok; [exact Hwq|].
           apply (all_writable_cons _ _ _ _ _ Hall).
      * do 3 eexists. split; [reflexivity|]. split; [split; reflexivity|]. split.
        -- right. split; [reflexivity|]. eapply changed_below_refl; eauto.
        -- intros _ Hall. destruct (all_writable_cons _ _ _ _ _ Hall) as (Hw & _).
           discriminate.
    + (* a symbolic link: unlink, the target is not looked at *)
      rewrite (unlink_spelled fs _ _ _ Hitem w xa _ Hfind _ Hassoc eq_refl).
      destruct w.
      * simpl remove_assoc. rewrite String.eqb_refl.
        destruct (Hnext (set_root fs (replace (root fs) (q ++ [leaf]) (Dir true xa es)))
                    (log0 ++ [Unlinked (dir ++ "/" ++ name)%string])
                    eq_refl (conj eq_refl eq_refl))
          as (ret & fs' & log & Hl & Hav & Hres & Hok).
        exists ret, fs', log. split; [exact Hl|]. split; [exact Hav|]. split.
        -- destruct Hres as [(-> & Hrem & ->) | Hres]; [left|right; exact Hres].
           split; [reflexivity|]. split; [exact Hrem|].
           rewrite postorder_cons, <- app_assoc. reflexivity.
        -- intros Hwq Hall. apply Hok; [exact Hwq|].
           apply (all_writable_cons _ _ _ _ _ Hall).
      * do 3 eexists. split; [reflexivity|]. split; [split; reflexivity|]. split.
        -- right. split; [reflexivity|]. eapply changed_below_refl; eauto.
        -- intros _ Hall. destruct (all_writable_cons _ _ _ _ _ Hall) as (Hw & _).
           discriminate.
    + (* a directory: the recursive call *)
      assert (Hfc : find_node (root fs) ((q ++ [leaf]) ++ [name])
                    = Some (Dir cw cxa ces)).
      { rewrite find_node_app, Hfind. simpl. rewrite String.eqb_refl. reflexivity. }
      assert (Hreadc : forall s,
                 may_opendir fs (((q ++ [leaf]) ++ [name]) ++ s) = true)
        by (intros s; rewrite <- app_assoc; apply Hread).
      destruct (rec_spec fs _ _ _ _ _ _ Hitem Hfc Hchild ltac:(lia) Hreadc)
        as (ret1 & fs1 & sub & Hrun & Hav1 & Hres1 & Hok1).
      rewrite Hrun.
      destruct Hres1 as [(-> & Hrem1 & ->) | (-> & Hch1)].
      * simpl Z.eqb. cbv iota.
        assert (Hr1 : root fs1 = replace (root fs) (q ++ [leaf]) (Dir w xa es)).
        { destruct Hrem1 as (w' & xa' & es' & Hf' & ->).
          rewrite Hfind in Hf'. inversion Hf'; subst w' xa' es'.
          simpl remove_assoc. rewrite String.eqb_refl. reflexivity. }
        destruct (Hnext fs1 (log0 ++ postorder (dir ++ "/" ++ name) (Dir cw cxa ces))
                    Hr1 Hav1)
          as (ret & fs' & log & Hl & Hav & Hres & Hok).
        exists ret, fs', log. split; [exact Hl|]. split; [exact Hav|]. split.
        -- destruct Hres as [(-> & Hrem & ->) | Hres]; [left|right; exact Hres].
           split; [reflexivity|]. split; [exact Hrem|].
           rewrite postorder_cons, <- app_assoc. reflexivity.
        -- intros Hwq Hall. apply Hok; [exact Hwq|].
           apply (all_writable_cons _ _ _ _ _ Hall).
      * simpl Z.eqb. cbv iota.
        do 3 eexists. split; [reflexivity|]. split; [exact Hav1|]. split.
        -- right. split; [reflexivity|]. eapply changed_below_up; eauto.
        -- intros _ Hall.
           destruct (all_writable_cons _ _ _ _ _ Hall) as (Hw & Hc & _).
           apply Hok1; [|exact Hc].
           unfold dir_writable. rewrite Hfind, Hw. reflexivity.
Qed.

End DeleteLoop.

(** The recursive delete meets its specification with fuel for the depth
    of the directory. *)
Lemma massive_delete_spec (fuel : nat) :
  delete_spec (uwsgi_webdav_massive_delete fuel) fuel.
Proof.
  induction fuel as [|fuel IH];
    intros fs dir q leaf w xa es Hsp Hfind Hgood Hh Hread.
  - simpl in Hh. lia.
  - destruct (find_node_snoc _ _ _ _ Hfind) as (wq & xaq & esq & Hq & Ha).
    simpl uwsgi_webdav_massive_delete.
    rewrite (opendir_spelled fs dir q leaf Hsp wq xaq esq Hq _ _ _ Ha).
    pose proof (Hread []) as Hr0. rewrite app_nil_r in Hr0. rewrite Hr0.
    unfold stream_of. simpl delete_loop.
    destruct (delete_loop_spec _ _ IH dir q leaf Hsp w xa es fs [] Hfind Hgood Hh
                Hread)
      as (ret & fs' & log & Hl & Hrest).
    exists ret, fs', log. auto.
Qed.

Lemma assoc_height (w : bool) (xa : xattrs) (es : list (string * node))
  (c : string) (ch : node) :
  assoc c es = Some ch -> height ch < height (Dir w xa es).
Proof.
  induction es as [|[k v] es IH]; simpl; intros H; [discriminate|].
  destruct (String.eqb c k).
  - inversion H; subst. lia.
  - specialize (IH H). simpl in IH. lia.
Qed.

Lemma find_height (r : node) (p : list string) (n : node) :
  find_node r p = Some n -> height n <= height r.
Proof.
  revert r. induction p as [|c p IH]; intros r H; simpl in H.
  - inversion H; subst. lia.
  - destruct r as [w d xa|t|w xa es]; try discriminate.
    destruct (assoc c es) as [ch|] eqn:E; [|discriminate].
    specialize (IH _ H). pose proof (assoc_height w xa es c ch E). lia.
Qed.

Lemma assoc_good_tree (w : bool) (xa : xattrs) (es : list (string * node))
  (c : string) (ch : node) :
  good_tree (Dir w xa es) = true -> assoc c es = Some ch ->
  good_name c = true /\ good_tree ch = true.
Proof.
  induction es as [|[k v] es IH]; intros Hg H; [discriminate|].
  destruct (good_tree_cons _ _ _ _ _ Hg) as (Hk & Hv & Hes).
  simpl in H. destruct (String.eqb c k) eqn:E.
  - apply String.eqb_eq in E. inversion H; subst. auto.
  - apply IH; assumption.
Qed.

Lemma good_tree_find (r : node) (p : list string) (n : node) :
  good_tree r = true -> find_node r p = Some n -> good_tree n = true.
Proof.
  revert r. induction p as [|c p IH]; intros r Hg H; simpl in H.
  - inversion H; subst. exact Hg.
  - destruct r as [w d xa|t|w xa es]; try discriminate.
    destruct (assoc c es) as [ch|] eqn:E; [|discriminate].
    eapply IH; [|exact H]. eapply assoc_good_tree; eauto.
Qed.

(** A canonical name leads back to the path it renders. *)
Lemma namei_render (fs : filesys) (p : list string) :
  canon_path (root fs) p -> namei fs (render p) = Some p.
Proof.
  intros [Hg (n & Hn & Hl)].
  destruct p as [|c p'] eqn:Ep; [reflexivity|]. rewrite <- Ep in *.
  assert (Hp : p <> []) by (rewrite Ep; discriminate).
  destruct (exists_last Hp) as (q & leaf & Eq). rewrite Eq in *.
  destruct (find_node_snoc _ _ _ _ Hn) as (wq & xaq & esq & Hq & Ha).
  eapply namei_spelled; eauto. apply spells_render; auto.
Qed.

(** The strict resolver returns the text of a canonical path. *)
Lemma expand_path_canon (fs : filesys) (ua : uwsgi_app) (item filename : string) :
  is_dir (root fs) = true ->
  uwsgi_webdav_expand_path fs ua item = Some filename ->
  exists p, filename = render p /\ canon_path (root fs) p.
Proof.
  intros Hroot H. unfold uwsgi_webdav_expand_path, realpath, namei in H.
  destruct (is_absolute _); [|discriminate].
  destruct (walk _ _ _ _) as [p|] eqn:E; [|discriminate].
  inversion H; subst. exists p. split; [reflexivity|].
  eapply walk_canon_result; [apply split_slash_no_slash| |exact E].
  split; [constructor|]. exists (root fs). split; [reflexivity|].
  destruct (root fs); try discriminate; reflexivity.
Qed.




(** * Dead properties: attribute changes and resolution *)

Lemma find_replace_kind (n' : node) :
  forall p r n s,
    find_node r p = Some n ->
    kind_of n' = kind_of n -> entries_of n' = entries_of n ->
    option_map kind_of (find_node (replace r p n') s)
    = option_map kind_of (find_node r s).
Proof.
  induction p as [|c p IH]; intros r n s Hf Hk He; simpl in Hf.
  - inversion Hf; subst n. simpl. destruct s as [|c s]; simpl.
    + rewrite Hk. reflexivity.
    + destruct n' as [? ? ?|?|? ? es'], r as [? ? ?|?|? ? es];
        try discriminate; try reflexivity.
      simpl in He. subst es'. reflexivity.
  - destruct r as [w d xa|t|w xa es]; try discriminate.
    destruct (assoc c es) as [ch|] eqn:E; [|discriminate].
    simpl. rewrite E. destruct s as [|c' s]; [reflexivity|]. simpl.
    destruct (String.eqb c' c) eqn:Ec.
    + apply String.eqb_eq in Ec. subst c'.
      rewrite assoc_set_assoc_same, E. eapply IH; eauto.
    + rewrite assoc_set_assoc_other by exact Ec. reflexivity.
Qed.

Lemma walk_kind_ext (r r' : node) :
  (forall s, option_map kind_of (find_node r' s) = option_map kind_of (find_node r s)) ->
  forall b cs stack, walk r' b stack cs = walk r b stack cs.
Proof.
  intros Hk. induction b as [|b IHb]; induction cs as [|c cs IH]; intros stack;
    rewrite ?walk_nil; try reflexivity; rewrite !walk_cons;
    (destruct (String.eqb c "" || String.eqb c "."); [apply IH|]);
    (destruct (String.eqb c ".."); [apply IH|]);
    specialize (Hk (stack ++ [c]));
    destruct (find_node r' (stack ++ [c])) as [[? ? ?|?|? ? ?]|],
             (find_node r (stack ++ [c])) as [[? ? ?|?|? ? ?]|];
    simpl in Hk; try discriminate; try reflexivity; try apply IH.
  inversion Hk; subst. apply IHb.
Qed.

Lemma with_xattrs_inv (f : xattrs -> option xattrs) (n n' : node) :
  with_xattrs f n = Some n' ->
  exists xa xa',
    node_xattrs n = Some xa /\ f xa = Some xa' /\ n' = put_xattrs n xa'.
Proof.
  destruct n as [[|] d xa|t|[|] xa es]; simpl; try discriminate;
    destruct (f xa) as [xa'|] eqn:E; simpl; try discriminate;
    intros H; inversion H; subst; eauto.
Qed.

(** After an attribute change the file is where it was, with the new
    attributes. *)
Lemma xattr_update (fs : filesys) (path : string) (p : list string)
  (f : xattrs -> option xattrs) (r' : node) :
  namei fs path = Some p ->
  alter (with_xattrs f) (root fs) p = Some r' ->
  exists n xa xa',
    stat fs path = Some n
    /\ node_xattrs n = Some xa /\ f xa = Some xa'
    /\ stat (set_root fs r') path = Some (put_xattrs n xa').
Proof.
  intros Hn Ha. rewrite alter_spec in Ha.
  destruct (find_node (root fs) p) as [n|] eqn:Hf; [|discriminate].
  destruct (with_xattrs f n) as [n'|] eqn:Hw; [|discriminate].
  inversion Ha; subst r'; clear Ha.
  destruct (with_xattrs_inv _ _ _ Hw) as (xa & xa' & Hx & Hfx & ->).
  exists n, xa, xa'. unfold stat. rewrite Hn. repeat split; auto.
  assert (Hn' : namei (set_root fs (replace (root fs) p (put_xattrs n xa'))) path
                = Some p).
  { unfold namei in *. simpl root. destruct (is_absolute path); [|discriminate].
    rewrite <- Hn. apply walk_kind_ext. intros s.
    eapply find_replace_kind; eauto; destruct n; reflexivity. }
  rewrite Hn'. simpl root. eapply find_replace_same; eauto.
Qed.

Lemma node_xattrs_put (n : node) (xa xa' : xattrs) :
  node_xattrs n = Some xa -> node_xattrs (put_xattrs n xa') = Some xa'.
Proof. destruct n; simpl; try discriminate; reflexivity. Qed.

(** * Scanning the attribute names *)

Section Scan.

Variables (fs : filesys) (filename : string) (wv : bool) (rlen : nat).

Lemma xattr_scan_key (k rest : string) :
  has_char NUL k = false ->
  forall acc,
    xattr_scan fs filename wv rlen (k ++ String NUL rest) (Some acc)
    = xattr_item fs filename wv rlen (acc ++ k)
      ++ xattr_scan fs filename wv rlen rest None.
Proof.
  induction k as [|c k IH]; intros Hk acc; simpl.
  - replace (acc ++ "")%string with acc; [reflexivity|].
    clear. induction acc; simpl; congruence.
  - simpl in Hk. apply orb_false_iff in Hk. destruct Hk as [Hc Hk].
    rewrite Hc, (IH Hk), str_app_assoc. reflexivity.
Qed.

Lemma xattr_scan_names (names : list string) :
  Forall (fun k => k <> EmptyString /\ has_char NUL k = false) names ->
  xattr_scan fs filename wv rlen (name_buffer names) None
  = flat_map (xattr_item fs filename wv rlen) names.
Proof.
  induction 1 as [|k names [Hne Hk] _ IH]; simpl; [reflexivity|].
  destruct k as [|c k]; [congruence|]. simpl in *.
  apply orb_false_iff in Hk. destruct Hk as [Hc Hk].
  rewrite Hc, (xattr_scan_key _ _ Hk), IH. reflexivity.
Qed.

End Scan.

(** * The attribute key and the pair it stands for *)

Lemma strchr_split_found (c : ascii) (a b : string) :
  has_char c a = false ->
  strchr_split c (a ++ String c b) = Some (a, b).
Proof.
  induction a as [|d a IH]; simpl; intros H.
  - rewrite Ascii.eqb_refl. reflexivity.
  - apply orb_false_iff in H. destruct H as [Hd Ha].
    rewrite Hd, (IH Ha). reflexivity.
Qed.

Lemma strchr_split_none (c : ascii) (s : string) :
  has_char c s = false -> strchr_split c s = None.
Proof.
  induction s as [|d s IH]; simpl; intros H; [reflexivity|].
  apply orb_false_iff in H. destruct H as [Hd Hs].
  rewrite Hd, (IH Hs). reflexivity.
Qed.

Lemma strchr_split_inv (c : ascii) (s a b : string) :
  strchr_split c s = Some (a, b) -> s = (a ++ String c b)%string.
Proof.
  revert a. induction s as [|d s IH]; simpl; intros a H; [discriminate|].
  destruct (Ascii.eqb d c) eqn:E.
  - apply Ascii.eqb_eq in E. inversion H; subst. reflexivity.
  - destruct (strchr_split c s) as [[a' b']|]; [|discriminate].
    inversion H; subst. simpl. rewrite (IH a' eq_refl). reflexivity.
Qed.

Lemma drop_str_app (a b : string) :
  drop_str (String.length a) (a ++ b) = b.
Proof.
  unfold drop_str. rewrite str_app_length.
  replace (String.length a + String.length b - String.length a)
    with (String.length b) by lia.
  induction a as [|c a IH]; simpl; [apply substring_0_all|exact IH].
Qed.

Lemma prefix_split (pre s : string) :
  String.prefix pre s = true ->
  s = (pre ++ drop_str (String.length pre) s)%string.
Proof.
  revert s. induction pre as [|c pre IH]; intros s H; simpl in *.
  - unfold drop_str. rewrite Nat.sub_0_r, substring_0_all. reflexivity.
  - destruct s as [|d s]; [discriminate|]. simpl in H.
    destruct (ascii_dec c d); [|discriminate]. subst d.
    unfold drop_str in *. simpl. rewrite <- (IH _ H). reflexivity.
Qed.

(** The key of a pair decodes to that pair. *)
Lemma xattr_item_of_name (fs : filesys) (filename : string) (rlen : nat)
  (ns : option string) (attr value : string) :
  (forall s, ns = Some s -> has_char pipe s = false) ->
  (ns = None -> has_char pipe attr = false) ->
  0 < rlen -> value <> EmptyString ->
  getxattr fs filename (xattr_name_of ns attr) = Some value ->
  xattr_item fs filename true rlen (xattr_name_of ns attr)
  = [mkprop (element_ns ns) attr (Some value)].
Proof.
  intros Hns Hattr Hrlen Hval Hget. unfold xattr_item.
  rewrite Hget. unfold uwsgi_starts_with.
  destruct (Nat.ltb 0 rlen) eqn:E; [|apply Nat.ltb_ge in E; lia].
  destruct ns as [s|]; unfold xattr_name_of;
    rewrite prefix_append; change 18 with (String.length xattr_prefix);
    rewrite drop_str_app.
  - change (s ++ "|" ++ attr)%string with (s ++ String pipe attr)%string.
    rewrite strchr_split_found by auto.
    destruct value; [congruence|reflexivity].
  - rewrite strchr_split_none by auto.
    destruct value; [congruence|reflexivity].
Qed.

Lemma strchr_split_before (c : ascii) (s a b : string) :
  strchr_split c s = Some (a, b) -> has_char c a = false.
Proof.
  revert a. induction s as [|d s IH]; simpl; intros a H; [discriminate|].
  destruct (Ascii.eqb d c) eqn:E.
  - inversion H; subst. reflexivity.
  - destruct (strchr_split c s) as [[a' b']|]; [|discriminate].
    inversion H; subst. simpl. rewrite E. apply (IH a' eq_refl).
Qed.

Lemma strchr_split_none_inv (c : ascii) (s : string) :
  strchr_split c s = None -> has_char c s = false.
Proof.
  induction s as [|d s IH]; simpl; intros H; [reflexivity|].
  destruct (Ascii.eqb d c); [discriminate|].
  destruct (strchr_split c s) as [[a b]|]; [discriminate|].
  rewrite IH by reflexivity. reflexivity.
Qed.

(** A key that yields a pair is a key of that pair: the one of the
    namespace and the name, or, for a pair in DAV:, the bare name. *)
Lemma xattr_item_key (fs : filesys) (filename : string) (wv : bool) (rlen : nat)
  (key : string) (ns : option string) (attr : string) (v : option string) :
  In (mkprop ns attr v) (xattr_item fs filename wv rlen key) ->
  exists own,
    element_ns own = ns
    /\ key = xattr_name_of own attr
    /\ (forall s, own = Some s -> has_char pipe s = false)
    /\ (own = None -> has_char pipe attr = false).
Proof.
  unfold xattr_item, uwsgi_starts_with.
  destruct (String.prefix xattr_prefix key) eqn:Hp; [|intros []].
  apply prefix_split in Hp. change (String.length xattr_prefix) with 18 in Hp.
  set (rest := drop_str 18 key) in *.
  assert (Hin : forall l,
             In (mkprop ns attr v) l ->
             (forall x, In x l ->
                        p_ns x = element_ns
                                   match strchr_split pipe rest with
                                   | Some (before, _) => Some before
                                   | None => None
                                   end
                        /\ p_name x = match strchr_split pipe rest with
                                      | Some (_, after) => after
                                      | None => rest
                                      end) ->
             exists own,
               element_ns own = ns
               /\ key = xattr_name_of own attr
               /\ (forall s, own = Some s -> has_char pipe s = false)
               /\ (own = None -> has_char pipe attr = false)).
  { intros l Hl Hall. destruct (Hall _ Hl) as [Hn Ha]. simpl in Hn, Ha.
    destruct (strchr_split pipe rest) as [[before after]|] eqn:Es.
    - exists (Some before). subst ns attr.
      pose proof (strchr_split_before _ _ _ _ Es) as Hb.
      apply strchr_split_inv in Es.
      split; [reflexivity|]. split; [|split].
      + etransitivity; [exact Hp|]. unfold xattr_name_of. f_equal. exact Es.
      + intros s Hs. injection Hs as <-. exact Hb.
      + discriminate.
    - exists None. subst ns attr.
      split; [reflexivity|]. split; [exact Hp|]. split; [discriminate|].
      intros _. apply strchr_split_none_inv. exact Es. }
  intros H. apply (Hin _ H). clear H Hin.
  intros x Hx.
  destruct wv;
    [destruct (Nat.ltb 0 rlen);
     [destruct (getxattr fs filename key) as [xv|];
      [destruct (Nat.ltb 0 (String.length xv))|]
     |destruct (Nat.eqb rlen 0)]|];
    simpl in Hx; try contradiction;
    destruct Hx as [<-|[]]; simpl; auto.
Qed.

(** * Set, list, delete *)

Lemma has_char_app (c : ascii) (a b : string) :
  has_char c (a ++ b) = has_char c a || has_char c b.
Proof. induction a as [|d a IH]; simpl; [reflexivity|]. rewrite IH, orb_assoc. reflexivity. Qed.

Lemma in_set_assoc {A : Type} (k k' : string) (v : A) (l : list (string * A)) :
  In k' (map fst (set_assoc k v l)) <-> k' = k \/ In k' (map fst l).
Proof.
  induction l as [|[a x] l IH]; simpl.
  - intuition congruence.
  - destruct (String.eqb k a) eqn:E; simpl.
    + apply String.eqb_eq in E. subst a. intuition congruence.
    + rewrite IH. intuition congruence.
Qed.

Lemma nodup_set_assoc {A : Type} (k : string) (v : A) (l : list (string * A)) :
  NoDup (map fst l) -> NoDup (map fst (set_assoc k v l)).
Proof.
  induction l as [|[a x] l IH]; simpl; intros H.
  - constructor; [intros []|constructor].
  - inversion H as [|? ? Hn Hl]; subst.
    destruct (String.eqb k a) eqn:E; simpl.
    + apply String.eqb_eq in E. subst a. constructor; assumption.
    + constructor; [|auto]. rewrite in_set_assoc. intros [->|Hin]; [|auto].
      rewrite String.eqb_refl in E. discriminate.
Qed.

Lemma wf_set_assoc (k v : string) (xa : xattrs) :
  wf_xattrs xa -> k <> EmptyString -> has_char NUL k = false ->
  wf_xattrs (set_assoc k v xa).
Proof.
  intros [Hf Hn] Hk Hz. split; [|apply nodup_set_assoc; exact Hn].
  apply Forall_forall. intros k' Hin. apply in_set_assoc in Hin.
  destruct Hin as [->|Hin]; [auto|].
  rewrite Forall_forall in Hf. auto.
Qed.

Lemma in_remove_assoc {A : Type} (k k' : string) (l : list (string * A)) :
  In k' (map fst (remove_assoc k l)) -> In k' (map fst l).
Proof.
  induction l as [|[a x] l IH]; simpl; [auto|].
  destruct (String.eqb k a); simpl; intuition.
Qed.

Lemma not_in_remove_assoc {A : Type} (k : string) (l : list (string * A)) :
  NoDup (map fst l) -> ~ In k (map fst (remove_assoc k l)).
Proof.
  induction l as [|[a x] l IH]; simpl; intros H; [auto|].
  inversion H as [|? ? Hn Hl]; subst.
  destruct (String.eqb k a) eqn:E; simpl.
  - apply String.eqb_eq in E. subst a. exact Hn.
  - intros [->|Hin]; [rewrite String.eqb_refl in E; discriminate|].
    exact (IH Hl Hin).
Qed.

Lemma nodup_remove_assoc {A : Type} (k : string) (l : list (string * A)) :
  NoDup (map fst l) -> NoDup (map fst (remove_assoc k l)).
Proof.
  induction l as [|[a x] l IH]; simpl; intros H; [constructor|].
  inversion H as [|? ? Hn Hl]; subst.
  destruct (String.eqb k a); simpl; [assumption|].
  constructor; [|auto]. intros Hin. apply Hn. eapply in_remove_assoc; eauto.
Qed.

Lemma wf_remove_assoc (k : string) (xa : xattrs) :
  wf_xattrs xa -> wf_xattrs (remove_assoc k xa).
Proof.
  intros [Hf Hn]. split; [|apply nodup_remove_assoc; exact Hn].
  rewrite Forall_forall in *. intros k' Hin. apply Hf.
  eapply in_remove_assoc; eauto.
Qed.

Lemma in_assoc {A : Type} (k : string) (l : list (string * A)) :
  In k (map fst l) -> exists v, assoc k l = Some v.
Proof.
  induction l as [|[a x] l IH]; simpl; intros H; [destruct H|].
  destruct (String.eqb k a) eqn:E; [eauto|].
  destruct H as [->|H]; [rewrite String.eqb_refl in E; discriminate|auto].
Qed.

Lemma assoc_not_in {A : Type} (k : string) (l : list (string * A)) :
  ~ In k (map fst l) -> assoc k l = None.
Proof.
  induction l as [|[a x] l IH]; simpl; intros H; [reflexivity|].
  destruct (String.eqb k a) eqn:E.
  - apply String.eqb_eq in E. subst a. tauto.
  - apply IH. tauto.
Qed.

Lemma xattr_name_wellformed (ns : option string) (attr : string) :
  has_char NUL attr = false ->
  (forall s, ns = Some s -> has_char NUL s = false) ->
  xattr_name_of ns attr <> EmptyString
  /\ has_char NUL (xattr_name_of ns attr) = false.
Proof.
  intros Ha Hs. split; [destruct ns; discriminate|].
  destruct ns as [s|]; unfold xattr_name_of; rewrite !has_char_app.
  - rewrite (Hs s eq_refl), Ha. reflexivity.
  - rewrite Ha. reflexivity.
Qed.

(** Reading the attributes of a file whose attribute names are well formed
    is taking each name in turn. *)
Lemma dead_props_items (fs : filesys) (filename : string) (wv : bool)
  (n : node) (xa : xattrs) :
  stat fs filename = Some n -> node_xattrs n = Some xa -> wf_xattrs xa ->
  dead_props fs filename wv = []
  \/ (xa <> []
      /\ dead_props fs filename wv
         = flat_map (xattr_item fs filename wv
                       (String.length (name_buffer (map fst xa))))
                    (map fst xa)).
Proof.
  intros Hst Hx [Hf _]. unfold dead_props, listxattr. rewrite Hst, Hx. simpl.
  destruct (Nat.leb (String.length (name_buffer (map fst xa))) 0) eqn:E;
    [left; reflexivity|right].
  split; [intros ->; discriminate|].
  apply xattr_scan_names. exact Hf.
Qed.

Lemma name_buffer_pos (names : list string) :
  names <> [] -> 0 < String.length (name_buffer names).
Proof.
  destruct names as [|k names]; [congruence|]. intros _. simpl.
  rewrite str_app_length. simpl. lia.
Qed.

(** X3.  The round trip the code does keep: a property set with a value
    that is not empty is listed with that value under its name and its
    namespace, which is DAV: when it was set without one (the element takes
    the namespace of its parent); the attribute is gone after the delete,
    and a listing then reports the pair only from another key that spells
    it: never for a namespace other than DAV:.  (The namespace has no '|';
    without a namespace the name has none; the strings are C strings.) *)
Lemma dead_property_roundtrip (fs fs' : filesys) (filename attr : string)
  (ns : option string) (body : string) (n : node) (xa : xattrs) :
  stat fs filename = Some n -> node_xattrs n = Some xa -> wf_xattrs xa ->
  has_char NUL attr = false ->
  (forall s, ns = Some s -> has_char NUL s = false /\ has_char pipe s = false) ->
  (ns = None -> has_char pipe attr = false) ->
  body <> EmptyString ->
  uwsgi_webdav_prop_set fs filename attr ns body = (0%Z, fs') ->
  In (mkprop (element_ns ns) attr (Some body)) (dead_props fs' filename true)
  /\ getxattr fs' filename (xattr_name_of ns attr) = Some body
  /\ forall fs'',
       uwsgi_webdav_prop_del fs' filename attr ns = (0%Z, fs'') ->
       getxattr fs'' filename (xattr_name_of ns attr) = None
       /\ (forall wv v,
              In (mkprop (element_ns ns) attr v) (dead_props fs'' filename wv) ->
              exists other,
                other <> ns /\ element_ns other = element_ns ns
                /\ getxattr fs'' filename (xattr_name_of other attr) <> None)
       /\ (forall s, ns = Some s -> s <> "DAV:"%string ->
            forall wv v, ~ In (mkprop ns attr v) (dead_props fs'' filename wv)).
Proof.
  intros Hst Hx Hwf Hattr Hns Hpipe Hbody Hset.
  set (key := xattr_name_of ns attr) in *.
  destruct (xattr_name_wellformed ns attr Hattr) as [Hkne Hknul];
    [intros s Hs; apply (Hns s Hs)|]. fold key in Hkne, Hknul.
  (* the set *)
  unfold uwsgi_webdav_prop_set in Hset. fold key in Hset.
  destruct (setxattr fs filename key body) as [fs1|] eqn:Esx; [|discriminate].
  inversion Hset; subst fs1; clear Hset.
  unfold setxattr in Esx.
  destruct (_ || _ || _); [discriminate|].
  destruct (namei fs filename) as [p|] eqn:Hn; [|discriminate].
  destruct (alter _ (root fs) p) as [r'|] eqn:Ha; [|discriminate].
  inversion Esx; subst fs'; clear Esx.
  destruct (xattr_update _ _ _ _ _ Hn Ha) as (n0 & xa0 & xa' & Hst0 & Hx0 & Hf & Hst1).
  rewrite Hst in Hst0. inversion Hst0; subst n0. rewrite Hx in Hx0.
  inversion Hx0; subst xa0. inversion Hf; subst xa'. clear Hst0 Hx0 Hf.
  set (fs1 := set_root fs r') in *.
  set (xa1 := set_assoc key body xa) in *.
  pose proof (node_xattrs_put n xa xa1 Hx) as Hx1.
  pose proof (wf_set_assoc key body xa Hwf Hkne Hknul) as Hwf1. fold xa1 in Hwf1.
  assert (Hget : getxattr fs1 filename key = Some body).
  { unfold getxattr. rewrite Hst1, Hx1. apply assoc_set_assoc_same. }
  assert (Hin1 : In key (map fst xa1)) by (apply in_set_assoc; left; reflexivity).
  split; [|split; [exact Hget|]].
  - destruct (dead_props_items fs1 filename true _ _ Hst1 Hx1 Hwf1)
      as [E | [Hne E]].
    + exfalso. unfold dead_props, listxattr in E. rewrite Hst1, Hx1 in E.
      simpl in E.
      assert (Hpos : 0 < String.length (name_buffer (map fst xa1))).
      { apply name_buffer_pos. intros Hnil. rewrite Hnil in Hin1. exact Hin1. }
      destruct (Nat.leb _ 0) eqn:El; [apply Nat.leb_le in El; lia|].
      rewrite xattr_scan_names in E by apply Hwf1.
      assert (Hi : In (mkprop (element_ns ns) attr (Some body))
                      (flat_map (xattr_item fs1 filename true
                                   (String.length (name_buffer (map fst xa1))))
                                (map fst xa1))).
      { apply in_flat_map. exists key. split; [exact Hin1|].
        unfold key.
        rewrite (xattr_item_of_name fs1 filename _ ns attr body);
          [left; reflexivity| |exact Hpipe|exact Hpos|exact Hbody|exact Hget].
        intros s Hs. apply (Hns s Hs). }
      rewrite E in Hi. exact Hi.
    + rewrite E. apply in_flat_map. exists key. split; [exact Hin1|].
      unfold key.
      rewrite (xattr_item_of_name fs1 filename _ ns attr body);
        [left; reflexivity| |exact Hpipe| |exact Hbody|exact Hget].
      * intros s Hs. apply (Hns s Hs).
      * apply name_buffer_pos. intros Hnil. rewrite Hnil in Hin1. exact Hin1.
  - (* the delete *)
    intros fs'' Hdel. unfold uwsgi_webdav_prop_del in Hdel. fold key in Hdel.
    destruct (removexattr fs1 filename key) as [fs2|] eqn:Erx; [|discriminate].
    inversion Hdel; subst fs2; clear Hdel.
    unfold removexattr in Erx.
    destruct (namei fs1 filename) as [p1|] eqn:Hn1; [|discriminate].
    destruct (alter _ (root fs1) p1) as [r''|] eqn:Ha1; [|discriminate].
    inversion Erx; subst fs''; clear Erx.
    destruct (xattr_update _ _ _ _ _ Hn1 Ha1)
      as (n1 & xa1' & xa2 & Hst1' & Hx1' & Hf & Hst2).
    rewrite Hst1 in Hst1'. inversion Hst1'; subst n1. rewrite Hx1 in Hx1'.
    inversion Hx1'; subst xa1'. clear Hst1' Hx1'.
    destruct (assoc key xa1); [|discriminate]. inversion Hf; subst xa2; clear Hf.
    pose proof (node_xattrs_put _ _ (remove_assoc key xa1) Hx1) as Hx2.
    pose proof (not_in_remove_assoc key xa1 (proj2 Hwf1)) as Hnot.
    assert (Hother : forall wv v,
               In (mkprop (element_ns ns) attr v)
                  (dead_props (set_root fs1 r'') filename wv) ->
               exists other,
                 other <> ns /\ element_ns other = element_ns ns
                 /\ getxattr (set_root fs1 r'') filename (xattr_name_of other attr)
                    <> None).
    { intros wv v Hin.
      destruct (dead_props_items _ filename wv _ _ Hst2 Hx2
                  (wf_remove_assoc key xa1 Hwf1)) as [E | [_ E]];
        rewrite E in Hin; [destruct Hin|].
      apply in_flat_map in Hin. destruct Hin as (k & Hk & Hitem).
      apply xattr_item_key in Hitem.
      destruct Hitem as (other & Hel & -> & _).
      exists other. split; [|split; [exact Hel|]].
      - intros ->. exact (Hnot Hk).
      - destruct (in_assoc _ _ Hk) as (stored & Hs).
        unfold getxattr. rewrite Hst2, Hx2, Hs. discriminate. }
    split; [|split].
    + unfold getxattr. rewrite Hst2, Hx2. apply assoc_not_in. exact Hnot.
    + exact Hother.
    + intros s0 Es0 Hs0 wv v Hin. rewrite Es0 in *.
      destruct (Hother wv v Hin) as ([o|] & Hne & Hel & _).
      * simpl in Hel. congruence.
      * simpl in Hel. unfold DAV in Hel. inversion Hel. congruence.
Qed.

(** A property set with a value that is not empty is stored and listed. *)
Lemma prop_set_listed (fs fs' : filesys) (filename attr : string)
  (ns : option string) (body : string) (n : node) (xa : xattrs) :
  stat fs filename = Some n -> node_xattrs n = Some xa -> wf_xattrs xa ->
  has_char NUL attr = false ->
  (forall s, ns = Some s -> has_char NUL s = false /\ has_char pipe s = false) ->
  (ns = None -> has_char pipe attr = false) ->
  body <> EmptyString ->
  uwsgi_webdav_prop_set fs filename attr ns body = (0%Z, fs') ->
  In (mkprop (element_ns ns) attr (Some body)) (dead_props fs' filename true)
  /\ getxattr fs' filename (xattr_name_of ns attr) = Some body.
Proof.
  intros Hst Hx Hwf Hattr Hns Hpipe Hbody Hset.
  set (key := xattr_name_of ns attr) in *.
  destruct (xattr_name_wellformed ns attr Hattr) as [Hkne Hknul];
    [intros s Hs; apply (Hns s Hs)|]. fold key in Hkne, Hknul.
  (* the set *)
  unfold uwsgi_webdav_prop_set in Hset. fold key in Hset.
  destruct (setxattr fs filename key body) as [fs1|] eqn:Esx; [|discriminate].
  inversion Hset; subst fs1; clear Hset.
  unfold setxattr in Esx.
  destruct (_ || _ || _); [discriminate|].
  destruct (namei fs filename) as [p|] eqn:Hn; [|discriminate].
  destruct (alter _ (root fs) p) as [r'|] eqn:Ha; [|discriminate].
  inversion Esx; subst fs'; clear Esx.
  destruct (xattr_update _ _ _ _ _ Hn Ha) as (n0 & xa0 & xa' & Hst0 & Hx0 & Hf & Hst1).
  rewrite Hst in Hst0. inversion Hst0; subst n0. rewrite Hx in Hx0.
  inversion Hx0; subst xa0. inversion Hf; subst xa'. clear Hst0 Hx0 Hf.
  set (fs1 := set_root fs r') in *.
  set (xa1 := set_assoc key body xa) in *.
  pose proof (node_xattrs_put n xa xa1 Hx) as Hx1.
  pose proof (wf_set_assoc key body xa Hwf Hkne Hknul) as Hwf1. fold xa1 in Hwf1.
  assert (Hget : getxattr fs1 filename key = Some body).
  { unfold getxattr. rewrite Hst1, Hx1. apply assoc_set_assoc_same. }
  assert (Hin1 : In key (map fst xa1)) by (apply in_set_assoc; left; reflexivity).
  split; [|exact Hget].
  - destruct (dead_props_items fs1 filename true _ _ Hst1 Hx1 Hwf1)
      as [E | [Hne E]].
    + exfalso. unfold dead_props, listxattr in E. rewrite Hst1, Hx1 in E.
      simpl in E.
      assert (Hpos : 0 < String.length (name_buffer (map fst xa1))).
      { apply name_buffer_pos. intros Hnil. rewrite Hnil in Hin1. exact Hin1. }
      destruct (Nat.leb _ 0) eqn:El; [apply Nat.leb_le in El; lia|].
      rewrite xattr_scan_names in E by apply Hwf1.
      assert (Hi : In (mkprop (element_ns ns) attr (Some body))
                      (flat_map (xattr_item fs1 filename true
                                   (String.length (name_buffer (map fst xa1))))
                                (map fst xa1))).
      { apply in_flat_map. exists key. split; [exact Hin1|].
        unfold key.
        rewrite (xattr_item_of_name fs1 filename _ ns attr body);
          [left; reflexivity| |exact Hpipe|exact Hpos|exact Hbody|exact Hget].
        intros s Hs. apply (Hns s Hs). }
      rewrite E in Hi. exact Hi.
    + rewrite E. apply in_flat_map. exists key. split; [exact Hin1|].
      unfold key.
      rewrite (xattr_item_of_name fs1 filename _ ns attr body);
        [left; reflexivity| |exact Hpipe| |exact Hbody|exact Hget].
      * intros s Hs. apply (Hns s Hs).
      * apply name_buffer_pos. intros Hnil. rewrite Hnil in Hin1. exact Hin1.
Qed.

(** * Dead properties with an empty value (C3) *)

(** C3 at a failing input.  PROPPATCH sets the property foo of namespace X
    with an empty value on /a.txt: the set succeeds and the attribute is
    stored under the expected key, a name listing shows (X, foo), but the
    listing with values leaves the property out; after the delete the key is
    gone. *)
Theorem dead_property_empty_value_lost :
  let filename := "/srv/dav/a.txt" in
  let set := uwsgi_webdav_prop_set Sample.fs filename "foo" (Some "X") "" in
  let del := uwsgi_webdav_prop_del (snd set) filename "foo" (Some "X") in
  fst set = 0%Z
  /\ listxattr (snd set) filename = Some (String.append "user.uwsgi.webdav.X|foo" (String NUL ""))
  /\ getxattr (snd set) filename "user.uwsgi.webdav.X|foo" = Some ""
  /\ dead_props (snd set) filename false = [mkprop (Some "X") "foo" None]
  /\ dead_props (snd set) filename true = []
  /\ fst del = 0%Z
  /\ getxattr (snd del) filename "user.uwsgi.webdav.X|foo" = None.
Proof. vm_compute. repeat split. Qed.

(** * What the strict resolver returns *)

(** X1.  A path the strict resolver returns is canonical: realpath maps it
    to itself, and it names something that exists and is not a symbolic
    link. *)
Theorem expand_path_canonical (fs : filesys) (ua : uwsgi_app)
  (item filename : string) :
  is_dir (root fs) = true ->
  uwsgi_webdav_expand_path fs ua item = Some filename ->
  realpath fs filename = Some filename
  /\ exists n, stat fs filename = Some n /\ is_link n = false.
Proof.
  intros Hroot H.
  destruct (expand_path_canon _ _ _ _ Hroot H) as (p & -> & Hc).
  pose proof (namei_render _ _ Hc) as Hn.
  unfold realpath, stat. rewrite Hn. split; [reflexivity|].
  destruct Hc as [_ (n & Hf & Hl)]. eauto.
Qed.

Lemma expand_path_canonical_witness :
  realpath Sample.fs "/srv/secret" = Some "/srv/secret"
  /\ exists n, stat Sample.fs "/srv/secret" = Some n /\ is_link n = false.
Proof.
  apply (expand_path_canonical Sample.fs Sample.dav "/out" "/srv/secret");
    reflexivity.
Defined.

(** * What the parent resolver returns *)

Lemma last_charn_none (s : string) (c : ascii) :
  has_char c s = false -> uwsgi_get_last_charn s c = None.
Proof.
  induction s as [|d s IH]; simpl; intros H; [reflexivity|].
  apply orb_false_iff in H. destruct H as [Hd Hs].
  rewrite (IH Hs), Hd. reflexivity.
Qed.

Lemma substring_length_le (n m : nat) (s : string) :
  String.length (substring n m s) <= m.
Proof.
  revert n m. induction s as [|c s IH]; intros n m.
  - destruct n, m; simpl; lia.
  - destruct n as [|n]; [destruct m as [|m]|]; simpl.
    + lia.
    + specialize (IH 0 m). lia.
    + apply IH.
Qed.

(** X2.  The parent resolver fails on a request path without '/'.  When it
    succeeds, what it returns is the strict resolution of what precedes the
    last '/' followed by the rest as it stands, and it is shorter than
    PATH_MAX: the terminating byte stays inside the caller's buffer. *)
Theorem expand_fake_path_shape (fs : filesys) (ua : uwsgi_app) (item : string) :
  (has_char slash item = false ->
   uwsgi_webdav_expand_fake_path fs ua item = None)
  /\ (forall filename,
         uwsgi_webdav_expand_fake_path fs ua item = Some filename ->
         exists last_slash parent,
           uwsgi_get_last_charn item slash = Some last_slash
           /\ uwsgi_webdav_expand_path fs ua (substring 0 last_slash item)
              = Some parent
           /\ filename
              = (parent ++ substring last_slash
                             (String.length item - last_slash) item)%string
           /\ String.length filename < PATH_MAX).
Proof.
  unfold uwsgi_webdav_expand_fake_path. split.
  - intros H. rewrite (last_charn_none _ _ H). reflexivity.
  - intros filename H.
    destruct (uwsgi_get_last_charn item slash) as [i|] eqn:El; [|discriminate].
    destruct (uwsgi_webdav_expand_path fs ua (substring 0 i item)) as [parent|]
      eqn:Ep; [|discriminate].
    destruct (Nat.leb PATH_MAX _) eqn:E; [discriminate|].
    inversion H; subst filename; clear H.
    exists i, parent. split; [reflexivity|]. split; [exact Ep|].
    split; [reflexivity|].
    apply Nat.leb_gt in E. rewrite str_app_length.
    pose proof (substring_length_le i (String.length item - i) item). lia.
Qed.

Lemma expand_fake_path_shape_witness :
  uwsgi_webdav_expand_fake_path Sample.fs Sample.dav "a.txt" = None.
Proof.
  destruct (expand_fake_path_shape Sample.fs Sample.dav "a.txt") as [H _].
  apply H. reflexivity.
Defined.

(** * What the listing of dead properties reports *)

Lemma dead_property_roundtrip_witness :
  In (mkprop (Some "X") "foo" (Some "bar"))
     (dead_props
        (snd (uwsgi_webdav_prop_set Sample.fs "/srv/dav/a.txt" "foo" (Some "X") "bar"))
        "/srv/dav/a.txt" true)
  /\ In (mkprop (Some "DAV:") "foo" (Some "bar"))
        (dead_props
           (snd (uwsgi_webdav_prop_set Sample.fs "/srv/dav/a.txt" "foo" None "bar"))
           "/srv/dav/a.txt" true).
Proof.
  split.
  - refine (proj1 (dead_property_roundtrip Sample.fs _ "/srv/dav/a.txt" "foo"
                     (Some "X") "bar" (File true "hello" []) []
                     eq_refl eq_refl _ eq_refl _ _ _ eq_refl)).
    + split; constructor.
    + intros s H. inversion H. split; reflexivity.
    + discriminate.
    + discriminate.
  - refine (proj1 (dead_property_roundtrip Sample.fs _ "/srv/dav/a.txt" "foo"
                     None "bar" (File true "hello" []) []
                     eq_refl eq_refl _ eq_refl _ _ _ eq_refl)).
    + split; constructor.
    + discriminate.
    + reflexivity.
    + discriminate.
Defined.


(** What one key contributes: at most one element; its namespace has no
    '|'; a text is the stored value, which is not empty. *)
Lemma xattr_item_facts (fs : filesys) (filename : string) (wv : bool)
  (rlen : nat) (key : string) (x : xml_prop) :
  In x (xattr_item fs filename wv rlen key) ->
  (forall s, p_ns x = Some s -> has_char pipe s = false)
  /\ (forall v, p_text x = Some v ->
                getxattr fs filename key = Some v /\ v <> EmptyString).
Proof.
  unfold xattr_item.
  destruct (uwsgi_starts_with key xattr_prefix); [|intros []].
  assert (Hns : forall s,
             element_ns
               match strchr_split pipe (drop_str 18 key) with
               | Some (before, _) => Some before
               | None => None
               end = Some s -> has_char pipe s = false).
  { intros s. destruct (strchr_split pipe (drop_str 18 key)) as [[a b]|] eqn:E;
      intros H; inversion H; subst; [|reflexivity].
    eapply strchr_split_before; eauto. }
  destruct wv;
    [destruct (Nat.ltb 0 rlen);
     [destruct (getxattr fs filename key) as [xv|] eqn:Eg;
      [destruct (Nat.ltb 0 (String.length xv)) eqn:El|]
     |destruct (Nat.eqb rlen 0)]|];
    intros Hin; simpl in Hin; try contradiction;
    destruct Hin as [<-|[]]; simpl;
    (split; [exact Hns|]); intros v Hv; try discriminate.
  inversion Hv; subst. split; [reflexivity|].
  intros ->. simpl in El. discriminate.
Qed.

Lemma xattr_scan_ns (fs : filesys) (filename : string) (wv : bool) (rlen : nat)
  (x : xml_prop) :
  forall buf key,
    In x (xattr_scan fs filename wv rlen buf key) ->
    forall s, p_ns x = Some s -> has_char pipe s = false.
Proof.
  induction buf as [|c buf IH]; simpl; intros key H; [destruct H|].
  destruct (Ascii.eqb c NUL).
  - destruct key as [k|]; [|destruct H].
    apply in_app_or in H. destruct H as [H|H]; [|eauto].
    apply (xattr_item_facts _ _ _ _ _ _ H).
  - destruct key; eauto.
Qed.


(** A stored attribute with a value that is not empty is listed, under the
    namespace and the name its key spells. *)
Lemma dead_props_stored (fs : filesys) (filename : string)
  (n : node) (xa : xattrs) (own : option string) (attr value : string) :
  stat fs filename = Some n -> node_xattrs n = Some xa -> wf_xattrs xa ->
  (forall s, own = Some s -> has_char pipe s = false) ->
  (own = None -> has_char pipe attr = false) ->
  value <> EmptyString ->
  getxattr fs filename (xattr_name_of own attr) = Some value ->
  In (mkprop (element_ns own) attr (Some value)) (dead_props fs filename true).
Proof.
  intros Hst Hx Hwf Hns Hpipe Hval Hget.
  assert (Hin : In (xattr_name_of own attr) (map fst xa)).
  { unfold getxattr in Hget. rewrite Hst, Hx in Hget.
    destruct (in_dec string_dec (xattr_name_of own attr) (map fst xa))
      as [H|H]; [exact H|].
    rewrite (assoc_not_in _ _ H) in Hget. discriminate. }
  assert (Hpos : 0 < String.length (name_buffer (map fst xa))).
  { apply name_buffer_pos. intros Hnil. rewrite Hnil in Hin. exact Hin. }
  assert (Hi : In (mkprop (element_ns own) attr (Some value))
                  (flat_map (xattr_item fs filename true
                               (String.length (name_buffer (map fst xa))))
                            (map fst xa))).
  { apply in_flat_map. exists (xattr_name_of own attr). split; [exact Hin|].
    rewrite (xattr_item_of_name fs filename _ own attr value Hns Hpipe Hpos
               Hval Hget).
    left. reflexivity. }
  destruct (dead_props_items fs filename true _ _ Hst Hx Hwf) as [E | [_ E]].
  - exfalso. unfold dead_props, listxattr in E. rewrite Hst, Hx in E.
    simpl in E.
    destruct (Nat.leb _ 0) eqn:El; [apply Nat.leb_le in El; lia|].
    rewrite xattr_scan_names in E by apply Hwf.
    rewrite E in Hi. exact Hi.
  - rewrite E. exact Hi.
Qed.

(** X4.  The listing is sound, up to the namespace an element inherits.  An
    element it reports for a pair (namespace, name) comes from an attribute
    that is stored: under the key of that namespace and name, or, for a pair
    in DAV:, under the bare name, which the element's inherited namespace
    makes the same pair.  A text it carries is the value stored under that
    key, and is not empty; a namespace it reports has no '|'.  Conversely
    an attribute stored under either key with a value that is not empty is
    reported as the pair, so that two attributes can be reported as one
    pair in DAV:. *)
Theorem dead_props_sound (fs : filesys) (filename : string) (wv : bool)
  (n : node) (xa : xattrs) (ns : option string) (attr : string)
  (t : option string) :
  stat fs filename = Some n -> node_xattrs n = Some xa -> wf_xattrs xa ->
  (In (mkprop ns attr t) (dead_props fs filename wv) ->
   exists own,
     element_ns own = ns
     /\ (exists stored, getxattr fs filename (xattr_name_of own attr) = Some stored)
     /\ (forall v, t = Some v ->
                   getxattr fs filename (xattr_name_of own attr) = Some v
                   /\ v <> EmptyString)
     /\ (forall s, own = Some s -> has_char pipe s = false)
     /\ (own = None -> has_char pipe attr = false)
     /\ (forall s, ns = Some s -> has_char pipe s = false))
  /\ (forall v1 v2,
         has_char pipe attr = false ->
         v1 <> EmptyString -> v2 <> EmptyString ->
         getxattr fs filename (xattr_name_of None attr) = Some v1 ->
         getxattr fs filename (xattr_name_of DAV attr) = Some v2 ->
         In (mkprop DAV attr (Some v1)) (dead_props fs filename true)
         /\ In (mkprop DAV attr (Some v2)) (dead_props fs filename true)).
Proof.
  intros Hst Hx Hwf. split.
  - intros Hin.
    destruct (dead_props_items fs filename wv n xa Hst Hx Hwf) as [E|[_ E]];
      rewrite E in Hin; [destruct Hin|].
    apply in_flat_map in Hin. destruct Hin as (k & Hk & Hitem).
    destruct (xattr_item_facts _ _ _ _ _ _ Hitem) as [Hns Hv].
    destruct (xattr_item_key _ _ _ _ _ _ _ _ Hitem)
      as (own & Hel & -> & Hown & Hattr).
    exists own. split; [exact Hel|].
    split; [|split; [exact Hv|split; [exact Hown|split; [exact Hattr|exact Hns]]]].
    destruct (in_assoc _ _ Hk) as (v & Ha).
    exists v. unfold getxattr. rewrite Hst, Hx. exact Ha.
  - intros v1 v2 Hpipe Hv1 Hv2 Hg1 Hg2. split.
    + apply (dead_props_stored fs filename n xa None attr v1 Hst Hx Hwf);
        [discriminate|auto|exact Hv1|exact Hg1].
    + apply (dead_props_stored fs filename n xa DAV attr v2 Hst Hx Hwf);
        [|discriminate|exact Hv2|exact Hg2].
      intros s Hs. inversion Hs. reflexivity.
Qed.

Lemma dead_props_sound_witness :
  let twice :=
    set_root Sample.fs
      (replace (root Sample.fs) ["srv"; "dav"; "a.txt"]
         (File true "hello"
            [("user.uwsgi.webdav.foo", "1");
             ("user.uwsgi.webdav.DAV:|foo", "2")])) in
  (getxattr
     (snd (uwsgi_webdav_prop_set Sample.fs "/srv/dav/a.txt" "foo" (Some "X") "bar"))
     "/srv/dav/a.txt" "user.uwsgi.webdav.X|foo" = Some "bar"
   /\ "bar" <> EmptyString)
  /\ In (mkprop DAV "foo" (Some "1")) (dead_props twice "/srv/dav/a.txt" true)
  /\ In (mkprop DAV "foo" (Some "2")) (dead_props twice "/srv/dav/a.txt" true).
Proof.
  intros twice. split.
  - unshelve epose proof
      (proj1
         (dead_props_sound
            (snd (uwsgi_webdav_prop_set Sample.fs "/srv/dav/a.txt" "foo"
                    (Some "X") "bar"))
            "/srv/dav/a.txt" true
            (File true "hello" [("user.uwsgi.webdav.X|foo", "bar")])
            [("user.uwsgi.webdav.X|foo", "bar")] (Some "X") "foo" (Some "bar")
            eq_refl eq_refl _) _) as H.
    + split; [repeat constructor; discriminate|].
      constructor; [intros []|constructor].
    + vm_compute. left. reflexivity.
    + destruct H as (own & Hel & _ & Hv & _).
      destruct own as [o|]; [|discriminate].
      simpl in Hel. inversion Hel; subst o.
      exact (Hv "bar" eq_refl).
  - unshelve eapply
      (proj2
         (dead_props_sound twice "/srv/dav/a.txt" true
            (File true "hello"
               [("user.uwsgi.webdav.foo", "1");
                ("user.uwsgi.webdav.DAV:|foo", "2")])
            [("user.uwsgi.webdav.foo", "1");
             ("user.uwsgi.webdav.DAV:|foo", "2")] DAV "foo" None
            eq_refl eq_refl _)
         "1" "2" eq_refl _ _ eq_refl eq_refl); try discriminate.
    split; [repeat constructor; discriminate|].
    constructor; [simpl; intuition discriminate|].
    constructor; [intros []|constructor].
Defined.

(** X5.  A '|' in the namespace is not escaped: a property set under the
    namespace a|b with the name c is stored under the key of the namespace a
    and the name b|c, is listed as that pair, and is never listed as the pair
    it was set with. *)
Theorem namespace_pipe_collision (fs fs' : filesys) (filename : string)
  (a b c body : string) (n : node) (xa : xattrs) :
  stat fs filename = Some n -> node_xattrs n = Some xa -> wf_xattrs xa ->
  has_char pipe a = false ->
  has_char NUL a = false -> has_char NUL b = false -> has_char NUL c = false ->
  body <> EmptyString ->
  uwsgi_webdav_prop_set fs filename c (Some (a ++ "|" ++ b)%string) body
  = (0%Z, fs') ->
  In (mkprop (Some a) (b ++ "|" ++ c)%string (Some body))
     (dead_props fs' filename true)
  /\ forall wv t,
       ~ In (mkprop (Some (a ++ "|" ++ b)%string) c t)
            (dead_props fs' filename wv).
Proof.
  intros Hst Hx Hwf Hpa Hna Hnb Hnc Hbody Hset.
  assert (Hkey : xattr_name_of (Some (a ++ "|" ++ b)%string) c
                 = xattr_name_of (Some a) (b ++ "|" ++ c)%string).
  { unfold xattr_name_of. rewrite !str_app_assoc. reflexivity. }
  split.
  - refine (proj1 (prop_set_listed fs fs' filename (b ++ "|" ++ c)%string
                     (Some a) body n xa Hst Hx Hwf _ _ _ Hbody _)).
    + rewrite has_char_app, Hnb. simpl. exact Hnc.
    + intros s Hs. inversion Hs; subst. auto.
    + discriminate.
    + unfold uwsgi_webdav_prop_set in *. rewrite <- Hkey. exact Hset.
  - intros wv t Hin. unfold dead_props in Hin.
    destruct (listxattr fs' filename) as [buf|]; [|destruct Hin].
    destruct (Nat.leb (String.length buf) 0); [destruct Hin|].
    pose proof (xattr_scan_ns _ _ _ _ _ _ _ Hin _ eq_refl) as Hp.
    rewrite has_char_app in Hp. simpl in Hp.
    rewrite orb_true_r in Hp. discriminate.
Qed.

Lemma namespace_pipe_collision_witness :
  In (mkprop (Some "a") "b|c" (Some "v"))
     (dead_props
        (snd (uwsgi_webdav_prop_set Sample.fs "/srv/dav/a.txt" "c" (Some "a|b") "v"))
        "/srv/dav/a.txt" true).
Proof.
  refine (proj1 (namespace_pipe_collision Sample.fs _ "/srv/dav/a.txt"
                   "a" "b" "c" "v" (File true "hello" []) []
                   eq_refl eq_refl _ eq_refl eq_refl eq_refl eq_refl _ eq_refl)).
  - split; constructor.
  - discriminate.
Defined.
(** * The one-level listing of PROPFIND *)

Lemma add_props_reported (req : wsgi_request) (fs : filesys)
  (acc : list dav_response) (uri filename : string) (wv : bool) :
  map r_uri (snd (uwsgi_webdav_add_props req fs acc uri filename wv))
  = map r_uri acc
    ++ match stat fs filename with
       | Some _ => [uri]
       | None => []
       end.
Proof.
  unfold uwsgi_webdav_add_props. destruct (stat fs filename); simpl.
  - rewrite map_app. reflexivity.
  - rewrite app_nil_r. reflexivity.
Qed.

Lemma listing_loop_reported (req : wsgi_request) (fs : filesys)
  (filename : string) (wv : bool) :
  forall (es : list (string * node)) (acc : list dav_response),
    Forall (fun e => good_name (fst e) = true) es ->
    map r_uri
      (fold_left
         (fun multistatus de =>
            if String.eqb (d_name de) ".." then multistatus
            else
              let '(uri, direntry) :=
                if String.eqb (d_name de) "."
                then (path_info req, filename)
                else if ends_with_slash (path_info req)
                then ((path_info req ++ d_name de)%string,
                      (filename ++ "/" ++ d_name de)%string)
                else ((path_info req ++ "/" ++ d_name de)%string,
                      (filename ++ "/" ++ d_name de)%string) in
              snd (uwsgi_webdav_add_props req fs multistatus uri direntry wv))
         (map (fun e => mkdirent (fst e) (dtype_of (snd e))) es) acc)
    = map r_uri acc
      ++ flat_map
           (fun e =>
              match stat fs (filename ++ "/" ++ fst e) with
              | Some _ => [child_uri req (fst e)]
              | None => []
              end) es.
Proof.
  induction es as [|[name child] es IH]; intros acc Hg.
  - simpl. rewrite app_nil_r. reflexivity.
  - inversion Hg as [|? ? Hn Hg']; subst. simpl fst in Hn.
    destruct (good_name_elim _ Hn) as (H1 & H2 & _).
    apply orb_false_iff in H1. destruct H1 as [_ H1].
    simpl map at 2. simpl fold_left. simpl d_name. rewrite H2, H1.
    rewrite IH by exact Hg'. simpl flat_map. simpl fst.
    unfold child_uri.
    destruct (ends_with_slash (path_info req));
      rewrite add_props_reported, <- app_assoc; reflexivity.
Qed.

Lemma opendir_stat (fs : filesys) (path : string)
  (w : bool) (xa : xattrs) (es : list (string * node)) :
  stat fs path = Some (Dir w xa es) ->
  opendir fs path <> None ->
  opendir fs path = Some (stream_of es).
Proof.
  unfold stat, opendir. destruct (namei fs path) as [p|]; [|discriminate].
  intros ->. destruct (may_opendir fs p); [reflexivity|congruence].
Qed.

Lemma opendir_inv (fs : filesys) (path : string) (collection : list dirent) :
  opendir fs path = Some collection ->
  exists w xa es,
    stat fs path = Some (Dir w xa es) /\ collection = stream_of es.
Proof.
  unfold stat, opendir. destruct (namei fs path) as [p|]; [|discriminate].
  destruct (find_node (root fs) p) as [[?|?|w xa es]|]; try discriminate.
  destruct (may_opendir fs p); [|discriminate].
  intros H. inversion H. eauto.
Qed.

(** The listing of a stream that opened. *)
Lemma listing_reported (req : wsgi_request) (fs : filesys)
  (filename http_depth : string) (wv : bool)
  (w : bool) (xa : xattrs) (es : list (string * node)) :
  uwsgi_get_var req "HTTP_DEPTH" = Some http_depth ->
  uwsgi_str_num http_depth <> 0%Z ->
  stat fs filename = Some (Dir w xa es) ->
  Forall (fun e => good_name (fst e) = true) es ->
  opendir fs filename <> None ->
  reported (uwsgi_webdav_manage_prop req fs filename wv)
  = Some (path_info req
          :: flat_map
               (fun e =>
                  match stat fs (filename ++ "/" ++ fst e) with
                  | Some _ => [child_uri req (fst e)]
                  | None => []
                  end) es).
Proof.
  intros Hd Hn Hst Hg Ho. unfold uwsgi_webdav_manage_prop.
  apply Z.eqb_neq in Hn. rewrite Hd, Hn, (opendir_stat _ _ _ _ _ Hst Ho).
  unfold reported, stream_of. simpl option_map. f_equal.
  simpl fold_left.
  rewrite listing_loop_reported by exact Hg.
  rewrite add_props_reported, Hst. reflexivity.
Qed.

(** C7 (as amended).  Without a Depth header PROPFIND reports on the target
    alone, exactly as with a header whose number is 0.  A header with any
    other number, "1" and "infinity" alike, gets the one-level listing of the
    collection: the collection itself and its direct members, nothing below
    them; on a directory of which the stream opens that listing is the
    collection under the request's URI followed by every member stat
    reaches, in directory order, each under the URI extended by its name.
    No value is refused. *)
Theorem propfind_depth_handling (req : wsgi_request) (fs : filesys)
  (filename : string) (wv : bool) :
  let self := snd (uwsgi_webdav_add_props req fs [] (path_info req) filename wv) in
  (uwsgi_get_var req "HTTP_DEPTH" = None ->
   uwsgi_webdav_manage_prop req fs filename wv = Some self)
  /\ (forall http_depth,
         uwsgi_get_var req "HTTP_DEPTH" = Some http_depth ->
         uwsgi_str_num http_depth = 0%Z ->
         uwsgi_webdav_manage_prop req fs filename wv = Some self)
  /\ (forall http_depth collection,
         uwsgi_get_var req "HTTP_DEPTH" = Some http_depth ->
         uwsgi_str_num http_depth <> 0%Z ->
         opendir fs filename = Some collection ->
         exists multistatus,
           uwsgi_webdav_manage_prop req fs filename wv = Some multistatus
           /\ Forall (fun r => self_or_member (path_info req)
                                 (map d_name collection) (r_uri r))
                     multistatus)
  /\ (forall http_depth w xa es,
         uwsgi_get_var req "HTTP_DEPTH" = Some http_depth ->
         uwsgi_str_num http_depth <> 0%Z ->
         stat fs filename = Some (Dir w xa es) ->
         Forall (fun e => good_name (fst e) = true) es ->
         opendir fs filename <> None ->
         reported (uwsgi_webdav_manage_prop req fs filename wv)
         = Some (path_info req
                 :: flat_map
                      (fun e =>
                         match stat fs (filename ++ "/" ++ fst e) with
                         | Some _ => [child_uri req (fst e)]
                         | None => []
                         end) es))
  /\ (self = [] \/ exists r, self = [r] /\ r_uri r = path_info req).
Proof.
  cbv zeta. split; [|split; [|split; [|split]]].
  - unfold uwsgi_webdav_manage_prop. intros ->. reflexivity.
  - unfold uwsgi_webdav_manage_prop. intros http_depth -> ->. reflexivity.
  - unfold uwsgi_webdav_manage_prop. intros http_depth collection -> Hnum ->.
    apply Z.eqb_neq in Hnum. rewrite Hnum.
    eexists. split; [reflexivity|].
    apply listing_loop_uris; [|constructor].
    intros de Hde. apply in_map. exact Hde.
  - intros http_depth w xa es Hd Hnum Hst Hg Ho.
    exact (listing_reported _ _ _ _ _ _ _ _ Hd Hnum Hst Hg Ho).
  - destruct (add_props_uris req fs [] (path_info req) filename wv)
      as [E | (r & E & Hr)]; cbv zeta in E; rewrite E; [left; reflexivity|].
    right. exists r. split; [reflexivity|exact Hr].
Qed.

Lemma propfind_depth_handling_witness :
  reported (uwsgi_webdav_manage_prop (Sample.request "/d" [] "") Sample.nested
              "/srv/dav/d" true)
  = Some ["/d"]
  /\ reported (uwsgi_webdav_manage_prop
                 (Sample.request "/d" [("HTTP_DEPTH", "infinity")] "")
                 Sample.nested "/srv/dav/d" true)
     = Some ["/d"; "/d/a"; "/d/sub"; "/d/b"].
Proof.
  split.
  - destruct (propfind_depth_handling (Sample.request "/d" [] "") Sample.nested
                "/srv/dav/d" true) as (Habsent & _).
    rewrite (Habsent eq_refl). reflexivity.
  - destruct (propfind_depth_handling
                (Sample.request "/d" [("HTTP_DEPTH", "infinity")] "")
                Sample.nested "/srv/dav/d" true) as (_ & _ & _ & Hlist & _).
    rewrite (Hlist "infinity" true []
               [("a", File true "1" []);
                ("sub", Dir true [] [
                   ("deep", Dir true [] [("x", File true "3" [])]);
                   ("l", Symlink "/srv/secret")
                 ]);
                ("b", File true "2" [])]
               eq_refl ltac:(discriminate) eq_refl ltac:(repeat constructor)
               ltac:(discriminate)).
    reflexivity.
Defined.

(** C7 (as stated) fails: PROPFIND /d without a Depth header reports on /d
    alone although /d has members; with "infinity" the collection / is listed
    one level deep, /d/a is not reported; and "7" is taken like "1". *)
Lemma propfind_absent_depth_is_zero :
  reported (uwsgi_webdav_manage_prop (Sample.request "/d" [] "") Sample.fs
              "/srv/dav/d" true)
  = Some ["/d"]
  /\ reported (uwsgi_webdav_manage_prop
                 (Sample.request "/d" [("HTTP_DEPTH", "1")] "") Sample.fs
                 "/srv/dav/d" true)
     = Some ["/d"; "/d/a"; "/d/b"]
  /\ reported (uwsgi_webdav_manage_prop
                 (Sample.request "/" [("HTTP_DEPTH", "infinity")] "") Sample.fs
                 "/srv/dav" true)
     = Some ["/"; "/a.txt"; "/d"; "/out"; "/ro"]
  /\ reported (uwsgi_webdav_manage_prop
                 (Sample.request "/d" [("HTTP_DEPTH", "7")] "") Sample.fs
                 "/srv/dav/d" true)
     = Some ["/d"; "/d/a"; "/d/b"].
Proof. vm_compute. repeat split. Qed.

(** X6.  With a Depth header whose number is not 0, PROPFIND on a directory
    of which the stream opens reports the directory itself once, under the
    request's own URI, and then one entry for each member that stat can
    reach, in directory order, under the request URI extended by the
    member's name; ".." is never reported.  When the stream does not open
    there is no listing: the code reads from the NULL stream. *)
Theorem propfind_listing_exact (req : wsgi_request) (fs : filesys)
  (filename http_depth : string) (wv : bool)
  (w : bool) (xa : xattrs) (es : list (string * node)) :
  uwsgi_get_var req "HTTP_DEPTH" = Some http_depth ->
  uwsgi_str_num http_depth <> 0%Z ->
  stat fs filename = Some (Dir w xa es) ->
  Forall (fun e => good_name (fst e) = true) es ->
  (opendir fs filename <> None ->
   reported (uwsgi_webdav_manage_prop req fs filename wv)
   = Some (path_info req
           :: flat_map
                (fun e =>
                   match stat fs (filename ++ "/" ++ fst e) with
                   | Some _ => [child_uri req (fst e)]
                   | None => []
                   end) es))
  /\ (opendir fs filename = None ->
      uwsgi_webdav_manage_prop req fs filename wv = None).
Proof.
  intros Hd Hn Hst Hg. split.
  - apply (listing_reported _ _ _ _ _ _ _ _ Hd Hn Hst Hg).
  - intros Ho. unfold uwsgi_webdav_manage_prop.
    apply Z.eqb_neq in Hn. rewrite Hd, Hn, Ho. reflexivity.
Qed.

Lemma propfind_listing_exact_witness :
  reported (uwsgi_webdav_manage_prop
              (Sample.request "/" [("HTTP_DEPTH", "1")] "") Sample.fs
              "/srv/dav" true)
  = Some ["/"; "/a.txt"; "/d"; "/out"; "/ro"]
  /\ uwsgi_webdav_manage_prop
       (Sample.request "/d" [("HTTP_DEPTH", "1")] "") Sample.locked
       "/srv/dav/d" true
     = None.
Proof.
  split.
  - rewrite (proj1 (propfind_listing_exact
               (Sample.request "/" [("HTTP_DEPTH", "1")] "") Sample.fs
               "/srv/dav" "1" true true []
               [("a.txt", File true "hello" []);
                ("d", Dir true [] [("a", File true "1" []); ("b", File true "2" [])]);
                ("out", Symlink "/srv/secret");
                ("ro", Dir false [] [("f", File true "x" [])])]
               eq_refl ltac:(discriminate) eq_refl ltac:(repeat constructor))
               ltac:(discriminate)).
    reflexivity.
  - apply (proj2 (propfind_listing_exact
               (Sample.request "/d" [("HTTP_DEPTH", "1")] "") Sample.locked
               "/srv/dav/d" "1" true true []
               [("a", File true "1" []); ("b", File true "2" [])]
               eq_refl ltac:(discriminate) eq_refl ltac:(repeat constructor))
               eq_refl).
Defined.

(** * A name listing carries no values *)

Lemma xattr_scan_names_only (fs : filesys) (filename : string) (rlen : nat) :
  forall buf key,
    Forall (fun x => p_text x = None)
           (xattr_scan fs filename false rlen buf key).
Proof.
  induction buf as [|c buf IH]; simpl; intros key; [constructor|].
  destruct (Ascii.eqb c NUL).
  - destruct key as [k|]; [|constructor].
    apply Forall_app. split; [|apply IH].
    unfold xattr_item. destruct (uwsgi_starts_with k xattr_prefix);
      repeat constructor.
  - destruct key; apply IH.
Qed.

Lemma add_props_names_only (req : wsgi_request) (fs : filesys)
  (acc : list dav_response) (uri filename : string) :
  Forall (fun r => Forall (fun x => p_text x = None) (r_props r)) acc ->
  Forall (fun r => Forall (fun x => p_text x = None) (r_props r))
         (snd (uwsgi_webdav_add_props req fs acc uri filename false)).
Proof.
  intros Hacc. unfold uwsgi_webdav_add_props.
  destruct (stat fs filename) as [st|]; cbn [snd]; [|exact Hacc].
  apply Forall_app. split; [exact Hacc|]. constructor; [|constructor].
  cbn [r_props]. apply Forall_app. split.
  - unfold live_props. destruct st; repeat constructor.
  - unfold dead_props. destruct (listxattr fs filename); [|constructor].
    destruct (Nat.leb _ 0); [constructor|]. apply xattr_scan_names_only.
Qed.

(** X7.  A name listing (propname) never carries a value: whatever the
    Depth, no element of any response has text, for live and dead properties
    alike. *)
Theorem propname_has_no_values (req : wsgi_request) (fs : filesys)
  (filename : string) (multistatus : list dav_response) :
  uwsgi_webdav_manage_prop req fs filename false = Some multistatus ->
  Forall (fun r => Forall (fun x => p_text x = None) (r_props r)) multistatus.
Proof.
  unfold uwsgi_webdav_manage_prop.
  destruct (Z.eqb _ 0).
  - intros H; inversion H; subst. apply add_props_names_only. constructor.
  - destruct (opendir fs filename) as [collection|]; [|discriminate].
    intros H; inversion H; subst; clear H.
    assert (Hgen : forall acc,
               Forall (fun r => Forall (fun x => p_text x = None) (r_props r)) acc ->
               Forall (fun r => Forall (fun x => p_text x = None) (r_props r))
                 (fold_left
                    (fun multistatus de =>
                       if String.eqb (d_name de) ".." then multistatus
                       else
                         let '(uri, direntry) :=
                           if String.eqb (d_name de) "."
                           then (path_info req, filename)
                           else if ends_with_slash (path_info req)
                           then ((path_info req ++ d_name de)%string,
                                 (filename ++ "/" ++ d_name de)%string)
                           else ((path_info req ++ "/" ++ d_name de)%string,
                                 (filename ++ "/" ++ d_name de)%string) in
                         snd (uwsgi_webdav_add_props req fs multistatus uri
                                direntry false))
                    collection acc)).
    { induction collection as [|de collection IH]; intros acc Hacc; simpl;
        [exact Hacc|].
      apply IH. destruct (String.eqb (d_name de) ".."); [exact Hacc|].
      destruct (String.eqb (d_name de) ".");
        [|destruct (ends_with_slash (path_info req))];
        apply add_props_names_only; exact Hacc. }
    apply Hgen. constructor.
Qed.

Lemma propname_has_no_values_witness :
  exists multistatus,
    uwsgi_webdav_manage_prop (Sample.request "/a.txt" [] "") Sample.fs
      "/srv/dav/a.txt" false = Some multistatus
    /\ Forall (fun r => Forall (fun x => p_text x = None) (r_props r)) multistatus.
Proof.
  eexists. split; [reflexivity|].
  apply (propname_has_no_values (Sample.request "/a.txt" [] "") Sample.fs
           "/srv/dav/a.txt").
  reflexivity.
Defined.
(** * MOVE: the other exits, and the Destination header *)

(** MOVE has one of these results, or none: then the source resolves and the
    Destination header is shorter than what is skipped of it. *)
Lemma move_cases (req : wsgi_request) (fs : filesys) :
  (exists o, uwsgi_wevdav_manage_move req fs = Some o /\ move_result req fs o)
  \/ (uwsgi_wevdav_manage_move req fs = None
      /\ exists filename destination,
           uwsgi_webdav_expand_path fs (app req) (path_info req) = Some filename
           /\ uwsgi_get_var req "HTTP_DESTINATION" = Some destination
           /\ destination <> EmptyString
           /\ destination_item req destination = None).
Proof.
  unfold uwsgi_wevdav_manage_move, move_result.
  destruct (uwsgi_webdav_expand_path fs (app req) (path_info req)) as [f|];
    [|left; eexists; split; [reflexivity|auto]].
  destruct (uwsgi_get_var req "HTTP_DESTINATION") as [[|c destination]|] eqn:Ed;
    cbn [String.length Nat.eqb]; cbv iota zeta;
    try (left; eexists; split; [reflexivity|auto]).
  destruct (destination_item req (String c destination)) as [d_item|] eqn:Ei.
  2:{ right. split; [reflexivity|]. exists f, (String c destination).
      repeat split; [discriminate|exact Ei]. }
  left.
  destruct (uwsgi_webdav_expand_path fs (app req) d_item) as [d|].
  - destruct (uwsgi_get_var req "HTTP_OVERWRITE") as [o|];
      [destruct (starts_with_F o)|]; cbn [negb andb]; cbv iota;
      try (eexists; split; [reflexivity|auto]);
      (destruct (rename fs f d) as [fs'|] eqn:Er;
       [|eexists; split; [reflexivity|auto]];
       eexists; split; [reflexivity|];
       do 4 right; exists f, d, fs'; auto).
  - cbn [andb]. cbv iota.
    destruct (uwsgi_webdav_expand_fake_path fs (app req) d_item) as [d|];
      [|eexists; split; [reflexivity|auto 6]].
    destruct (rename fs f d) as [fs'|] eqn:Er;
      [|eexists; split; [reflexivity|auto]].
    eexists. split; [reflexivity|].
    do 4 right. exists f, d, fs'. auto.
Qed.

(** X8.  MOVE answers 404 when the source does not resolve and 409 when
    neither the destination nor its parent does, the tree untouched.  When
    the Destination header is as long as what is skipped of it, MOVE
    returns; its status is then one of six, and it changes the tree only by
    the one rename of the resolved source, answered 201 or 204.  It has no
    result exactly when the source resolves and the header is not empty
    but shorter than the scheme, "://" and the host: the path is then read
    past the end of the header. *)
Theorem move_exits (req : wsgi_request) (fs : filesys) :
  let out := uwsgi_wevdav_manage_move req fs in
  (uwsgi_webdav_expand_path fs (app req) (path_info req) = None ->
   returns_leaving out "404 Not Found" fs)
  /\ (forall filename destination d_item,
         uwsgi_webdav_expand_path fs (app req) (path_info req) = Some filename ->
         uwsgi_get_var req "HTTP_DESTINATION" = Some destination ->
         destination <> EmptyString ->
         destination_item req destination = Some d_item ->
         uwsgi_webdav_expand_path fs (app req) d_item = None ->
         uwsgi_webdav_expand_fake_path fs (app req) d_item = None ->
         returns_leaving out "409 Conflict" fs)
  /\ (destination_in_bounds req ->
      exists req' fs',
        out = Some (req', fs')
        /\ In (final_status req') move_statuses
        /\ (fs' = fs
            \/ exists filename d_filename,
                 uwsgi_webdav_expand_path fs (app req) (path_info req)
                 = Some filename
                 /\ rename fs filename d_filename = Some fs'
                 /\ (final_status req' = "201 Created"
                     \/ final_status req' = "204 No Content")))
  /\ (out = None
      <-> exists filename destination,
            uwsgi_webdav_expand_path fs (app req) (path_info req) = Some filename
            /\ uwsgi_get_var req "HTTP_DESTINATION" = Some destination
            /\ destination <> EmptyString
            /\ destination_item req destination = None).
Proof.
  cbv zeta. split; [|split; [|split]].
  - intros H. unfold uwsgi_wevdav_manage_move. rewrite H.
    eexists. split; [reflexivity|].
    split; [apply final_status_prepare|reflexivity].
  - intros filename destination d_item Hs Hd Hne Hi Hst Hf.
    unfold uwsgi_wevdav_manage_move. rewrite Hs, Hd.
    destruct destination; [congruence|]. cbn [String.length Nat.eqb]. cbv iota zeta.
    rewrite Hi, Hst, Hf. cbn [andb]. cbv iota.
    eexists. split; [reflexivity|].
    split; [apply final_status_prepare|reflexivity].
  - intros Hb.
    destruct (move_cases req fs)
      as [([req' fs'] & E & Hres)|(_ & f & destination & _ & Hd & Hne & Hi)];
      [|exfalso; exact (Hb _ Hd Hne Hi)].
    exists req', fs'. split; [exact E|]. unfold move_statuses.
    destruct Hres as [H|[H|[H|[H|(f & d & fs1 & Hs & Hr & [H|H])]]]];
      inversion H; subst; unfold uwsgi_404, uwsgi_403;
      rewrite final_status_prepare;
      (split; [simpl; tauto|]); auto;
      right; exists f, d; auto.
  - split.
    + intros E.
      destruct (move_cases req fs) as [(o & E' & _)|(_ & H)]; [congruence|exact H].
    + intros (filename & destination & Hs & Hd & Hne & Hi).
      unfold uwsgi_wevdav_manage_move. rewrite Hs, Hd.
      destruct destination; [congruence|]. cbn [String.length Nat.eqb].
      cbv iota zeta. rewrite Hi. reflexivity.
Qed.

Lemma move_exits_witness :
  returns_leaving
    (uwsgi_wevdav_manage_move
       (Sample.request "/a.txt" [("HTTP_DESTINATION", "http://h/no/where")] "")
       Sample.fs)
    "409 Conflict" Sample.fs
  /\ uwsgi_wevdav_manage_move
       (Sample.request "/a.txt" [("HTTP_DESTINATION", "/b")] "") Sample.fs
     = None.
Proof.
  split.
  - destruct (move_exits
                (Sample.request "/a.txt" [("HTTP_DESTINATION", "http://h/no/where")] "")
                Sample.fs) as (_ & H409 & _).
    apply (H409 "/srv/dav/a.txt" "http://h/no/where" "/no/where");
      try reflexivity.
    discriminate.
  - destruct (move_exits
                (Sample.request "/a.txt" [("HTTP_DESTINATION", "/b")] "")
                Sample.fs) as (_ & _ & _ & Hnone).
    apply Hnone. exists "/srv/dav/a.txt", "/b".
    repeat split; [discriminate].
Defined.

Lemma substring_skip (pre path : string) :
  substring (String.length pre) (String.length path) (pre ++ path) = path.
Proof.
  induction pre as [|c pre IH]; simpl; [apply substring_0_all|exact IH].
Qed.

(** X9.  The path of the Destination header is found by length alone: the
    scheme (four characters when the request has none), "://" and the host
    are skipped, whatever text stands there; the host named in the header is
    never compared with the request's. *)
Theorem destination_item_skips (req : wsgi_request) (pre path : string) :
  String.length pre
  = (if Nat.eqb (String.length (scheme req)) 0 then 4
     else String.length (scheme req)) + 3 + String.length (host req) ->
  String.length (pre ++ path) < 65536 ->
  destination_item req (pre ++ path) = Some path.
Proof.
  intros Hpre Hlen. unfold destination_item, uint16.
  rewrite <- Hpre. rewrite str_app_length in *.
  rewrite (Nat.mod_small (String.length pre)) by lia.
  destruct (Nat.ltb_spec (String.length pre + String.length path)
              (String.length pre)) as [Hlt|_]; [lia|]. f_equal.
  replace (String.length pre + String.length path - String.length pre)
    with (String.length path) by lia.
  rewrite (Nat.mod_small (String.length path)) by lia.
  apply substring_skip.
Qed.

Lemma destination_item_skips_witness :
  destination_item (Sample.request "/a.txt" [] "") "ftp_://x/d/a" = Some "/d/a".
Proof.
  apply (destination_item_skips (Sample.request "/a.txt" [] "") "ftp_://x" "/d/a").
  - reflexivity.
  - apply Nat.ltb_lt. vm_compute. reflexivity.
Defined.

(** * Resolution in a tree that lost or gained an entry *)

Lemma walk_shrink (r r' : node) :
  (forall s, find_node r' s = None
             \/ option_map kind_of (find_node r' s)
                = option_map kind_of (find_node r s)) ->
  forall b cs stack,
    walk r' b stack cs = None \/ walk r' b stack cs = walk r b stack cs.
Proof.
  intros Hk. induction b as [|b IHb]; induction cs as [|c cs IH]; intros stack;
    rewrite ?walk_nil; auto; rewrite !walk_cons;
    (destruct (String.eqb c "" || String.eqb c "."); [apply IH|]);
    (destruct (String.eqb c ".."); [apply IH|]);
    destruct (Hk (stack ++ [c])) as [Hn|He]; try (rewrite Hn; auto; fail);
    destruct (find_node r' (stack ++ [c])) as [[? ? ?|?|? ? ?]|],
             (find_node r (stack ++ [c])) as [[? ? ?|?|? ? ?]|];
    simpl in He; try discriminate; auto.
  inversion He; subst. apply IHb.
Qed.

Lemma walk_grow (r r' : node) :
  (forall s n, find_node r s = Some n ->
               option_map kind_of (find_node r' s) = Some (kind_of n)) ->
  forall b cs stack res,
    walk r b stack cs = Some res -> walk r' b stack cs = Some res.
Proof.
  intros Hk. induction b as [|b IHb]; induction cs as [|c cs IH];
    intros stack res; rewrite ?walk_nil; auto; rewrite !walk_cons;
    (destruct (String.eqb c "" || String.eqb c "."); [apply IH|]);
    (destruct (String.eqb c ".."); [apply IH|]);
    (destruct (find_node r (stack ++ [c])) as [n|] eqn:Ef; [|discriminate]);
    specialize (Hk _ _ Ef);
    destruct (find_node r' (stack ++ [c])) as [[? ? ?|?|? ? ?]|],
             n as [? ? ?|?|? ? ?];
    simpl in Hk; try discriminate; auto.
  inversion Hk; subst. apply IHb.
Qed.

(** A path that resolves to a directory can be continued from there. *)
Lemma walk_join (r : node) (rest : list string) (b : nat) :
  forall cs stack res,
    walk r b stack cs = Some res ->
    (exists w xa es, find_node r res = Some (Dir w xa es)) ->
    exists b2, walk r b stack (cs ++ rest) = walk r b2 res rest.
Proof.
  induction b as [|b IHb]; induction cs as [|c cs IH]; intros stack res H Hd.
  1, 3: rewrite walk_nil in H; inversion H; subst; eexists; reflexivity.
  all: rewrite walk_cons in H; rewrite <- app_comm_cons, walk_cons;
    (destruct (String.eqb c "" || String.eqb c "."); [eauto|]);
    (destruct (String.eqb c ".."); [eauto|]);
    destruct (find_node r (stack ++ [c])) as [[? ? ?|?|? ? ?]|] eqn:Ef;
    try discriminate; eauto;
    try (destruct cs; [|discriminate]; inversion H; subst;
         destruct Hd as (? & ? & ? & Hd); rewrite Ef in Hd; discriminate).
  rewrite app_assoc. eauto.
Qed.

Lemma distinct_assoc_remove {A : Type} (leaf : string) (es : list (string * A)) :
  distinct (map fst es) = true -> assoc leaf (remove_assoc leaf es) = None.
Proof.
  induction es as [|[k v] es IH]; simpl; intros H; [reflexivity|].
  apply andb_true_iff in H. destruct H as [Hk Hd].
  destruct (String.eqb leaf k) eqn:E.
  - apply String.eqb_eq in E. subst k. apply assoc_not_in.
    intros Hin. apply negb_true_iff in Hk.
    assert (existsb (String.eqb leaf) (map fst es) = true).
    { apply existsb_exists. exists leaf. split; [exact Hin|apply String.eqb_refl]. }
    congruence.
  - simpl. rewrite E. auto.
Qed.

Lemma assoc_remove_other {A : Type} (leaf c : string) (es : list (string * A)) :
  String.eqb c leaf = false -> assoc c (remove_assoc leaf es) = assoc c es.
Proof.
  intros Hne. induction es as [|[k v] es IH]; simpl; [reflexivity|].
  destruct (String.eqb leaf k) eqn:E.
  - apply String.eqb_eq in E. subst k. rewrite Hne. reflexivity.
  - simpl. destruct (String.eqb c k); [reflexivity|exact IH].
Qed.

Lemma unique_names_entries (w : bool) (xa : xattrs) (es : list (string * node))
  (c : string) (ch : node) :
  unique_names (Dir w xa es) = true -> assoc c es = Some ch ->
  unique_names ch = true.
Proof.
  simpl. intros H. apply andb_true_iff in H. destruct H as [_ H]. revert H.
  induction es as [|[k v] es IH]; simpl; intros H Ha; [discriminate|].
  apply andb_true_iff in H. destruct H as [Hv Hes].
  destruct (String.eqb c k); [inversion Ha; subst; exact Hv|auto].
Qed.

Lemma unique_names_find (r : node) (p : list string) (n : node) :
  unique_names r = true -> find_node r p = Some n -> unique_names n = true.
Proof.
  revert r. induction p as [|c p IH]; intros r Hu H; simpl in H.
  - inversion H; subst. exact Hu.
  - destruct r as [w d xa|t|w xa es]; try discriminate.
    destruct (assoc c es) as [ch|] eqn:E; [|discriminate].
    eapply IH; [|exact H]. eapply unique_names_entries; eauto.
Qed.

(** Where an entry was taken out, it is gone, and everything else is of the
    kind it was or gone with it. *)
Lemma find_removed (leaf : string) (w : bool) (xa : xattrs)
  (es : list (string * node)) :
  assoc leaf (remove_assoc leaf es) = None ->
  forall q r,
    find_node r q = Some (Dir w xa es) ->
    find_node (replace r q (Dir w xa (remove_assoc leaf es))) (q ++ [leaf]) = None
    /\ forall s,
         find_node (replace r q (Dir w xa (remove_assoc leaf es))) s = None
         \/ option_map kind_of
              (find_node (replace r q (Dir w xa (remove_assoc leaf es))) s)
            = option_map kind_of (find_node r s).
Proof.
  intros Hgone. induction q as [|c q IH]; intros r Hf; simpl in Hf.
  - inversion Hf; subst r. simpl. rewrite Hgone. split; [reflexivity|].
    intros [|c s]; simpl; [auto|].
    destruct (String.eqb c leaf) eqn:E.
    + apply String.eqb_eq in E. subst c. rewrite Hgone. auto.
    + rewrite assoc_remove_other by exact E. auto.
  - destruct r as [w0 d0 xa0|t|w0 xa0 es0]; try discriminate.
    destruct (assoc c es0) as [ch|] eqn:E; [|discriminate].
    destruct (IH _ Hf) as [Hg Hk]. simpl. rewrite E. simpl.
    rewrite assoc_set_assoc_same. split; [exact Hg|].
    intros [|c' s]; simpl; [auto|].
    destruct (String.eqb c' c) eqn:Ec.
    + apply String.eqb_eq in Ec. subst c'.
      rewrite assoc_set_assoc_same, E. apply Hk.
    + rewrite assoc_set_assoc_other by exact Ec. auto.
Qed.

(** Where an entry was put in under a new name, it is there, and everything
    that was there is of the kind it was. *)
Lemma find_added (leaf : string) (new : node) (w : bool) (xa : xattrs)
  (es : list (string * node)) :
  assoc leaf es = None ->
  forall q r,
    find_node r q = Some (Dir w xa es) ->
    find_node (replace r q (Dir w xa (set_assoc leaf new es))) (q ++ [leaf])
    = Some new
    /\ forall s n,
         find_node r s = Some n ->
         option_map kind_of
           (find_node (replace r q (Dir w xa (set_assoc leaf new es))) s)
         = Some (kind_of n).
Proof.
  intros Hnew. induction q as [|c q IH]; intros r Hf; simpl in Hf.
  - inversion Hf; subst r. simpl. rewrite assoc_set_assoc_same.
    split; [reflexivity|].
    intros [|c s] n; simpl; [intros H; inversion H; reflexivity|].
    destruct (String.eqb c leaf) eqn:E.
    + apply String.eqb_eq in E. subst c. rewrite Hnew. discriminate.
    + rewrite assoc_set_assoc_other by exact E.
      intros H. rewrite H. reflexivity.
  - destruct r as [w0 d0 xa0|t|w0 xa0 es0]; try discriminate.
    destruct (assoc c es0) as [ch|] eqn:E; [|discriminate].
    destruct (IH _ Hf) as [Hg Hk]. simpl. rewrite E. simpl.
    rewrite assoc_set_assoc_same. split; [exact Hg|].
    intros [|c' s] n; simpl; [intros H; inversion H; reflexivity|].
    destruct (String.eqb c' c) eqn:Ec.
    + apply String.eqb_eq in Ec. subst c'.
      rewrite assoc_set_assoc_same, E. apply Hk.
    + rewrite assoc_set_assoc_other by exact Ec.
      intros H. rewrite H. reflexivity.
Qed.
(** * After a DELETE *)

(** A run that returns does not depend on which streams open: it is the
    run with every stream allowed. *)
Lemma unlink_open_all (fs : filesys) (path : string) :
  unlink (open_all fs) path = option_map open_all (unlink fs path).
Proof.
  unfold unlink.
  change (parent_leaf (open_all fs) path) with (parent_leaf fs path).
  destruct (parent_leaf fs path) as [[p leaf]|]; [|reflexivity].
  change (root (open_all fs)) with (root fs).
  destruct (find_node (root fs) p) as [[?|?|[|] xa es]|]; try reflexivity.
  destruct (assoc leaf es) as [[?|?|? ? ?]|]; try reflexivity;
    destruct (alter (drop_entry leaf) (root fs) p); reflexivity.
Qed.

Lemma rmdir_open_all (fs : filesys) (path : string) :
  rmdir (open_all fs) path
  = match rmdir fs path with
    | Ok fs' => Ok (open_all fs')
    | Err e => Err e
    end.
Proof.
  unfold rmdir.
  change (parent_leaf (open_all fs) path) with (parent_leaf fs path).
  destruct (parent_leaf fs path) as [[p leaf]|]; [|reflexivity].
  change (root (open_all fs)) with (root fs).
  destruct (find_node (root fs) p) as [[?|?|w xa es]|]; try reflexivity.
  destruct (assoc leaf es) as [[?|?|? ? ces]|]; try reflexivity.
  destruct (negb w); [reflexivity|].
  destruct ces; [|reflexivity].
  destruct (alter (drop_entry leaf) (root fs) p); reflexivity.
Qed.

Lemma opendir_open_all (fs : filesys) (path : string) (d : list dirent) :
  opendir fs path = Some d -> opendir (open_all fs) path = Some d.
Proof.
  unfold opendir.
  change (namei (open_all fs) path) with (namei fs path).
  destruct (namei fs path) as [p|]; [|discriminate].
  change (root (open_all fs)) with (root fs).
  destruct (find_node (root fs) p) as [[?|?|w xa es]|]; try discriminate.
  destruct (may_opendir fs p); [|discriminate].
  intros H. exact H.
Qed.

Lemma delete_loop_open_all
  (rec : filesys -> string -> option (Z * filesys * list fs_action)) :
  (forall fs dir ret fs' log,
      rec fs dir = Some (ret, fs', log) ->
      rec (open_all fs) dir = Some (ret, open_all fs', log)) ->
  forall dir d fs log0 ret fs' log,
    delete_loop rec dir d fs log0 = Some (ret, fs', log) ->
    delete_loop rec dir d (open_all fs) log0 = Some (ret, open_all fs', log).
Proof.
  intros Hrec dir d. induction d as [|de d IH]; intros fs log0 ret fs' log H.
  - simpl in *. rewrite rmdir_open_all.
    destruct (rmdir fs dir); inversion H; subst; reflexivity.
  - simpl in *.
    destruct (String.eqb (d_name de) "." || String.eqb (d_name de) "..");
      [apply IH; exact H|].
    destruct (d_type de).
    + destruct (rec fs _) as [[[ret1 fs1] sub]|] eqn:Er; [|discriminate].
      rewrite (Hrec _ _ _ _ _ Er).
      destruct (Z.eqb ret1 0); [apply IH; exact H|].
      inversion H; subst. reflexivity.
    + rewrite unlink_open_all.
      destruct (unlink fs _) as [fs1|]; simpl option_map.
      * apply IH. exact H.
      * inversion H; subst. reflexivity.
    + rewrite unlink_open_all.
      destruct (unlink fs _) as [fs1|]; simpl option_map.
      * apply IH. exact H.
      * inversion H; subst. reflexivity.
Qed.

Lemma massive_delete_open_all (fuel : nat) :
  forall fs dir ret fs' log,
    uwsgi_webdav_massive_delete fuel fs dir = Some (ret, fs', log) ->
    uwsgi_webdav_massive_delete fuel (open_all fs) dir
    = Some (ret, open_all fs', log).
Proof.
  induction fuel as [|fuel IH]; intros fs dir ret fs' log H; [discriminate|].
  simpl in *.
  destruct (opendir fs dir) as [d|] eqn:Eo; [|discriminate].
  rewrite (opendir_open_all _ _ _ Eo).
  apply delete_loop_open_all; assumption.
Qed.

Lemma delete_open_all (req req' : wsgi_request) (fs fs' : filesys) :
  uwsgi_wevdav_manage_delete req fs = Some (req', fs') ->
  uwsgi_wevdav_manage_delete req (open_all fs) = Some (req', open_all fs').
Proof.
  unfold uwsgi_wevdav_manage_delete.
  change (uwsgi_webdav_expand_path (open_all fs)) with (uwsgi_webdav_expand_path fs).
  destruct (uwsgi_webdav_expand_path fs (app req) (path_info req)) as [filename|];
    [|intros H; inversion H; reflexivity].
  change (uwsgi_is_dir (open_all fs) filename) with (uwsgi_is_dir fs filename).
  destruct (uwsgi_is_dir fs filename).
  - rewrite rmdir_open_all.
    destruct (rmdir fs filename) as [fs1|[| | |]];
      try (intros H; inversion H; reflexivity).
    change (height (root (open_all fs))) with (height (root fs)).
    destruct (uwsgi_webdav_massive_delete (height (root fs)) fs filename)
      as [[[ret fs1] log]|] eqn:Em; [|discriminate].
    rewrite (massive_delete_open_all _ _ _ _ _ _ Em).
    destruct (Z.eqb ret 0); intros H; inversion H; reflexivity.
  - rewrite unlink_open_all.
    destruct (unlink fs filename); intros H; inversion H; reflexivity.
Qed.

(** What DELETE does to a target that resolves, file or directory. *)
Lemma delete_outcome (req : wsgi_request) (fs : filesys) (filename : string) :
  is_dir (root fs) = true ->
  good_tree (root fs) = true ->
  uwsgi_webdav_expand_path fs (app req) (path_info req) = Some filename ->
  (forall p, may_opendir fs p = true) ->
  exists req' fs' p,
    uwsgi_wevdav_manage_delete req fs = Some (req', fs')
    /\ namei fs (interpreter (app req) ++ "/" ++ path_info req) = Some p
    /\ ((final_status req' = "200 OK"
         /\ exists q leaf,
             p = q ++ [leaf] /\ removed_at (root fs) q leaf (root fs'))
        \/ (final_status req' = "403 Forbidden"
            /\ changed_below (root fs) p (root fs'))).
Proof.
  intros Hroot Hgood Hexp Hread.
  unfold uwsgi_wevdav_manage_delete. rewrite Hexp.
  unfold uwsgi_webdav_expand_path, realpath in Hexp.
  destruct (namei fs _) as [p|] eqn:Hn; [|discriminate].
  simpl in Hexp. inversion Hexp; subst filename; clear Hexp.
  assert (Hcanon : canon_path (root fs) p).
  { unfold namei in Hn. destruct (is_absolute _); [|discriminate].
    eapply walk_canon_result; [apply split_slash_no_slash| |exact Hn].
    split; [constructor|]. exists (root fs). split; [reflexivity|].
    destruct (root fs); try discriminate; reflexivity. }
  unfold uwsgi_is_dir, stat. rewrite (namei_render _ _ Hcanon).
  destruct Hcanon as [Hg (n & Hfind & Hl)]. rewrite Hfind.
  destruct p as [|c p'] eqn:Ep.
  - (* the root itself *)
    simpl in Hfind. inversion Hfind; subst n.
    destruct (root fs) as [| |w xa es] eqn:Er; try discriminate.
    exists (uwsgi_403 req), fs, []. split; [reflexivity|]. split; [reflexivity|].
    right. split; [apply final_status_403|].
    rewrite Er. eapply changed_below_refl. reflexivity.
  - rewrite <- Ep in *.
    assert (Hp : p <> []) by (rewrite Ep; discriminate).
    destruct (exists_last Hp) as (q & leaf & Eq). rewrite Eq in *. clear Ep Hp.
    destruct (find_node_snoc _ _ _ _ Hfind) as (wq & xaq & esq & Hq & Ha).
    pose proof (spells_render (q ++ [leaf]) ltac:(destruct q; discriminate) Hg)
      as Hsp.
    destruct n as [fw fd fxa|t|w xa es]; [|discriminate|].
    + (* a regular file: unlink *)
      rewrite (unlink_spelled fs _ q leaf Hsp wq xaq esq Hq _ Ha eq_refl).
      destruct wq.
      * do 3 eexists. split; [reflexivity|]. split; [reflexivity|].
        left. split; [apply final_status_prepare|].
        exists q, leaf. split; [reflexivity|]. exists true, xaq, esq. auto.
      * do 3 eexists. split; [reflexivity|]. split; [reflexivity|].
        right. split; [apply final_status_403|].
        eapply changed_below_refl; eauto.
    + rewrite (rmdir_spelled fs _ q leaf Hsp wq xaq esq Hq _ _ _ Ha).
      destruct wq; simpl negb; cbv iota.
      * destruct es as [|e es].
        -- do 3 eexists. split; [reflexivity|]. split; [reflexivity|].
           left. split; [apply final_status_prepare|].
           exists q, leaf. split; [reflexivity|]. exists true, xaq, esq. auto.
        -- destruct (massive_delete_spec (height (root fs)) fs _ q leaf w xa (e :: es)
                       Hsp Hfind (good_tree_find _ _ _ Hgood Hfind)
                       (find_height _ _ _ Hfind) (fun s => Hread _))
             as (ret & fs' & log & Hrun & Hav & Hres & _).
           rewrite Hrun.
           destruct Hres as [(-> & Hrem & _) | (-> & Hch)]; simpl Z.eqb; cbv iota.
           ++ do 3 eexists. split; [reflexivity|]. split; [reflexivity|].
              left. split; [apply final_status_prepare|]. exists q, leaf. auto.
           ++ do 3 eexists. split; [reflexivity|]. split; [reflexivity|].
              right. split; [apply final_status_403|]. exact Hch.
      * do 3 eexists. split; [reflexivity|]. split; [reflexivity|].
        right. split; [apply final_status_403|].
        eapply changed_below_refl; eauto.
Qed.

(** X10.  What a DELETE answered 200 OK removed is gone for the next
    request: the same request path no longer resolves, so that a second
    DELETE of it is answered 404 Not Found and changes nothing.  (The tree
    has legal entry names, none twice in a directory.) *)
Theorem delete_then_gone (req req' : wsgi_request) (fs fs' : filesys) :
  is_dir (root fs) = true ->
  good_tree (root fs) = true ->
  unique_names (root fs) = true ->
  uwsgi_wevdav_manage_delete req fs = Some (req', fs') ->
  final_status req' = "200 OK" ->
  uwsgi_webdav_expand_path fs' (app req) (path_info req) = None
  /\ uwsgi_wevdav_manage_delete req fs' = Some (uwsgi_404 req, fs').
Proof.
  intros Hroot Hgood Huniq Hrun Hst.
  assert (Hnone : uwsgi_webdav_expand_path fs' (app req) (path_info req) = None).
  { destruct (uwsgi_webdav_expand_path fs (app req) (path_info req))
      as [filename|] eqn:Hexp.
    2:{ unfold uwsgi_wevdav_manage_delete in Hrun. rewrite Hexp in Hrun.
        inversion Hrun; subst. unfold uwsgi_404 in Hst.
        rewrite final_status_prepare in Hst. discriminate. }
    destruct (delete_outcome req (open_all fs) filename Hroot Hgood Hexp
                (fun _ => eq_refl))
      as (req1 & fs1 & p & Hrun1 & Hn & Hres).
    rewrite (delete_open_all _ _ _ _ Hrun) in Hrun1.
    inversion Hrun1; subst req1 fs1; clear Hrun1.
    change (root (open_all fs)) with (root fs) in Hres.
    change (root (open_all fs')) with (root fs') in Hres.
    change (namei (open_all fs)) with (namei fs) in Hn.
    destruct Hres as [(_ & q & leaf & -> & Hrem) | (H403 & _)];
      [|rewrite Hst in H403; discriminate].
    destruct Hrem as (w & xa & es & Hq & Hr').
    assert (Hd : distinct (map fst es) = true).
    { pose proof (unique_names_find _ _ _ Huniq Hq) as Hu. simpl in Hu.
      apply andb_true_iff in Hu. tauto. }
    destruct (find_removed leaf w xa es (distinct_assoc_remove _ _ Hd) q
                (root fs) Hq) as [Hgone Hk].
    rewrite <- Hr' in Hgone, Hk.
    unfold uwsgi_webdav_expand_path, realpath, namei in *.
    destruct (is_absolute _); [|reflexivity].
    destruct (walk_shrink (root fs) (root fs') Hk MAXSYMLINKS
                (split_slash (interpreter (app req) ++ "/" ++ path_info req)) [])
      as [E|E]; rewrite E; [reflexivity|].
    exfalso. rewrite Hn in E.
    assert (Hc : canon_path (root fs') (q ++ [leaf])).
    { eapply walk_canon_result; [apply split_slash_no_slash| |exact E].
      split; [constructor|]. exists (root fs'). split; [reflexivity|].
      destruct (Hk []) as [H0|H0]; simpl in H0; [discriminate|].
      destruct (root fs'), (root fs); simpl in H0; try discriminate; reflexivity. }
    destruct Hc as [_ (n & Hf & _)]. congruence. }
  split; [exact Hnone|].
  unfold uwsgi_wevdav_manage_delete. rewrite Hnone. reflexivity.
Qed.

Lemma delete_then_gone_witness :
  exists req' fs',
    uwsgi_wevdav_manage_delete (Sample.request "/d" [] "") Sample.fs
    = Some (req', fs')
    /\ uwsgi_wevdav_manage_delete (Sample.request "/d" [] "") fs'
       = Some (uwsgi_404 (Sample.request "/d" [] ""), fs').
Proof.
  destruct (uwsgi_wevdav_manage_delete (Sample.request "/d" [] "") Sample.fs)
    as [[req' fs']|] eqn:E; [|vm_compute in E; discriminate].
  exists req', fs'. split; [reflexivity|].
  apply (delete_then_gone (Sample.request "/d" [] "") req' Sample.fs fs');
    try reflexivity; [exact E|].
  vm_compute in E. inversion E. reflexivity.
Defined.
(** * After a MKCOL *)

Lemma last_char_cut (s : string) (c : ascii) :
  get (String.length s - 1) s = Some c ->
  s = (substring 0 (String.length s - 1) s ++ String c "")%string.
Proof.
  induction s as [|a s IH]; [discriminate|].
  replace (String.length (String a s) - 1) with (String.length s)
    by (simpl; lia).
  destruct s as [|d s].
  - simpl. intros H. inversion H. reflexivity.
  - replace (String.length (String d s) - 1) with (String.length s) in IH
      by (simpl; lia).
    intros H.
    change (get (String.length (String d s)) (String a (String d s)))
      with (get (String.length s) (String d s)) in H.
    change (substring 0 (String.length (String d s)) (String a (String d s)))
      with (String a (substring 0 (String.length s) (String d s))).
    simpl append. f_equal. apply IH. exact H.
Qed.

Lemma ends_with_slash_cut (s : string) :
  ends_with_slash s = true ->
  s = (substring 0 (String.length s - 1) s ++ String slash "")%string.
Proof.
  unfold ends_with_slash. intros H. apply last_char_cut.
  destruct (get (String.length s - 1) s) as [c|]; [|discriminate].
  apply Ascii.eqb_eq in H. subst. reflexivity.
Qed.

Lemma mkcol_path_cases (req : wsgi_request) :
  path_info req = mkcol_path req
  \/ path_info req = (mkcol_path req ++ String slash "")%string.
Proof.
  unfold mkcol_path.
  destruct (Nat.ltb 1 (String.length (path_info req))); [|auto].
  destruct (ends_with_slash (path_info req)) eqn:E; [|auto].
  right. apply ends_with_slash_cut. exact E.
Qed.

(** What a successful mkdir of a resolved parent path does to the tree. *)
Lemma mkdir_canonical (fs fs1 : filesys) (r1 : list string) (leaf : string) :
  canon_path (root fs) r1 ->
  has_char slash leaf = false ->
  mkdir fs (render r1 ++ String slash leaf) = Some fs1 ->
  good_name leaf = true
  /\ exists xa es,
       find_node (root fs) r1 = Some (Dir true xa es)
       /\ assoc leaf es = None
       /\ root fs1
          = replace (root fs) r1 (Dir true xa (set_assoc leaf (Dir true [] []) es)).
Proof.
  intros Hc Hs H. unfold mkdir, parent_leaf in H.
  rewrite is_absolute_app in H by apply render_absolute.
  rewrite split_slash_app in H.
  pose proof (namei_render _ _ Hc) as Hn. unfold namei in Hn.
  rewrite render_absolute in Hn.
  rewrite (split_slash_noslash _ Hs), last_last, removelast_last in H.
  destruct (good_name leaf) eqn:Hg; [|discriminate].
  rewrite Hn in H.
  destruct (find_node (root fs) r1) as [[| |[|] xa es]|] eqn:Hf;
    try discriminate; cbv iota beta in H; rewrite ?Hf in H; try discriminate.
  destruct (assoc leaf es) eqn:Ea; [discriminate|].
  rewrite alter_spec, Hf in H. simpl in H. inversion H; subst fs1.
  split; [reflexivity|]. exists xa, es. auto.
Qed.

(** What a successful parent resolution consists of. *)
Lemma expand_fake_path_inv (fs : filesys) (ua : uwsgi_app)
  (item filename : string) :
  uwsgi_webdav_expand_fake_path fs ua item = Some filename ->
  exists last_slash parent,
    uwsgi_get_last_charn item slash = Some last_slash
    /\ uwsgi_webdav_expand_path fs ua (substring 0 last_slash item)
       = Some parent
    /\ filename
       = (parent ++ substring last_slash
                      (String.length item - last_slash) item)%string.
Proof.
  unfold uwsgi_webdav_expand_fake_path. intros H.
  destruct (uwsgi_get_last_charn item slash) as [i|] eqn:El; [|discriminate].
  destruct (uwsgi_webdav_expand_path fs ua (substring 0 i item)) as [parent|]
    eqn:Ep; [|discriminate].
  destruct (Nat.leb PATH_MAX _); [discriminate|].
  inversion H; subst. eauto.
Qed.

(** X11.  A collection MKCOL has made is there for the next request: when
    the target did not resolve, its parent did and mkdir succeeded, the
    answer is 201 Created with mkdir's tree, the request path then resolves
    to a directory, and the same MKCOL again is answered 405 Method Not
    Allowed and changes nothing. *)
Theorem mkcol_then_exists (req : wsgi_request) (fs fs1 : filesys)
  (filename : string) :
  is_dir (root fs) = true ->
  post_cl req = 0 ->
  uwsgi_webdav_expand_path fs (app req) (path_info req) = None ->
  uwsgi_webdav_expand_fake_path fs (app req) (mkcol_path req) = Some filename ->
  mkdir fs filename = Some fs1 ->
  leaves (uwsgi_wevdav_manage_mkcol req fs) "201 Created" fs1
  /\ (exists f,
         uwsgi_webdav_expand_path fs1 (app req) (path_info req) = Some f
         /\ uwsgi_is_dir fs1 f = true)
  /\ leaves (uwsgi_wevdav_manage_mkcol req fs1) "405 Method Not Allowed" fs1.
Proof.
  intros Hroot Hcl Hstrict Hfake Hmk.
  assert (Hresolves : exists f,
             uwsgi_webdav_expand_path fs1 (app req) (path_info req) = Some f
             /\ uwsgi_is_dir fs1 f = true).
  { destruct (expand_fake_path_inv _ _ _ _ Hfake) as (i & parent & Hl & Hpre & ->).
    destruct (last_slash_cut _ _ Hl) as (leaf & Hleaf & Htail & Hcut).
    rewrite Htail in *.
    set (pre := substring 0 i (mkcol_path req)) in *.
    unfold uwsgi_webdav_expand_path, realpath in Hpre.
    destruct (namei fs (interpreter (app req) ++ "/" ++ pre)) as [r1|] eqn:Hn;
      [|discriminate].
    simpl in Hpre. inversion Hpre; subst parent; clear Hpre.
    unfold namei in Hn.
    destruct (is_absolute (interpreter (app req) ++ "/" ++ pre)) eqn:Habs;
      [|discriminate].
    assert (Hc1 : canon_path (root fs) r1).
    { eapply walk_canon_result; [apply split_slash_no_slash| |exact Hn].
      split; [constructor|]. exists (root fs). split; [reflexivity|].
      destruct (root fs); try discriminate; reflexivity. }
    destruct (mkdir_canonical _ _ _ _ Hc1 Hleaf Hmk)
      as (Hg & xa & es & Hf1 & Hnew & Hr1).
    destruct (find_added leaf (Dir true [] []) true xa es Hnew r1 (root fs) Hf1)
      as [Hthere Hmono].
    rewrite <- Hr1 in Hthere, Hmono.
    assert (Hd1 : exists w' xa' es', find_node (root fs1) r1 = Some (Dir w' xa' es')).
    { rewrite Hr1. erewrite find_replace_same by exact Hf1. eauto. }
    (* the request path, with or without its trailing '/' *)
    assert (Hwalk : forall rest,
               rest = [leaf] \/ rest = [leaf; ""%string] ->
               walk (root fs1) MAXSYMLINKS []
                 (split_slash (interpreter (app req) ++ String slash pre) ++ rest)
               = Some (r1 ++ [leaf])).
    { intros rest Hrest.
      destruct (walk_join (root fs1) rest MAXSYMLINKS _ _ _
                  (walk_grow _ _ Hmono _ _ _ _ Hn) Hd1) as (b2 & Hb2).
      destruct (good_name_elim _ Hg) as (E1 & E2 & _).
      etransitivity; [exact Hb2|].
      destruct Hrest as [-> | ->]; rewrite walk_cons, E1, E2, Hthere;
        rewrite ?walk_cons, ?walk_nil; reflexivity. }
    exists (render (r1 ++ [leaf])). split.
    - unfold uwsgi_webdav_expand_path, realpath, namei.
      destruct (mkcol_path_cases req) as [E|E]; rewrite E, Hcut.
      + change (interpreter (app req) ++ "/" ++ pre ++ String slash leaf)%string
          with (interpreter (app req) ++ (String slash pre) ++ String slash leaf)%string.
        rewrite <- str_app_assoc, (is_absolute_slash _ leaf "").
        replace (is_absolute ((interpreter (app req) ++ String slash pre)
                              ++ String slash ""))
          with true
          by (rewrite <- Habs; destruct (interpreter (app req)); reflexivity).
        rewrite split_slash_app, (split_slash_noslash _ Hleaf), Hwalk by auto.
        reflexivity.
      + rewrite (str_app_assoc pre).
        change (interpreter (app req) ++ "/" ++ pre
                ++ String slash leaf ++ String slash "")%string
          with (interpreter (app req) ++ (String slash pre)
                ++ String slash (leaf ++ String slash ""))%string.
        rewrite <- str_app_assoc, (is_absolute_slash _ _ "").
        replace (is_absolute ((interpreter (app req) ++ String slash pre)
                              ++ String slash ""))
          with true
          by (rewrite <- Habs; destruct (interpreter (app req)); reflexivity).
        rewrite (split_slash_app (interpreter (app req) ++ String slash pre)),
          (split_slash_app leaf), (split_slash_noslash _ Hleaf).
        change (split_slash "") with [""%string].
        change ([leaf] ++ [""%string]) with [leaf; ""%string].
        rewrite Hwalk by auto. reflexivity.
    - unfold uwsgi_is_dir, stat.
      assert (Hc : canon_path (root fs1) (r1 ++ [leaf])).
      { split; [|eauto]. apply Forall_app. split; [apply Hc1|]. repeat constructor.
        exact Hg. }
      rewrite (namei_render _ _ Hc), Hthere. reflexivity. }
  split; [|split; [exact Hresolves|]].
  - unfold uwsgi_wevdav_manage_mkcol. rewrite Hcl, Hstrict. simpl Nat.ltb.
    cbv iota. unfold mkcol_path in Hfake.
    destruct (Nat.ltb 1 (String.length (path_info req))
              && ends_with_slash (path_info req));
      cbn [app path_info set_path_info]; rewrite Hfake, Hmk;
      split; [apply final_status_prepare|reflexivity
             |apply final_status_prepare|reflexivity].
  - destruct Hresolves as (f & Hf & _).
    unfold uwsgi_wevdav_manage_mkcol. rewrite Hcl, Hf. simpl Nat.ltb. cbv iota.
    split; [apply final_status_prepare|reflexivity].
Qed.

Lemma mkcol_then_exists_witness :
  exists fs1,
    leaves (uwsgi_wevdav_manage_mkcol (Sample.request "/d/new/" [] "") Sample.fs)
           "201 Created" fs1
    /\ leaves (uwsgi_wevdav_manage_mkcol (Sample.request "/d/new/" [] "") fs1)
              "405 Method Not Allowed" fs1.
Proof.
  destruct (mkdir Sample.fs "/srv/dav/d/new") as [fs1|] eqn:E;
    [|vm_compute in E; discriminate].
  exists fs1.
  destruct (mkcol_then_exists (Sample.request "/d/new/" [] "") Sample.fs fs1
              "/srv/dav/d/new" eq_refl eq_refl eq_refl eq_refl E)
    as (H201 & _ & H405).
  split; assumption.
Defined.



(** * GET and HEAD *)

Lemma substring_nil (p n : nat) : substring p n "" = "".
Proof. destruct p, n; reflexivity. Qed.

Lemma substring_zero (p : nat) (s : string) : substring p 0 s = "".
Proof.
  revert p. induction s as [|c s IH]; intros [|p]; simpl; auto.
Qed.

Lemma substring_length (s : string) :
  forall p n, String.length (substring p n s) = Nat.min n (String.length s - p).
Proof.
  induction s as [|c s IH]; intros p n.
  - rewrite substring_nil. simpl. lia.
  - destruct p as [|p], n as [|n]; cbn [substring String.length];
      rewrite ?IH; lia.
Qed.

Lemma substring_split (s : string) :
  forall p n m,
    substring p (n + m) s = (substring p n s ++ substring (p + n) m s)%string.
Proof.
  induction s as [|c s IH]; intros p n m.
  - rewrite !substring_nil. reflexivity.
  - destruct p as [|p]; simpl.
    + destruct n as [|n]; simpl.
      * reflexivity.
      * rewrite (IH 0 n m). reflexivity.
    + apply IH.
Qed.

Lemma str_app_nil (s : string) : (s ++ "")%string = s.
Proof. induction s; simpl; congruence. Qed.

Lemma get_body_loop_step (fuel remains : nat) (fs : filesys) (fd : fdesc)
  (req : wsgi_request) :
  get_body_loop (S fuel) remains fs fd req
  = if Nat.ltb 0 remains then
      match read fs fd (Nat.min BODY_CHUNK remains) with
      | (rlen, buf, fd') =>
          if Z.leb rlen 0 then Some req
          else get_body_loop fuel (remains - Z.to_nat rlen) fs fd'
                 (uwsgi_response_write_body_do req buf)
      end
    else Some req.
Proof. reflexivity. Qed.

(** The loop sends what is left of the file, in order, and ends. *)
Lemma get_body_loop_sends (fs : filesys) (p : list string) (w : bool)
  (d : string) (xa : xattrs) :
  find_node (root fs) p = Some (File w d xa) ->
  forall fuel remains off req,
    off + remains = String.length d ->
    remains < fuel ->
    exists req',
      get_body_loop fuel remains fs (mkfd p off) req = Some req'
      /\ statuses (resp req') = statuses (resp req)
      /\ headers (resp req') = headers (resp req)
      /\ body_out (resp req')
         = (body_out (resp req) ++ substring off remains d)%string.
Proof.
  intros Hf. induction fuel as [|fuel IH]; intros remains off req Hlen Hlt; [lia|].
  rewrite get_body_loop_step. destruct (Nat.ltb 0 remains) eqn:Er.
  - apply Nat.ltb_lt in Er. unfold read. cbn [fd_path fd_off]. rewrite Hf.
    set (k := Nat.min BODY_CHUNK remains).
    assert (Hk : String.length (substring off k d) = k).
    { rewrite substring_length. pose proof BODY_CHUNK_pos. unfold k. lia. }
    assert (Hk0 : 0 < k) by (pose proof BODY_CHUNK_pos; unfold k; lia).
    rewrite Hk.
    destruct (Z.leb (Z.of_nat k) 0) eqn:Ez; [apply Z.leb_le in Ez; lia|].
    rewrite Nat2Z.id.
    destruct (IH (remains - k) (off + k)
                (uwsgi_response_write_body_do req (substring off k d)))
      as (req' & Hl & Hs & Hh & Hb); [unfold k in *; lia|lia|].
    exists req'. split; [exact Hl|]. split; [exact Hs|]. split; [exact Hh|].
    rewrite Hb. cbn [uwsgi_response_write_body_do set_resp resp body_out].
    rewrite str_app_assoc, <- substring_split.
    replace (k + (remains - k)) with remains by (unfold k; lia). reflexivity.
  - apply Nat.ltb_ge in Er. assert (remains = 0) by lia. subst remains.
    exists req. rewrite substring_zero, str_app_nil. auto.
Qed.

(** X12.  GET on a regular file the process may read answers 200 OK with
    the size of the file as Content-Length and sends the contents of the
    file, whole and in order, whatever its size; HEAD gives the same head
    and sends nothing.  When the file cannot be opened both answer 403
    Forbidden. *)
Theorem get_sends_file (env : environ) (udav : uwsgi_webdav)
  (req : wsgi_request) (fs : filesys) (filename : string)
  (w : bool) (d : string) (xa : xattrs) :
  uwsgi_webdav_expand_path fs (app req) (path_info req) = Some filename ->
  stat fs filename = Some (File w d xa) ->
  (open_rdonly env fs filename = None ->
   forall send_body,
     uwsgi_wevdav_manage_get env udav req fs send_body = Some (uwsgi_403 req))
  /\ (open_rdonly env fs filename <> None ->
      exists head full,
        uwsgi_wevdav_manage_get env udav req fs false = Some head
        /\ uwsgi_wevdav_manage_get env udav req fs true = Some full
        /\ final_status head = "200 OK"
        /\ assoc "Content-Length" (headers (resp head))
           = Some (uwsgi_num2str (String.length d))
        /\ body_out (resp head) = body_out (resp req)
        /\ statuses (resp full) = statuses (resp head)
        /\ headers (resp full) = headers (resp head)
        /\ body_out (resp full) = (body_out (resp req) ++ d)%string).
Proof.
  intros Hx Hst.
  assert (Hd : uwsgi_is_dir fs filename = false)
    by (unfold uwsgi_is_dir; rewrite Hst; reflexivity).
  unfold uwsgi_wevdav_manage_get. rewrite Hx, Hd. split.
  - intros Ho send_body. rewrite Ho. reflexivity.
  - intros Ho. destruct (open_rdonly env fs filename) as [fd|] eqn:Eo;
      [clear Ho|congruence].
    unfold open_rdonly in Eo. unfold stat in Hst.
    destruct (namei fs filename) as [p|]; [|discriminate].
    destruct (may_read env p); [|discriminate].
    inversion Eo; subst fd; clear Eo.
    unfold fstat. simpl fd_path. rewrite Hst. simpl st_size.
    set (head :=
           match uwsgi_get_mime_type env filename with
           | Some mime_type => uwsgi_response_add_content_type _ mime_type
           | None => _
           end).
    destruct (get_body_loop_sends fs p w d xa Hst (String.length d + 1)
                (String.length d) 0 head)
      as (full & Hl & Hs & Hh & Hb); [reflexivity|lia|].
    exists head, full. split; [reflexivity|]. split; [exact Hl|].
    rewrite Hs, Hh, Hb, substring_0_all.
    assert (Hhead : final_status head = "200 OK"
                    /\ assoc "Content-Length" (headers (resp head))
                       = Some (uwsgi_num2str (String.length d))
                    /\ body_out (resp head) = body_out (resp req)).
    { unfold head. destruct (uwsgi_get_mime_type env filename);
        (split; [apply (final_status_prepare req)|split; reflexivity]). }
    destruct Hhead as (H1 & H2 & H3). rewrite H3. auto 10.
Qed.

Lemma get_sends_file_witness :
  exists full,
    uwsgi_wevdav_manage_get SampleEnv.env SampleEnv.udav
      (Sample.request "/a.txt" [] "") Sample.fs true = Some full
    /\ body_out (resp full) = "hello".
Proof.
  destruct (get_sends_file SampleEnv.env SampleEnv.udav
              (Sample.request "/a.txt" [] "") Sample.fs "/srv/dav/a.txt"
              true "hello" [] eq_refl eq_refl) as [_ H].
  destruct H as (head & full & _ & Hfull & _ & _ & _ & _ & _ & Hb);
    [vm_compute; discriminate|].
  exists full. split; [exact Hfull|exact Hb].
Defined.










(** * What PUT stores *)

Lemma drop_str_0 (s : string) : drop_str 0 s = s.
Proof. unfold drop_str. rewrite Nat.sub_0_r. apply substring_0_all. Qed.

Lemma drop_str_nil (n : nat) : drop_str n "" = "".
Proof. unfold drop_str. apply substring_nil. Qed.

Lemma drop_str_cons (n : nat) (c : ascii) (s : string) :
  drop_str (S n) (String c s) = drop_str n s.
Proof. reflexivity. Qed.

Lemma drop_str_drop (a : nat) :
  forall b s, drop_str b (drop_str a s) = drop_str (a + b) s.
Proof.
  induction a as [|a IH]; intros b s.
  - rewrite drop_str_0. reflexivity.
  - destruct s as [|c s].
    + rewrite !drop_str_nil. reflexivity.
    + change (S a + b) with (S (a + b)). rewrite !drop_str_cons. apply IH.
Qed.

Lemma drop_str_length (n : nat) (s : string) :
  String.length (drop_str n s) = String.length s - n.
Proof. unfold drop_str. rewrite substring_length. lia. Qed.

Lemma substring_app_l (a b : string) :
  substring 0 (String.length a) (a ++ b) = a.
Proof. induction a as [|c a IH]; simpl; [apply substring_zero|congruence]. Qed.

Lemma substring_app_r (a t : string) (k m : nat) :
  substring (String.length a + k) m (a ++ t) = substring k m t.
Proof. induction a as [|c a IH]; simpl; [reflexivity|exact IH]. Qed.

(** A buffer laid at the end of the part already written. *)
Lemma overlay_next (a b old : string) :
  overlay (a ++ drop_str (String.length a) old) (String.length a) b
  = ((a ++ b) ++ drop_str (String.length (a ++ b)) old)%string.
Proof.
  unfold overlay. rewrite substring_app_l, str_app_assoc. f_equal. f_equal.
  rewrite !str_app_length, drop_str_length.
  set (t := drop_str (String.length a) old).
  replace (String.length a + (String.length old - String.length a)
           - (String.length a + String.length b))
    with (String.length t - String.length b)
    by (unfold t; rewrite drop_str_length; lia).
  rewrite substring_app_r. fold (drop_str (String.length b) t).
  unfold t. apply drop_str_drop.
Qed.

(** write(2) with room for the buffer. *)
Lemma write_all (fs : filesys) (p : list string) (off : nat) (buf : string)
  (w : bool) (data : string) (xa : xattrs) :
  find_node (root fs) p = Some (File w data xa) ->
  off + String.length buf - String.length data <= avail fs ->
  write fs (mkfd p off) buf
  = (String.length buf, mkfd p (off + String.length buf),
     mkfs (replace (root fs) p (File w (overlay data off buf) xa))
          (avail fs
           - (String.length (overlay data off buf) - String.length data))
          (may_opendir fs)).
Proof.
  intros Hf Hroom. unfold write. cbn [fd_path fd_off]. rewrite Hf.
  destruct (Nat.leb _ (avail fs)) eqn:E; [|apply Nat.leb_gt in E; lia].
  rewrite substring_0_all, alter_spec, Hf. reflexivity.
Qed.

Lemma put_body_loop_step (fuel remains : nat) (req : wsgi_request)
  (fd : fdesc) (fs : filesys) :
  put_body_loop (S fuel) remains req fd fs
  = if Nat.ltb 0 remains then
      match uwsgi_request_body_read req (Nat.min remains BODY_CHUNK) with
      | (BodyData body, req') =>
          match write fs fd body with
          | (n, fd', fs') =>
              if Nat.eqb n (String.length body)
              then put_body_loop fuel remains req' fd' fs'
              else Some (req', fs')
          end
      | (_, req') => Some (req', fs)
      end
    else Some (req, fs).
Proof. reflexivity. Qed.

(** The copy loop with a client that sends what it announced and a volume
    with room for it: the file ends up as the announced bytes followed by
    what the old contents had beyond them. *)
Lemma put_body_loop_writes (p : list string) (w : bool) (old : string)
  (xa : xattrs) (fuel : nat) :
  forall req fs,
    post_pos req <= post_cl req ->
    post_cl req <= String.length (body_in req) ->
    find_node (root fs) p
    = Some (File w (substring 0 (post_pos req) (body_in req)
                    ++ drop_str (post_pos req) old) xa) ->
    post_cl req - post_pos req <= avail fs ->
    post_cl req - post_pos req < fuel ->
    exists req' fs',
      put_body_loop fuel (post_cl req) req (mkfd p (post_pos req)) fs
      = Some (req', fs')
      /\ resp req' = resp req
      /\ root fs'
         = replace (root fs) p
             (File w (announced req
                      ++ drop_str (String.length (announced req)) old) xa).
Proof.
  induction fuel as [|fuel IH]; intros req fs Hpos Hcl Hf Hroom Hfuel; [lia|].
  assert (Hann : String.length (announced req) = post_cl req)
    by (unfold announced; rewrite substring_length; lia).
  rewrite put_body_loop_step.
  assert (Hdone : post_pos req = post_cl req ->
                  root fs
                  = replace (root fs) p
                      (File w (announced req
                               ++ drop_str (String.length (announced req)) old)
                            xa)).
  { intros E. symmetry. apply replace_same. rewrite Hf, Hann, E. reflexivity. }
  destruct (Nat.ltb 0 (post_cl req)) eqn:Er.
  2:{ apply Nat.ltb_ge in Er. exists req, fs. split; [reflexivity|].
      split; [reflexivity|]. apply Hdone. lia. }
  apply Nat.ltb_lt in Er. unfold uwsgi_request_body_read.
  destruct (Nat.eqb (post_cl req - post_pos req) 0) eqn:E0.
  { apply Nat.eqb_eq in E0. exists req, fs. split; [reflexivity|].
    split; [reflexivity|]. apply Hdone. lia. }
  apply Nat.eqb_neq in E0.
  set (want := Nat.min (Nat.min (post_cl req) BODY_CHUNK)
                       (post_cl req - post_pos req)).
  assert (Hwant : 0 < want /\ post_pos req + want <= post_cl req)
    by (pose proof BODY_CHUNK_pos; unfold want; lia).
  set (got := substring (post_pos req) want (body_in req)).
  assert (Hgot : String.length got = want)
    by (unfold got; rewrite substring_length; lia).
  destruct (Nat.ltb (String.length got) want) eqn:El;
    [apply Nat.ltb_lt in El; lia|].
  set (a := substring 0 (post_pos req) (body_in req)) in *.
  assert (Ha : String.length a = post_pos req)
    by (unfold a; rewrite substring_length; lia).
  rewrite (write_all fs p (post_pos req) got w _ xa Hf)
    by (rewrite str_app_length, drop_str_length, Ha, Hgot; lia).
  rewrite Nat.eqb_refl.
  assert (Hov : overlay (a ++ drop_str (post_pos req) old) (post_pos req) got
                = (substring 0 (post_pos req + want) (body_in req)
                   ++ drop_str (post_pos req + want) old)%string).
  { rewrite <- Ha at 1 2. rewrite overlay_next, str_app_length, Ha, Hgot.
    unfold a, got. rewrite <- substring_split. reflexivity. }
  rewrite Hov, Hgot.
  set (fs1 := mkfs _ _ _).
  destruct (IH (set_post_pos req (post_pos req + want)) fs1)
    as (req' & fs' & Hl & Hr & Hroot).
  - simpl. lia.
  - exact Hcl.
  - unfold fs1. cbn [root set_post_pos post_pos body_in].
    apply (find_replace_same _ _ _ _ Hf).
  - unfold fs1. cbn [avail set_post_pos post_pos post_cl].
    rewrite !str_app_length, !drop_str_length, Ha.
    rewrite substring_length. lia.
  - simpl. lia.
  - exists req', fs'. split; [exact Hl|]. split; [exact Hr|].
    rewrite Hroot. unfold fs1. cbn [root]. rewrite replace_twice. reflexivity.
Qed.

(** What a successful open for writing leaves: the descriptor is at offset
    0 of a writable regular file the path now leads to, which holds what stat
    found before (nothing when the file is new); no free space is used and
    every object of the tree is still of its kind. *)
Lemma open_creat_stat (fs fs1 : filesys) (path : string) (fd : fdesc) :
  open_wronly_creat fs path = Some (fd, fs1) ->
  fd_off fd = 0
  /\ avail fs1 = avail fs
  /\ namei fs1 path = Some (fd_path fd)
  /\ find_node (root fs1) (fd_path fd)
     = Some (File true (data_of (stat fs path)) (xattrs_of (stat fs path)))
  /\ forall s n,
       find_node (root fs) s = Some n ->
       option_map kind_of (find_node (root fs1) s) = Some (kind_of n).
Proof.
  unfold open_wronly_creat, stat. intros H.
  destruct (namei fs path) as [p|] eqn:Hn.
  - destruct (find_node (root fs) p) as [[[|] d xa| |]|] eqn:Hf; try discriminate.
    inversion H; subst fd fs1; clear H. simpl.
    repeat (split; [solve [auto]|]). intros s n Hs. rewrite Hs. reflexivity.
  - destruct (parent_leaf fs path) as [[pp leaf]|] eqn:Hpl; [|discriminate].
    destruct (find_node (root fs) pp) as [[| |[|] xa es]|] eqn:Hf;
      try discriminate.
    destruct (assoc leaf es) eqn:Ea; [discriminate|].
    rewrite alter_spec, Hf in H. simpl in H. inversion H; subst fd fs1; clear H.
    destruct (find_added leaf (File true "" []) true xa es Ea pp (root fs) Hf)
      as [Hthere Hmono].
    cbn [fd_off fd_path set_root root avail data_of xattrs_of].
    split; [reflexivity|]. split; [reflexivity|].
    split; [|split; [exact Hthere|exact Hmono]].
    unfold parent_leaf in Hpl. unfold namei. cbn [root].
    destruct (is_absolute path); [|discriminate].
    destruct (good_name (last (split_slash path) "")) eqn:Hg; [|discriminate].
    destruct (walk (root fs) MAXSYMLINKS [] (removelast (split_slash path)))
      as [q|] eqn:Hw; [|discriminate].
    destruct (find_node (root fs) q) as [[| |? ? ?]|]; try discriminate.
    inversion Hpl; subst q leaf; clear Hpl.
    set (r' := replace (root fs) pp _) in *.
    assert (Hd : exists w' xa' es', find_node r' pp = Some (Dir w' xa' es')).
    { unfold r'. rewrite (find_replace_same _ _ _ _ Hf). eauto. }
    destruct (walk_join r' [last (split_slash path) ""] MAXSYMLINKS _ _ _
                (walk_grow _ _ Hmono _ _ _ _ Hw) Hd) as (b2 & Hb2).
    rewrite <- (app_removelast_last "" (split_slash_nonnil path)) in Hb2.
    change (root (set_root fs r')) with r'. rewrite Hb2, walk_cons.
    destruct (good_name_elim _ Hg) as (E1 & E2 & _).
    rewrite E1, E2, Hthere. reflexivity.
Qed.

(** PUT with a client that sends what it announced and a volume with room
    for it. *)
Lemma put_outcome (req : wsgi_request) (fs fs1 : filesys) (filename : string)
  (fd : fdesc) :
  (uwsgi_webdav_expand_path fs (app req) (path_info req) = Some filename
   \/ (uwsgi_webdav_expand_path fs (app req) (path_info req) = None
       /\ uwsgi_webdav_expand_fake_path fs (app req) (path_info req)
          = Some filename)) ->
  open_wronly_creat fs filename = Some (fd, fs1) ->
  post_pos req = 0 ->
  post_cl req <= String.length (body_in req) ->
  post_cl req <= avail fs ->
  exists req' fs',
    uwsgi_wevdav_manage_put req fs = Some (req', fs')
    /\ final_status req' = "201 Created"
    /\ namei fs' filename = Some (fd_path fd)
    /\ find_node (root fs') (fd_path fd)
       = Some (File true
                 (announced req
                  ++ drop_str (post_cl req) (data_of (stat fs filename)))
                 (xattrs_of (stat fs filename)))
    /\ (forall s n,
           find_node (root fs) s = Some n ->
           option_map kind_of (find_node (root fs') s) = Some (kind_of n))
    /\ (forall s,
           option_map kind_of (find_node (root fs') s)
           = option_map kind_of (find_node (root fs1) s)).
Proof.
  intros Hres Eo Hpos Hcl Hroom.
  destruct (open_creat_stat _ _ _ _ Eo) as (Hoff & Hav & Hn & Hf & Hk).
  set (old := data_of (stat fs filename)) in *.
  set (xa := xattrs_of (stat fs filename)) in *.
  set (req1 := uwsgi_response_prepare_headers req "201 Created").
  assert (Hann : String.length (announced req) = post_cl req)
    by (unfold announced; rewrite substring_length; lia).
  destruct (put_body_loop_writes (fd_path fd) true old xa (post_cl req + 2)
              req1 fs1) as (req' & fs' & Hl & Hr & Hroot).
  - simpl. lia.
  - exact Hcl.
  - cbn [req1 uwsgi_response_prepare_headers set_resp post_pos body_in].
    rewrite Hpos, substring_zero, drop_str_0. exact Hf.
  - cbn [req1 uwsgi_response_prepare_headers set_resp post_pos post_cl].
    rewrite Hav. lia.
  - simpl. lia.
  - change (announced req1) with (announced req) in Hroot.
    rewrite Hann in Hroot.
    assert (Hkind : forall s,
               option_map kind_of (find_node (root fs') s)
               = option_map kind_of (find_node (root fs1) s)).
    { intros s. rewrite Hroot.
      apply (find_replace_kind _ _ _ _ s Hf); reflexivity. }
    exists req', fs'. split; [|split; [|split; [|split; [|split]]]].
    + unfold uwsgi_wevdav_manage_put.
      replace (match uwsgi_webdav_expand_path fs (app req) (path_info req) with
               | Some f => Some f
               | None =>
                   uwsgi_webdav_expand_fake_path fs (app req) (path_info req)
               end) with (Some filename)
        by (destruct Hres as [-> | [-> ->]]; reflexivity).
      rewrite Eo. fold req1.
      replace fd with (mkfd (fd_path fd) (post_pos req1))
        by (destruct fd; simpl in *; congruence).
      exact Hl.
    + unfold final_status. rewrite Hr. apply (final_status_prepare req).
    + rewrite <- Hn. unfold namei.
      destruct (is_absolute filename); [|reflexivity].
      apply walk_kind_ext. exact Hkind.
    + rewrite Hroot. apply (find_replace_same _ _ _ _ Hf).
    + intros s n Hs. rewrite Hkind. apply (Hk _ _ Hs).
    + exact Hkind.
Qed.

(** X14.  PUT stores the body without truncating the file: when the client
    sends the bytes it announced and the volume has room for them, PUT is
    answered 201 Created and the file at the resolved path then holds those
    bytes followed by what the old contents had beyond their length (the
    file is opened without O_TRUNC); its attributes are kept.  A new file
    holds exactly the body. *)
Theorem put_stores_body (req : wsgi_request) (fs : filesys) (filename : string) :
  (uwsgi_webdav_expand_path fs (app req) (path_info req) = Some filename
   \/ (uwsgi_webdav_expand_path fs (app req) (path_info req) = None
       /\ uwsgi_webdav_expand_fake_path fs (app req) (path_info req)
          = Some filename)) ->
  open_wronly_creat fs filename <> None ->
  post_pos req = 0 ->
  post_cl req <= String.length (body_in req) ->
  post_cl req <= avail fs ->
  exists req' fs',
    uwsgi_wevdav_manage_put req fs = Some (req', fs')
    /\ final_status req' = "201 Created"
    /\ stat fs' filename
       = Some (File true
                 (announced req
                  ++ drop_str (post_cl req) (data_of (stat fs filename)))
                 (xattrs_of (stat fs filename))).
Proof.
  intros Hres Hopen Hpos Hcl Hroom.
  destruct (open_wronly_creat fs filename) as [[fd fs1]|] eqn:Eo;
    [clear Hopen|congruence].
  destruct (put_outcome _ _ _ _ _ Hres Eo Hpos Hcl Hroom)
    as (req' & fs' & Hput & Hst & Hn & Hf & _).
  exists req', fs'. split; [exact Hput|]. split; [exact Hst|].
  unfold stat at 1. rewrite Hn. exact Hf.
Qed.

Lemma put_stores_body_witness :
  exists req' fs',
    uwsgi_wevdav_manage_put (Sample.request "/a.txt" [] "HE") Sample.fs
    = Some (req', fs')
    /\ stat fs' "/srv/dav/a.txt" = Some (File true "HEllo" []).
Proof.
  destruct (put_stores_body (Sample.request "/a.txt" [] "HE") Sample.fs
              "/srv/dav/a.txt")
    as (req' & fs' & Hput & _ & Hst).
  - left. reflexivity.
  - vm_compute. discriminate.
  - reflexivity.
  - simpl. lia.
  - simpl. lia.
  - exists req', fs'. split; [exact Hput|exact Hst].
Defined.

(** * GET after PUT *)

(** GET of a regular file, by where its path leads. *)
Lemma get_file_outcome (env : environ) (udav : uwsgi_webdav)
  (req : wsgi_request) (fs : filesys) (filename : string) (p : list string)
  (w : bool) (d : string) (xa : xattrs) :
  uwsgi_webdav_expand_path fs (app req) (path_info req) = Some filename ->
  namei fs filename = Some p ->
  find_node (root fs) p = Some (File w d xa) ->
  may_read env p = true ->
  exists full,
    uwsgi_wevdav_manage_get env udav req fs true = Some full
    /\ final_status full = "200 OK"
    /\ assoc "Content-Length" (headers (resp full))
       = Some (uwsgi_num2str (String.length d))
    /\ body_out (resp full) = (body_out (resp req) ++ d)%string.
Proof.
  intros Hx Hn Hf Hr. unfold uwsgi_wevdav_manage_get, uwsgi_is_dir, stat,
    open_rdonly, fstat.
  rewrite Hx, Hn, Hf, Hr. cbn [fd_path]. rewrite Hf. simpl st_size.
  set (head :=
         match uwsgi_get_mime_type env filename with
         | Some mime_type => uwsgi_response_add_content_type _ mime_type
         | None => _
         end).
  destruct (get_body_loop_sends fs p w d xa Hf (String.length d + 1)
              (String.length d) 0 head)
    as (full & Hl & Hs & Hh & Hb); [reflexivity|lia|].
  exists full. split; [exact Hl|].
  unfold final_status. rewrite Hs, Hh, Hb, substring_0_all.
  unfold head. destruct (uwsgi_get_mime_type env filename);
    (split; [apply (final_status_prepare req)|split; reflexivity]).
Qed.

(** The directory and the name a path under a canonical directory is
    created or removed at. *)
Lemma parent_leaf_canonical (fs : filesys) (r1 pp : list string)
  (leaf l : string) :
  canon_path (root fs) r1 ->
  has_char slash leaf = false ->
  parent_leaf fs (render r1 ++ String slash leaf) = Some (pp, l) ->
  pp = r1 /\ l = leaf /\ good_name leaf = true.
Proof.
  intros Hc Hs H. unfold parent_leaf in H.
  rewrite is_absolute_app in H by apply render_absolute.
  rewrite split_slash_app in H.
  pose proof (namei_render _ _ Hc) as Hn. unfold namei in Hn.
  rewrite render_absolute in Hn.
  rewrite (split_slash_noslash _ Hs), last_last, removelast_last in H.
  destruct (good_name leaf) eqn:Hg; [|discriminate].
  rewrite Hn in H.
  destruct (find_node (root fs) r1) as [[| |? ? ?]|]; try discriminate.
  inversion H; subst. auto.
Qed.

(** The parts of a successful parent resolution. *)
Lemma fake_path_parts (fs : filesys) (ua : uwsgi_app) (item filename : string) :
  is_dir (root fs) = true ->
  uwsgi_webdav_expand_fake_path fs ua item = Some filename ->
  exists pre leaf r1,
    item = (pre ++ String slash leaf)%string
    /\ has_char slash leaf = false
    /\ is_absolute (interpreter ua ++ String slash pre) = true
    /\ walk (root fs) MAXSYMLINKS []
         (split_slash (interpreter ua ++ String slash pre)) = Some r1
    /\ canon_path (root fs) r1
    /\ filename = (render r1 ++ String slash leaf)%string.
Proof.
  intros Hroot Hfake.
  destruct (expand_fake_path_inv _ _ _ _ Hfake) as (i & parent & Hl & Hpre & ->).
  destruct (last_slash_cut _ _ Hl) as (leaf & Hleaf & Htail & Hcut).
  rewrite Htail.
  unfold uwsgi_webdav_expand_path, realpath, namei in Hpre.
  change (interpreter ua ++ "/" ++ substring 0 i item)%string
    with (interpreter ua ++ String slash (substring 0 i item))%string in Hpre.
  destruct (is_absolute (interpreter ua ++ String slash (substring 0 i item)))
    eqn:Habs; [|discriminate].
  destruct (walk (root fs) MAXSYMLINKS [] _) as [r1|] eqn:Hw; [|discriminate].
  inversion Hpre; subst parent; clear Hpre.
  exists (substring 0 i item), leaf, r1.
  split; [exact Hcut|]. split; [exact Hleaf|]. split; [exact Habs|].
  split; [exact Hw|]. split; [|reflexivity].
  eapply walk_canon_result; [apply split_slash_no_slash| |exact Hw].
  split; [constructor|]. exists (root fs). split; [reflexivity|].
  destruct (root fs); try discriminate; reflexivity.
Qed.

(** A name that is there under the directory a prefix resolves to: the
    whole path resolves to it. *)
Lemma leaf_resolves (r' : node) (docroot pre leaf : string)
  (r1 : list string) (n' : node) :
  is_absolute (docroot ++ String slash pre) = true ->
  walk r' MAXSYMLINKS [] (split_slash (docroot ++ String slash pre)) = Some r1 ->
  has_char slash leaf = false ->
  good_name leaf = true ->
  find_node r' (r1 ++ [leaf]) = Some n' -> is_link n' = false ->
  is_absolute (docroot ++ "/" ++ pre ++ String slash leaf) = true
  /\ walk r' MAXSYMLINKS []
       (split_slash (docroot ++ "/" ++ pre ++ String slash leaf))
     = Some (r1 ++ [leaf]).
Proof.
  intros Habs Hw Hs Hg Hf Hl.
  change (docroot ++ "/" ++ pre ++ String slash leaf)%string
    with (docroot ++ (String slash pre) ++ String slash leaf)%string.
  rewrite <- str_app_assoc. split.
  - rewrite (is_absolute_slash _ leaf ""). rewrite <- Habs.
    destruct docroot; reflexivity.
  - rewrite split_slash_app, (split_slash_noslash _ Hs).
    destruct (find_node_snoc _ _ _ _ Hf) as (w & xa & es & Hd & _).
    destruct (walk_join r' [leaf] MAXSYMLINKS _ _ _ Hw
                (ex_intro _ w (ex_intro _ xa (ex_intro _ es Hd))))
      as (b2 & ->).
    destruct (good_name_elim _ Hg) as (E1 & E2 & _).
    rewrite walk_cons, E1, E2, Hf.
    destruct n'; try discriminate; first [reflexivity|apply walk_nil].
Qed.

(** X15.  GET returns what PUT stored.  When PUT (to an existing file, or
    to a new one under a directory that resolves) is sent the bytes it
    announced, with room for them on the volume, it is answered 201 Created
    and a following GET of the same request path is answered 200 OK with the
    stored contents as body and their length as Content-Length: the body of
    the PUT, followed by what the old file had beyond it. *)
Theorem put_then_get (env : environ) (udav : uwsgi_webdav)
  (req greq : wsgi_request) (fs : filesys) (filename : string) :
  is_dir (root fs) = true ->
  (uwsgi_webdav_expand_path fs (app req) (path_info req) = Some filename
   \/ (uwsgi_webdav_expand_path fs (app req) (path_info req) = None
       /\ uwsgi_webdav_expand_fake_path fs (app req) (path_info req)
          = Some filename
       /\ stat fs filename = None)) ->
  open_wronly_creat fs filename <> None ->
  post_pos req = 0 ->
  post_cl req <= String.length (body_in req) ->
  post_cl req <= avail fs ->
  app greq = app req -> path_info greq = path_info req ->
  (forall p, may_read env p = true) ->
  let stored :=
    (announced req ++ drop_str (post_cl req) (data_of (stat fs filename)))%string in
  exists req' fs' full,
    uwsgi_wevdav_manage_put req fs = Some (req', fs')
    /\ final_status req' = "201 Created"
    /\ uwsgi_wevdav_manage_get env udav greq fs' true = Some full
    /\ final_status full = "200 OK"
    /\ assoc "Content-Length" (headers (resp full))
       = Some (uwsgi_num2str (String.length stored))
    /\ body_out (resp full) = (body_out (resp greq) ++ stored)%string.
Proof.
  intros Hroot Hres Hopen Hpos Hcl Hroom Happ Hpi Hread stored.
  destruct (open_wronly_creat fs filename) as [[fd fs1]|] eqn:Eo;
    [clear Hopen|congruence].
  assert (Hres' :
            uwsgi_webdav_expand_path fs (app req) (path_info req) = Some filename
            \/ (uwsgi_webdav_expand_path fs (app req) (path_info req) = None
                /\ uwsgi_webdav_expand_fake_path fs (app req) (path_info req)
                   = Some filename))
    by (destruct Hres as [H|(H1 & H2 & _)]; auto).
  destruct (put_outcome _ _ _ _ _ Hres' Eo Hpos Hcl Hroom)
    as (req' & fs' & Hput & Hst & Hn & Hf & Hmono & _).
  assert (Hget : exists f',
             uwsgi_webdav_expand_path fs' (app greq) (path_info greq) = Some f'
             /\ namei fs' f' = Some (fd_path fd)).
  { rewrite Happ, Hpi. destruct Hres as [Hs|(_ & Hfake & Hnone)].
    - exists filename. split; [|exact Hn].
      unfold uwsgi_webdav_expand_path, realpath, namei in *.
      destruct (is_absolute _); [|discriminate].
      destruct (walk (root fs) _ _ _) as [q|] eqn:Hw; [|discriminate].
      rewrite (walk_grow _ _ Hmono _ _ _ _ Hw). exact Hs.
    - destruct (fake_path_parts _ _ _ _ Hroot Hfake)
        as (pre & leaf & r1 & Hitem & Hleaf & Habs & Hw & Hc & Hfn).
      (* the file is new: the descriptor is at its name under the parent *)
      assert (Hfd : fd_path fd = r1 ++ [leaf] /\ good_name leaf = true).
      { unfold open_wronly_creat in Eo. unfold stat in Hnone.
        destruct (namei fs filename) as [q|].
        - rewrite Hnone in Eo. discriminate.
        - destruct (parent_leaf fs filename) as [[pp l]|] eqn:Hpl;
            [|discriminate].
          rewrite Hfn in Hpl.
          destruct (parent_leaf_canonical _ _ _ _ _ Hc Hleaf Hpl)
            as (-> & -> & Hg).
          destruct (find_node (root fs) r1) as [[| |[|] ? es]|];
            try discriminate.
          destruct (assoc leaf es); [discriminate|].
          destruct (alter _ _ _); [|discriminate].
          inversion Eo; subst. auto. }
      destruct Hfd as [Hfd Hg]. rewrite Hfd in *.
      destruct (leaf_resolves (root fs') (interpreter (app req)) pre leaf r1 _
                  Habs (walk_grow _ _ Hmono _ _ _ _ Hw) Hleaf Hg Hf eq_refl)
        as [Habs' Hw'].
      exists (render (r1 ++ [leaf])). split.
      + unfold uwsgi_webdav_expand_path, realpath, namei.
        rewrite Hitem, Habs', Hw'. reflexivity.
      + apply namei_render. split; [|eauto].
        apply Forall_app. split; [apply Hc|]. repeat constructor. exact Hg. }
  destruct Hget as (f' & Hx & Hn').
  destruct (get_file_outcome env udav greq fs' f' _ _ _ _ Hx Hn' Hf (Hread _))
    as (full & Hfull & Hs200 & Hlen & Hbody).
  exists req', fs', full. auto 10.
Qed.

Lemma put_then_get_witness :
  exists req' fs' full,
    uwsgi_wevdav_manage_put (Sample.request "/n.txt" [] "hello") Sample.fs
    = Some (req', fs')
    /\ uwsgi_wevdav_manage_get SampleEnv.env SampleEnv.udav
         (Sample.request "/n.txt" [] "") fs' true = Some full
    /\ body_out (resp full) = "hello".
Proof.
  destruct (put_then_get SampleEnv.env SampleEnv.udav
              (Sample.request "/n.txt" [] "hello")
              (Sample.request "/n.txt" [] "") Sample.fs "/srv/dav/n.txt")
    as (req' & fs' & full & Hput & _ & Hget & _ & _ & Hbody).
  - reflexivity.
  - right. repeat split; reflexivity.
  - vm_compute. discriminate.
  - reflexivity.
  - simpl. lia.
  - simpl. lia.
  - reflexivity.
  - reflexivity.
  - reflexivity.
  - exists req', fs', full. split; [exact Hput|]. split; [exact Hget|exact Hbody].
Defined.

(** * PROPFIND and PROPPATCH: the request documents *)

Lemma propfind_kind_skip (skipped rest : list xmlNode) :
  propfind_kind skipped = None ->
  propfind_kind (skipped ++ rest) = propfind_kind rest.
Proof.
  induction skipped as [|x skipped IH]; intros H; [reflexivity|].
  rewrite <- app_comm_cons. simpl in *.
  destruct x as [ns name kids|c|c]; auto.
  destruct (in_dav ns); auto.
  destruct (String.eqb name "prop" || String.eqb name "allprop");
    [discriminate|].
  destruct (String.eqb name "propname"); [discriminate|auto].
Qed.

(** X16.  PROPFIND does not read the names asked for.  A request document
    whose root element is named propfind is scanned for its first DAV:
    child named prop, allprop or propname, whatever else stands before it.
    With prop or allprop the answer is the answer to the request without a
    body, whatever the children of prop are; with propname it is the listing
    of names; without such a child it is 207 Multi-Status with no body.  A
    document with another root element gets -1 and no response. *)
Theorem propfind_request_document (xml : libxml2) (req : wsgi_request)
  (fs : filesys) (filename : string) (rns : option string) (root_name : string)
  (skipped rest asked : list xmlNode) (name : string) :
  uwsgi_webdav_expand_path fs (app req) (path_info req) = Some filename ->
  propfind_kind skipped = None ->
  let doc children := Some [XML_ELEMENT_NODE rns root_name children] in
  let head :=
    uwsgi_response_add_content_type
      (uwsgi_response_prepare_headers req "207 Multi-Status")
      xml_content_type in
  (root_name <> "propfind" ->
   uwsgi_wevdav_manage_propfind xml req fs (doc rest) = Some ((-1)%Z, req))
  /\ (root_name = "propfind" ->
      (name = "prop" \/ name = "allprop" ->
       uwsgi_wevdav_manage_propfind xml req fs
         (doc (skipped ++ XML_ELEMENT_NODE DAV name asked :: rest))
       = uwsgi_wevdav_manage_propfind xml req fs None)
      /\ (uwsgi_wevdav_manage_propfind xml req fs
            (doc (skipped ++ XML_ELEMENT_NODE DAV "propname" asked :: rest))
          = option_map
              (fun ms => (UWSGI_OK, send_rdoc xml head (Multistatus ms)))
              (uwsgi_webdav_manage_prop head fs filename false))
      /\ uwsgi_wevdav_manage_propfind xml req fs (doc skipped)
         = Some (UWSGI_OK, head)).
Proof.
  intros Hx Hskip doc head. unfold uwsgi_wevdav_manage_propfind. rewrite Hx.
  unfold doc. cbn [xmlDocGetRootElement find is_element].
  split.
  - intros Hn. apply String.eqb_neq in Hn. rewrite Hn. reflexivity.
  - intros ->. cbn [String.eqb Ascii.eqb Bool.eqb negb].
    change (String.eqb "propfind" "propfind") with true. cbv iota.
    rewrite !(propfind_kind_skip _ _ Hskip), Hskip. fold head.
    split; [|split].
    + intros [-> | ->]; reflexivity.
    + cbn [propfind_kind in_dav DAV]. change (String.eqb "DAV:" "DAV:") with true.
      change (String.eqb "propname" "prop" || String.eqb "propname" "allprop")
        with false.
      change (String.eqb "propname" "propname") with true. cbv iota.
      destruct (uwsgi_webdav_manage_prop head fs filename false); reflexivity.
    + reflexivity.
Qed.

Lemma propfind_request_document_witness :
  uwsgi_wevdav_manage_propfind SampleXml.xml (Sample.request "/a.txt" [] "")
    Sample.fs
    (Some [XML_ELEMENT_NODE DAV "propfind"
             [XML_TEXT_NODE " ";
              XML_ELEMENT_NODE DAV "prop"
                [XML_ELEMENT_NODE (Some "X") "foo" []]]])
  = uwsgi_wevdav_manage_propfind SampleXml.xml (Sample.request "/a.txt" [] "")
      Sample.fs None.
Proof.
  apply (proj1 (proj2 (propfind_request_document SampleXml.xml
                         (Sample.request "/a.txt" [] "") Sample.fs
                         "/srv/dav/a.txt" DAV "propfind" [XML_TEXT_NODE " "] []
                         [XML_ELEMENT_NODE (Some "X") "foo" []] "prop"
                         eq_refl eq_refl) eq_refl)).
  left. reflexivity.
Defined.

(** A PROPPATCH with one instruction for one property. *)
Lemma proppatch_single (xml : libxml2) (req : wsgi_request) (fs : filesys)
  (filename : string) (ns : option string) (name : string)
  (kids : list xmlNode) :
  uwsgi_webdav_expand_path fs (app req) (path_info req) = Some filename ->
  let head :=
    uwsgi_response_add_content_type
      (uwsgi_response_prepare_headers req "207 Multi-Status")
      xml_content_type in
  let answer ret :=
    send_rdoc xml head
      (MultistatusUpdate (path_info req)
         [mkpropstat (mkprop (element_ns ns) name None) (Some (update_status req ret))]) in
  uwsgi_wevdav_manage_proppatch xml req fs (update_doc "set" ns name kids)
  = match first_content kids with
    | None => None
    | Some body =>
        Some (UWSGI_OK,
              answer (fst (uwsgi_webdav_prop_set fs filename name ns body)),
              snd (uwsgi_webdav_prop_set fs filename name ns body))
    end
  /\ uwsgi_wevdav_manage_proppatch xml req fs (update_doc "remove" ns name kids)
     = Some (UWSGI_OK,
             answer (fst (uwsgi_webdav_prop_del fs filename name ns)),
             snd (uwsgi_webdav_prop_del fs filename name ns)).
Proof.
  intros Hx head answer. unfold uwsgi_wevdav_manage_proppatch, update_doc.
  rewrite Hx. cbn [xmlDocGetRootElement find is_element].
  change (String.eqb "propertyupdate" "propertyupdate") with true.
  cbn [negb]. cbv iota. fold head.
  cbn [proppatch_loop in_dav DAV].
  change (String.eqb "DAV:" "DAV:") with true.
  change (String.eqb "set" "set") with true.
  change (String.eqb "remove" "set") with false.
  change (String.eqb "remove" "remove") with true.
  cbv iota.
  cbn [uwsgi_webdav_manage_prop_update in_dav DAV andb].
  change (String.eqb "DAV:" "DAV:") with true.
  change (String.eqb "prop" "prop") with true.
  cbv iota. cbn [andb]. cbv iota.
  cbn [uwsgi_webdav_do_prop_update Nat.eqb List.app]. split.
  - destruct (first_content kids) as [body|]; [|reflexivity].
    destruct (uwsgi_webdav_prop_set fs filename name ns body) as [ret fs'].
    reflexivity.
  - destruct (uwsgi_webdav_prop_del fs filename name ns) as [ret fs'].
    reflexivity.
Qed.

(** A change of attributes leaves every path where it led. *)
Lemma prop_set_keeps_paths (fs fs' : filesys) (filename attr : string)
  (ns : option string) (body : string) :
  uwsgi_webdav_prop_set fs filename attr ns body = (0%Z, fs') ->
  forall b cs stack,
    walk (root fs') b stack cs = walk (root fs) b stack cs.
Proof.
  unfold uwsgi_webdav_prop_set, setxattr. intros H.
  destruct (_ || _ || _); [discriminate|].
  destruct (namei fs filename) as [p|]; [|discriminate].
  rewrite alter_spec in H.
  destruct (find_node (root fs) p) as [n|] eqn:Hf; [|discriminate].
  destruct (with_xattrs _ n) as [n'|] eqn:Hw; [|discriminate].
  inversion H; subst fs'; clear H.
  destruct (with_xattrs_inv _ _ _ Hw) as (xa & xa' & Hx & Hfx & ->).
  apply walk_kind_ext. intros s. cbn [root set_root].
  eapply find_replace_kind; eauto; destruct n; reflexivity.
Qed.

(** X17.  A property PROPPATCH has set is there for PROPFIND.  Setting one
    property to a value that is not empty on a target that resolves, when
    the attribute can be stored, is answered 207 Multi-Status with one
    propstat of status 200 OK on the request's protocol; a PROPFIND of
    Depth 0 on the same path, with no body, then answers with one response
    whose properties hold that name and value under the namespace of the
    element: the one it was set with, or DAV:, which an element made
    without a namespace takes from its parent.  (The namespace has no '|';
    without a namespace the name has none.) *)
Theorem proppatch_then_propfind (xml : libxml2) (req preq : wsgi_request)
  (fs fs' : filesys) (filename : string) (n : node) (xa : xattrs)
  (ns : option string) (name value : string) :
  uwsgi_webdav_expand_path fs (app req) (path_info req) = Some filename ->
  stat fs filename = Some n -> node_xattrs n = Some xa -> wf_xattrs xa ->
  has_char NUL name = false ->
  (forall s, ns = Some s -> has_char NUL s = false /\ has_char pipe s = false) ->
  (ns = None -> has_char pipe name = false) ->
  value <> EmptyString ->
  uwsgi_webdav_prop_set fs filename name ns value = (0%Z, fs') ->
  app preq = app req -> path_info preq = path_info req ->
  (forall d, uwsgi_get_var preq "HTTP_DEPTH" = Some d -> uwsgi_str_num d = 0%Z) ->
  exists req' preq' props,
    uwsgi_wevdav_manage_proppatch xml req fs
      (update_doc "set" ns name [XML_TEXT_NODE value])
    = Some (UWSGI_OK, req', fs')
    /\ final_status req' = "207 Multi-Status"
    /\ body_out (resp req')
       = (body_out (resp req)
          ++ xmlDocDumpFormatMemory xml
               (MultistatusUpdate (path_info req)
                  [mkpropstat (mkprop (element_ns ns) name None)
                     (Some (protocol req ++ " 200 OK"))]))%string
    /\ uwsgi_wevdav_manage_propfind xml preq fs' None = Some (UWSGI_OK, preq')
    /\ final_status preq' = "207 Multi-Status"
    /\ body_out (resp preq')
       = (body_out (resp preq)
          ++ xmlDocDumpFormatMemory xml
               (Multistatus
                  [mkdavresp (path_info preq) (protocol preq ++ " 200 OK")
                     props]))%string
    /\ In (mkprop (element_ns ns) name (Some value)) props.
Proof.
  intros Hx Hst Hxa Hwf Hname Hns Hpipe Hval Hset Happ Hpi Hdepth.
  destruct (proppatch_single xml req fs filename ns name [XML_TEXT_NODE value] Hx)
    as [Hpatch _].
  cbn [first_content] in Hpatch. rewrite Hset in Hpatch. cbn [fst snd] in Hpatch.
  destruct (prop_set_listed _ _ _ _ _ _ _ _ Hst Hxa Hwf Hname Hns Hpipe Hval Hset)
    as [Hin Hget].
  assert (Hx' : uwsgi_webdav_expand_path fs' (app preq) (path_info preq)
                = Some filename).
  { rewrite Happ, Hpi, <- Hx. unfold uwsgi_webdav_expand_path, realpath, namei.
    destruct (is_absolute _); [|reflexivity].
    rewrite (prop_set_keeps_paths _ _ _ _ _ _ Hset). reflexivity. }
  assert (Hst' : exists st', stat fs' filename = Some st').
  { unfold getxattr in Hget. destruct (stat fs' filename); [eauto|discriminate]. }
  destruct Hst' as (st' & Hst').
  set (head := uwsgi_response_add_content_type
                 (uwsgi_response_prepare_headers preq "207 Multi-Status")
                 xml_content_type).
  eexists. exists (send_rdoc xml head
                     (Multistatus
                        [mkdavresp (path_info preq) (protocol preq ++ " 200 OK")
                           (live_props (path_info preq) st' true
                            ++ dead_props fs' filename true)])).
  eexists. split; [exact Hpatch|]. split; [apply (final_status_prepare req)|].
  split; [reflexivity|]. split; [|split; [apply (final_status_prepare preq)|]].
  - unfold uwsgi_wevdav_manage_propfind. rewrite Hx'. cbv iota. fold head.
    unfold uwsgi_webdav_manage_prop.
    replace (match uwsgi_get_var head "HTTP_DEPTH" with
             | Some http_depth => uwsgi_str_num http_depth
             | None => 0%Z
             end) with 0%Z.
    + cbn [Z.eqb]. unfold uwsgi_webdav_add_props. rewrite Hst'. reflexivity.
    + change (uwsgi_get_var head "HTTP_DEPTH")
        with (uwsgi_get_var preq "HTTP_DEPTH").
      destruct (uwsgi_get_var preq "HTTP_DEPTH") as [d|] eqn:Ed;
        [symmetry; apply Hdepth; reflexivity|reflexivity].
  - split; [reflexivity|]. apply in_or_app. right. exact Hin.
Qed.

Lemma proppatch_then_propfind_witness :
  exists fs' preq' props,
    uwsgi_wevdav_manage_propfind SampleXml.xml (Sample.request "/a.txt" [] "")
      fs' None = Some (UWSGI_OK, preq')
    /\ body_out (resp preq')
       = xmlDocDumpFormatMemory SampleXml.xml
           (Multistatus [mkdavresp "/a.txt" "HTTP/1.1 200 OK" props])
    /\ In (mkprop (Some "X") "foo" (Some "bar")) props.
Proof.
  destruct (uwsgi_webdav_prop_set Sample.fs "/srv/dav/a.txt" "foo" (Some "X")
              "bar") as [ret fs'] eqn:Eset.
  assert (Hret : ret = 0%Z) by (vm_compute in Eset; congruence).
  subst ret.
  destruct (proppatch_then_propfind SampleXml.xml
              (Sample.request "/a.txt" [] "") (Sample.request "/a.txt" [] "")
              Sample.fs fs' "/srv/dav/a.txt" (File true "hello" []) []
              (Some "X") "foo" "bar" eq_refl eq_refl eq_refl)
    as (req' & preq' & props & _ & _ & _ & Hfind & _ & Hbody & Hin).
  - split; constructor.
  - reflexivity.
  - intros s Hs. inversion Hs; subst. split; reflexivity.
  - discriminate.
  - discriminate.
  - exact Eset.
  - reflexivity.
  - reflexivity.
  - discriminate.
  - exists fs', preq', props. split; [exact Hfind|]. split; [exact Hbody|exact Hin].
Defined.

(** Removing an attribute that is not there fails. *)
Lemma prop_del_absent (fs : filesys) (filename attr : string)
  (ns : option string) :
  getxattr fs filename (xattr_name_of ns attr) = None ->
  uwsgi_webdav_prop_del fs filename attr ns = ((-1)%Z, fs).
Proof.
  unfold uwsgi_webdav_prop_del, removexattr, getxattr, stat. intros H.
  destruct (namei fs filename) as [p|]; [|reflexivity].
  rewrite alter_spec.
  destruct (find_node (root fs) p) as [[[|] d xa|t|[|] xa es]|];
    try reflexivity; simpl in H |- *; rewrite H; reflexivity.
Qed.

(** X18.  PROPPATCH refuses to remove what is not there: a remove of a
    property the target does not carry is answered 207 Multi-Status with
    the one propstat of status 403 Forbidden, and nothing is changed. *)
Theorem proppatch_remove_absent (xml : libxml2) (req : wsgi_request)
  (fs : filesys) (filename : string) (ns : option string) (name : string)
  (kids : list xmlNode) :
  uwsgi_webdav_expand_path fs (app req) (path_info req) = Some filename ->
  getxattr fs filename (xattr_name_of ns name) = None ->
  exists req',
    uwsgi_wevdav_manage_proppatch xml req fs (update_doc "remove" ns name kids)
    = Some (UWSGI_OK, req', fs)
    /\ final_status req' = "207 Multi-Status"
    /\ body_out (resp req')
       = (body_out (resp req)
          ++ xmlDocDumpFormatMemory xml
               (MultistatusUpdate (path_info req)
                  [mkpropstat (mkprop (element_ns ns) name None)
                     (Some (protocol req ++ " 403 Forbidden"))]))%string.
Proof.
  intros Hx Hget.
  destruct (proppatch_single xml req fs filename ns name kids Hx) as [_ Hpatch].
  rewrite (prop_del_absent _ _ _ _ Hget) in Hpatch. cbn [fst snd] in Hpatch.
  eexists. split; [exact Hpatch|].
  split; [apply (final_status_prepare req)|reflexivity].
Qed.

Lemma proppatch_remove_absent_witness :
  exists req',
    uwsgi_wevdav_manage_proppatch SampleXml.xml (Sample.request "/a.txt" [] "")
      Sample.fs (update_doc "remove" (Some "X") "foo" [])
    = Some (UWSGI_OK, req', Sample.fs)
    /\ final_status req' = "207 Multi-Status".
Proof.
  destruct (proppatch_remove_absent SampleXml.xml (Sample.request "/a.txt" [] "")
              Sample.fs "/srv/dav/a.txt" (Some "X") "foo" [] eq_refl eq_refl)
    as (req' & H & Hs & _).
  exists req'. split; [exact H|exact Hs].
Defined.

(** An attribute that was stored can be read. *)
Lemma prop_set_stored (fs fs' : filesys) (filename attr : string)
  (ns : option string) (body : string) :
  uwsgi_webdav_prop_set fs filename attr ns body = (0%Z, fs') ->
  getxattr fs' filename (xattr_name_of ns attr) = Some body.
Proof.
  unfold uwsgi_webdav_prop_set, setxattr. intros H.
  destruct (_ || _ || _); [discriminate|].
  destruct (namei fs filename) as [p|] eqn:Hn; [|discriminate].
  destruct (alter _ (root fs) p) as [r'|] eqn:Ha; [|discriminate].
  inversion H; subst fs'; clear H.
  destruct (xattr_update _ _ _ _ _ Hn Ha)
    as (n0 & xa0 & xa' & Hst0 & Hx0 & Hf & Hst1).
  inversion Hf; subst xa'. unfold getxattr.
  rewrite Hst1, (node_xattrs_put _ _ _ Hx0). apply assoc_set_assoc_same.
Qed.

Lemma prop_set_failed (fs : filesys) (filename attr : string)
  (ns : option string) (body : string) :
  fst (uwsgi_webdav_prop_set fs filename attr ns body) <> 0%Z ->
  uwsgi_webdav_prop_set fs filename attr ns body = ((-1)%Z, fs).
Proof.
  unfold uwsgi_webdav_prop_set.
  destruct (setxattr _ _ _ _); simpl; [congruence|reflexivity].
Qed.

(** X19.  PROPPATCH is not all or nothing.  When the first of two
    properties of one set instruction is stored and the second is refused,
    the answer is 207 Multi-Status with the statuses 200 OK and 403
    Forbidden in that order, and the first property stays stored: the
    resulting tree is the one after the first set. *)
Theorem proppatch_not_atomic (xml : libxml2) (req : wsgi_request)
  (fs fs1 : filesys) (filename : string)
  (ns1 ns2 : option string) (name1 name2 v1 v2 : string) :
  uwsgi_webdav_expand_path fs (app req) (path_info req) = Some filename ->
  uwsgi_webdav_prop_set fs filename name1 ns1 v1 = (0%Z, fs1) ->
  fst (uwsgi_webdav_prop_set fs1 filename name2 ns2 v2) <> 0%Z ->
  exists req',
    uwsgi_wevdav_manage_proppatch xml req fs
      [XML_ELEMENT_NODE DAV "propertyupdate"
         [XML_ELEMENT_NODE DAV "set"
            [XML_ELEMENT_NODE DAV "prop"
               [XML_ELEMENT_NODE ns1 name1 [XML_TEXT_NODE v1];
                XML_ELEMENT_NODE ns2 name2 [XML_TEXT_NODE v2]]]]]
    = Some (UWSGI_OK, req', fs1)
    /\ final_status req' = "207 Multi-Status"
    /\ body_out (resp req')
       = (body_out (resp req)
          ++ xmlDocDumpFormatMemory xml
               (MultistatusUpdate (path_info req)
                  [mkpropstat (mkprop (element_ns ns1) name1 None)
                     (Some (protocol req ++ " 200 OK"));
                   mkpropstat (mkprop (element_ns ns2) name2 None)
                     (Some (protocol req ++ " 403 Forbidden"))]))%string
    /\ getxattr fs1 filename (xattr_name_of ns1 name1) = Some v1.
Proof.
  intros Hx Hset1 Hset2.
  pose proof (prop_set_failed _ _ _ _ _ Hset2) as Hfail.
  unfold uwsgi_wevdav_manage_proppatch. rewrite Hx.
  cbn [xmlDocGetRootElement find is_element].
  change (String.eqb "propertyupdate" "propertyupdate") with true.
  cbn [negb]. cbv iota.
  cbn [proppatch_loop in_dav DAV].
  change (String.eqb "DAV:" "DAV:") with true.
  change (String.eqb "set" "set") with true. cbv iota.
  cbn [uwsgi_webdav_manage_prop_update in_dav DAV andb].
  change (String.eqb "DAV:" "DAV:") with true.
  change (String.eqb "prop" "prop") with true. cbv iota. cbn [andb]. cbv iota.
  cbn [uwsgi_webdav_do_prop_update Nat.eqb first_content].
  rewrite Hset1, Hfail. cbn [List.app].
  eexists. split; [reflexivity|].
  split; [apply (final_status_prepare req)|].
  split; [reflexivity|]. exact (prop_set_stored _ _ _ _ _ _ Hset1).
Qed.

Lemma proppatch_not_atomic_witness :
  exists req' fs1,
    uwsgi_wevdav_manage_proppatch SampleXml.xml (Sample.request "/a.txt" [] "")
      Sample.fs
      [XML_ELEMENT_NODE DAV "propertyupdate"
         [XML_ELEMENT_NODE DAV "set"
            [XML_ELEMENT_NODE DAV "prop"
               [XML_ELEMENT_NODE (Some "X") "foo" [XML_TEXT_NODE "bar"];
                XML_ELEMENT_NODE None SampleXml.long_name
                  [XML_TEXT_NODE "v"]]]]]
    = Some (UWSGI_OK, req', fs1)
    /\ getxattr fs1 "/srv/dav/a.txt" (xattr_name_of (Some "X") "foo")
       = Some "bar".
Proof.
  destruct (uwsgi_webdav_prop_set Sample.fs "/srv/dav/a.txt" "foo" (Some "X")
              "bar") as [ret fs1] eqn:Eset.
  assert (Hret : ret = 0%Z) by (vm_compute in Eset; congruence).
  subst ret.
  destruct (proppatch_not_atomic SampleXml.xml (Sample.request "/a.txt" [] "")
              Sample.fs fs1 "/srv/dav/a.txt" (Some "X") None "foo"
              SampleXml.long_name "bar" "v" eq_refl Eset)
    as (req' & H & _ & _ & Hget).
  - vm_compute in Eset. inversion Eset; subst fs1. vm_compute. discriminate.
  - exists req', fs1. split; [exact H|exact Hget].
Defined.


(** * The request hook *)

Lemma answered_prepare (req r0 : wsgi_request) (status : string) :
  statuses (resp r0) = statuses (resp req) ->
  answered req (uwsgi_response_prepare_headers r0 status).
Proof.
  intros H. exists [status]. split; [discriminate|]. simpl. rewrite H.
  reflexivity.
Qed.

Lemma answered_same (req r1 r2 : wsgi_request) :
  answered req r1 -> statuses (resp r2) = statuses (resp r1) -> answered req r2.
Proof. intros (added & Hne & H) E. exists added. rewrite E. auto. Qed.

Lemma get_body_loop_statuses (fs : filesys) (fuel : nat) :
  forall remains fd req req',
    get_body_loop fuel remains fs fd req = Some req' ->
    statuses (resp req') = statuses (resp req).
Proof.
  induction fuel as [|fuel IH]; intros remains fd req req' H; [discriminate|].
  rewrite get_body_loop_step in H.
  destruct (Nat.ltb 0 remains); [|inversion H; reflexivity].
  destruct (read fs fd _) as [[rlen buf] fd'].
  destruct (Z.leb rlen 0); [inversion H; reflexivity|].
  rewrite (IH _ _ _ _ H). reflexivity.
Qed.

Lemma get_answers (env : environ) (udav : uwsgi_webdav) (req req' : wsgi_request)
  (fs : filesys) (send_body : bool) :
  uwsgi_wevdav_manage_get env udav req fs send_body = Some req' ->
  answered req req'.
Proof.
  unfold uwsgi_wevdav_manage_get. intros H.
  destruct (uwsgi_webdav_expand_path _ _ _) as [filename|];
    [|inversion H; apply answered_prepare; reflexivity].
  destruct (uwsgi_is_dir fs filename).
  - inversion H; subst req'; clear H.
    destruct send_body; [|apply answered_prepare; reflexivity].
    eapply answered_same; [apply (answered_prepare req req "200 OK"); reflexivity|].
    unfold uwsgi_webdav_dirlist. destruct (scandir _ _ _); reflexivity.
  - destruct (open_rdonly env fs filename) as [fd|];
      [|inversion H; apply answered_prepare; reflexivity].
    destruct (fstat fs fd) as [st|];
      [|inversion H; apply answered_prepare; reflexivity].
    eapply answered_same; [apply (answered_prepare req req "200 OK"); reflexivity|].
    destruct send_body.
    + rewrite (get_body_loop_statuses _ _ _ _ _ _ H).
      destruct (uwsgi_get_mime_type env filename); reflexivity.
    + inversion H. destruct (uwsgi_get_mime_type env filename); reflexivity.
Qed.

Lemma put_answers (req req' : wsgi_request) (fs fs' : filesys) :
  uwsgi_wevdav_manage_put req fs = Some (req', fs') -> answered req req'.
Proof.
  unfold uwsgi_wevdav_manage_put. intros H.
  destruct (match uwsgi_webdav_expand_path fs (app req) (path_info req) with
            | Some f => Some f
            | None => uwsgi_webdav_expand_fake_path fs (app req) (path_info req)
            end) as [filename|];
    [|inversion H; apply answered_prepare; reflexivity].
  destruct (open_wronly_creat fs filename) as [[fd fs1]|];
    [|inversion H; apply answered_prepare; reflexivity].
  destruct (put_body_loop_total (post_cl req + 2) (post_cl req)
              (uwsgi_response_prepare_headers req "201 Created") fd fs1)
    as (r & f & Hl & Hr); [simpl; lia|].
  rewrite Hl in H. inversion H; subst r f.
  eapply answered_same; [apply (answered_prepare req req "201 Created"); reflexivity|].
  rewrite Hr. reflexivity.
Qed.

Lemma delete_answers (req req' : wsgi_request) (fs fs' : filesys) :
  uwsgi_wevdav_manage_delete req fs = Some (req', fs') -> answered req req'.
Proof.
  unfold uwsgi_wevdav_manage_delete. intros H.
  destruct (uwsgi_webdav_expand_path _ _ _) as [filename|];
    [|inversion H; apply answered_prepare; reflexivity].
  destruct (uwsgi_is_dir fs filename).
  - destruct (rmdir fs filename) as [f|[| | |]];
      try (inversion H; apply answered_prepare; reflexivity).
    destruct (uwsgi_webdav_massive_delete _ fs filename) as [[[ret f] log]|];
      [|discriminate].
    destruct (Z.eqb ret 0); inversion H; apply answered_prepare; reflexivity.
  - destruct (unlink fs filename);
      inversion H; apply answered_prepare; reflexivity.
Qed.

Lemma mkcol_answers (req : wsgi_request) (fs : filesys) :
  answered req (fst (uwsgi_wevdav_manage_mkcol req fs)).
Proof.
  unfold uwsgi_wevdav_manage_mkcol.
  destruct (Nat.ltb 0 (post_cl req)); [apply answered_prepare; reflexivity|].
  destruct (uwsgi_webdav_expand_path _ _ _);
    [apply answered_prepare; reflexivity|].
  set (req1 := if Nat.ltb 1 (String.length (path_info req))
                   && ends_with_slash (path_info req)
                then set_path_info req
                       (substring 0 (String.length (path_info req) - 1)
                          (path_info req))
                else req).
  assert (H1 : statuses (resp req1) = statuses (resp req))
    by (unfold req1; destruct (_ && _); reflexivity).
  destruct (uwsgi_webdav_expand_fake_path _ _ _) as [filename|];
    [|apply answered_prepare; exact H1].
  destruct (mkdir fs filename); cbn [fst].
  - apply answered_prepare; exact H1.
  - exists ["409 Conflict"; "201 Created"]. split; [discriminate|].
    simpl. rewrite H1, <- app_assoc. reflexivity.
Qed.

Lemma move_answers (req : wsgi_request) (fs : filesys)
  (o : wsgi_request * filesys) :
  uwsgi_wevdav_manage_move req fs = Some o -> answered req (fst o).
Proof.
  intros E.
  destruct (move_cases req fs) as [(o' & E' & Hres)|(E' & _)]; [|congruence].
  rewrite E in E'. inversion E'; subst o'.
  destruct Hres as [H|[H|[H|[H|(f & d & fs' & _ & _ & [H|H])]]]];
    rewrite H; apply answered_prepare; reflexivity.
Qed.

(** What the hook returns for one of the seven methods. *)
Lemma request_answered_if (env : environ) (xml : libxml2)
  (udav : uwsgi_webdav) (core : core_request) (cache cache' : lock_cache)
  (req req' : wsgi_request) (fs fs' : filesys) (ret : Z) :
  mountpoints udav <> [] ->
  parse_vars_ok core = true ->
  In (method core) answering_methods ->
  uwsgi_webdav_request env xml udav core cache req fs
  = Some (ret, req', fs', cache') ->
  ret = UWSGI_OK /\ cache' = cache /\ answered req req'.
Proof.
  intros Hm Hp Hin H. unfold uwsgi_webdav_request in H.
  destruct (mountpoints udav); [congruence|]. rewrite Hp in H. cbn [negb] in H.
  destruct (Nat.eqb (String.length (path_info req)) 0).
  { inversion H. repeat split. apply answered_prepare. reflexivity. }
  destruct (app_of_request core) as [ua|].
  2:{ inversion H. repeat split. apply answered_prepare. reflexivity. }
  set (req0 := set_app req ua) in *.
  assert (H0 : forall r, answered req0 r -> answered req r) by (intros r Hr; exact Hr).
  unfold method_is in H.
  simpl in Hin.
  destruct Hin as [E|[E|[E|[E|[E|[E|[E|[]]]]]]]]; rewrite <- E in H;
    cbn [String.eqb Ascii.eqb Bool.eqb andb] in H.
  - inversion H. repeat split. apply H0.
    eapply answered_same;
      [apply (answered_prepare req0 req0 "200 OK"); reflexivity|reflexivity].
  - destruct (uwsgi_wevdav_manage_get env udav req0 fs true) as [r|] eqn:Eg;
      [|discriminate]. inversion H; subst. repeat split.
    apply H0. exact (get_answers _ _ _ _ _ _ Eg).
  - destruct (uwsgi_wevdav_manage_get env udav req0 fs false) as [r|] eqn:Eg;
      [|discriminate]. inversion H; subst. repeat split.
    apply H0. exact (get_answers _ _ _ _ _ _ Eg).
  - destruct (uwsgi_wevdav_manage_put req0 fs) as [[r f]|] eqn:Eg;
      [|discriminate]. inversion H; subst. repeat split.
    apply H0. exact (put_answers _ _ _ _ Eg).
  - destruct (uwsgi_wevdav_manage_delete req0 fs) as [[r f]|] eqn:Eg;
      [|discriminate]. inversion H; subst. repeat split.
    apply H0. exact (delete_answers _ _ _ _ Eg).
  - inversion H; subst. repeat split. apply H0. apply mkcol_answers.
  - destruct (uwsgi_wevdav_manage_move req0 fs) as [o|] eqn:Eg;
      [|discriminate]. inversion H; subst. repeat split.
    apply H0. exact (move_answers _ _ _ Eg).
Qed.

Lemma get_total (env : environ) (udav : uwsgi_webdav) (req : wsgi_request)
  (fs : filesys) (send_body : bool) :
  exists req', uwsgi_wevdav_manage_get env udav req fs send_body = Some req'.
Proof.
  unfold uwsgi_wevdav_manage_get.
  destruct (uwsgi_webdav_expand_path _ _ _) as [filename|]; [|eauto].
  destruct (uwsgi_is_dir fs filename); [eauto|].
  destruct (open_rdonly env fs filename) as [fd|] eqn:Eo; [|eauto].
  unfold fstat.
  destruct (find_node (root fs) (fd_path fd)) as [st|] eqn:Ef; [|eauto].
  destruct send_body; [|eauto].
  assert (Hfd : fd = mkfd (fd_path fd) 0).
  { unfold open_rdonly in Eo. destruct (namei fs filename); [|discriminate].
    destruct (may_read env l); inversion Eo. reflexivity. }
  destruct st as [w d xa|t|w xa es];
    [|cbn [st_size Nat.add]; rewrite get_body_loop_step;
      change (Nat.ltb 0 0) with false; cbv iota; eauto ..].
  rewrite Hfd.
  set (head := match uwsgi_get_mime_type env filename with
               | Some mime_type => uwsgi_response_add_content_type _ mime_type
               | None => _
               end).
  destruct (get_body_loop_sends fs (fd_path fd) w d xa Ef (String.length d + 1)
              (String.length d) 0 head) as (full & Hl & _);
    [reflexivity|simpl; lia|].
  exists full. exact Hl.
Qed.

Lemma put_total (req : wsgi_request) (fs : filesys) :
  exists out, uwsgi_wevdav_manage_put req fs = Some out.
Proof.
  unfold uwsgi_wevdav_manage_put.
  destruct (match uwsgi_webdav_expand_path fs (app req) (path_info req) with
            | Some f => Some f
            | None => uwsgi_webdav_expand_fake_path fs (app req) (path_info req)
            end) as [filename|]; [|eauto].
  destruct (open_wronly_creat fs filename) as [[fd fs1]|]; [|eauto].
  destruct (put_body_loop_total (post_cl req + 2) (post_cl req)
              (uwsgi_response_prepare_headers req "201 Created") fd fs1)
    as (r & f & Hl & _); [simpl; lia|].
  rewrite Hl. eauto.
Qed.

Lemma delete_total (req : wsgi_request) (fs : filesys) :
  is_dir (root fs) = true -> good_tree (root fs) = true ->
  (forall p, may_opendir fs p = true) ->
  exists out, uwsgi_wevdav_manage_delete req fs = Some out.
Proof.
  intros Hroot Hgood Hread.
  destruct (uwsgi_webdav_expand_path fs (app req) (path_info req))
    as [filename|] eqn:Hx.
  - destruct (delete_outcome req fs filename Hroot Hgood Hx Hread)
      as (req' & fs' & p & H & _). eauto.
  - unfold uwsgi_wevdav_manage_delete. rewrite Hx. eauto.
Qed.

Lemma move_total (req : wsgi_request) (fs : filesys) :
  destination_in_bounds req ->
  exists out, uwsgi_wevdav_manage_move req fs = Some out.
Proof.
  intros Hb.
  destruct (move_cases req fs)
    as [(o & E & _)|(_ & f & destination & _ & Hd & Hne & Hi)]; [eauto|].
  exfalso. exact (Hb _ Hd Hne Hi).
Qed.

(** X20.  Seven methods are answered.  With mountpoints configured and
    the request variables parsed, on a tree with legal entry names, a
    request whose method is OPTIONS, GET, HEAD, PUT, DELETE, MKCOL or MOVE
    is handled to the end: the hook returns UWSGI_OK to the core with at
    least one status line prepared and the lock cache as it was, whatever
    the path, the headers and the body; for DELETE when a stream opens on
    every directory, and for MOVE when the Destination header is as long as
    what is skipped of it.  (Outside these two conditions DELETE reads from
    a NULL stream and MOVE past the end of the header.) *)
Theorem request_always_answered (env : environ) (xml : libxml2)
  (udav : uwsgi_webdav) (core : core_request) (cache : lock_cache)
  (req : wsgi_request) (fs : filesys) :
  mountpoints udav <> [] ->
  parse_vars_ok core = true ->
  In (method core) answering_methods ->
  is_dir (root fs) = true -> good_tree (root fs) = true ->
  (method core = "DELETE" -> forall p, may_opendir fs p = true) ->
  (method core = "MOVE" -> destination_in_bounds req) ->
  exists req' fs',
    uwsgi_webdav_request env xml udav core cache req fs
    = Some (UWSGI_OK, req', fs', cache)
    /\ answered req req'.
Proof.
  intros Hm Hp Hin Hroot Hgood Hread Hdest.
  assert (Hret : exists out,
             uwsgi_webdav_request env xml udav core cache req fs = Some out).
  { unfold uwsgi_webdav_request.
    destruct (mountpoints udav); [congruence|]. rewrite Hp. cbn [negb].
    destruct (Nat.eqb (String.length (path_info req)) 0); [eauto|].
    destruct (app_of_request core) as [ua|]; [|eauto].
    unfold method_is. simpl in Hin.
    destruct Hin as [E|[E|[E|[E|[E|[E|[E|[]]]]]]]]; rewrite <- E;
      cbn [String.eqb Ascii.eqb Bool.eqb andb].
    - destruct (uwsgi_wevdav_manage_options (set_app req ua)). eauto.
    - destruct (get_total env udav (set_app req ua) fs true) as (r & ->).
      cbn [option_map]. eauto.
    - destruct (get_total env udav (set_app req ua) fs false) as (r & ->).
      cbn [option_map]. eauto.
    - destruct (put_total (set_app req ua) fs) as (r & ->).
      cbn [option_map]. eauto.
    - destruct (delete_total (set_app req ua) fs Hroot Hgood
                  (Hread (eq_sym E))) as (r & ->).
      cbn [option_map]. eauto.
    - eauto.
    - destruct (move_total (set_app req ua) fs (Hdest (eq_sym E))) as (r & ->).
      cbn [option_map]. eauto. }
  destruct Hret as ([[[ret req'] fs'] cache'] & H).
  destruct (request_answered_if _ _ _ _ _ _ _ _ _ _ _ Hm Hp Hin H)
    as (-> & -> & Hans).
  exists req', fs'. split; [exact H|exact Hans].
Qed.

Lemma request_always_answered_witness :
  exists req' fs',
    uwsgi_webdav_request SampleEnv.env SampleXml.xml SampleEnv.udav
      (mkcore true "DELETE" (Some Sample.dav)) []
      (Sample.request "/d" [] "") Sample.nested
    = Some (UWSGI_OK, req', fs', [])
    /\ answered (Sample.request "/d" [] "") req'.
Proof.
  apply (request_always_answered SampleEnv.env SampleXml.xml SampleEnv.udav
           (mkcore true "DELETE" (Some Sample.dav)) []
           (Sample.request "/d" [] "") Sample.nested).
  - discriminate.
  - reflexivity.
  - do 4 right. left. reflexivity.
  - reflexivity.
  - reflexivity.
  - reflexivity.
  - discriminate.
Defined.

Lemma read_document_resp (xml : libxml2) (req : wsgi_request) :
  resp (snd (read_document xml req)) = resp req.
Proof.
  unfold read_document.
  pose proof (proj1 (body_read_resp req (post_cl req))) as H.
  destruct (uwsgi_request_body_read req (post_cl req)) as [[| |b] r]; exact H.
Qed.

(** X21.  The requests that get no answer.  With mountpoints configured,
    the variables parsed, a path and an application, the hook returns with
    the response as it came and the tree and the lock cache unchanged: for
    a method it does not know (UWSGI_OK) and for COPY (-1); for PROPPATCH
    without a body; for PROPFIND, LOCK and PROPPATCH with a body that does
    not parse; and, the target resolving, for PROPFIND and PROPPATCH with a
    document whose root element has another name than propfind and
    propertyupdate: the -1 of the handler is dropped and UWSGI_OK
    returned. *)
Theorem request_without_answer (env : environ) (xml : libxml2)
  (udav : uwsgi_webdav) (core : core_request) (cache : lock_cache)
  (req : wsgi_request) (fs : filesys) (ua : uwsgi_app) :
  mountpoints udav <> [] ->
  parse_vars_ok core = true ->
  path_info req <> EmptyString ->
  app_of_request core = Some ua ->
  let out := uwsgi_webdav_request env xml udav core cache req fs in
  let req0 := set_app req ua in
  let read := snd (read_document xml req0) in
  resp read = resp req
  /\ (~ In (method core) known_methods -> out = Some (UWSGI_OK, req0, fs, cache))
  /\ (method core = "COPY" -> out = Some ((-1)%Z, req0, fs, cache))
  /\ (method core = "PROPPATCH" -> post_cl req = 0 ->
      out = Some (UWSGI_OK, req0, fs, cache))
  /\ (In (method core) ["PROPFIND"; "LOCK"; "PROPPATCH"] ->
      0 < post_cl req -> fst (read_document xml req0) = None ->
      out = Some (UWSGI_OK, read, fs, cache))
  /\ (forall doc rns name children,
         0 < post_cl req ->
         fst (read_document xml req0) = Some doc ->
         xmlDocGetRootElement doc = Some (XML_ELEMENT_NODE rns name children) ->
         uwsgi_webdav_expand_path fs ua (path_info req) <> None ->
         (method core = "PROPFIND" /\ name <> "propfind")
         \/ (method core = "PROPPATCH" /\ name <> "propertyupdate") ->
         out = Some (UWSGI_OK, read, fs, cache)).
Proof.
  intros Hm Hp Hpi Hua out req0 read.
  assert (Hout : out
                 = let m := method core in
                   if method_is m "OPTIONS" then
                     let '(ret, req') := uwsgi_wevdav_manage_options req0 in
                     Some (ret, req', fs, cache)
                   else if method_is m "GET" then
                     option_map (fun req' => (UWSGI_OK, req', fs, cache))
                       (uwsgi_wevdav_manage_get env udav req0 fs true)
                   else if method_is m "HEAD" then
                     option_map (fun req' => (UWSGI_OK, req', fs, cache))
                       (uwsgi_wevdav_manage_get env udav req0 fs false)
                   else
                     match (if method_is m "PROPFIND"
                            then propfind_block xml req0 fs
                            else Continue req0) with
                     | Crashed => None
                     | GotoEnd req => Some (UWSGI_OK, req, fs, cache)
                     | Continue req =>
                         if method_is m "PUT" then
                           option_map
                             (fun out => (UWSGI_OK, fst out, snd out, cache))
                             (uwsgi_wevdav_manage_put req fs)
                         else if method_is m "DELETE" then
                           option_map
                             (fun out => (UWSGI_OK, fst out, snd out, cache))
                             (uwsgi_wevdav_manage_delete req fs)
                         else if method_is m "MKCOL" then
                           let out := uwsgi_wevdav_manage_mkcol req fs in
                           Some (UWSGI_OK, fst out, snd out, cache)
                         else if method_is m "COPY" then
                           let '(ret, req') := uwsgi_wevdav_manage_copy req in
                           Some (ret, req', fs, cache)
                         else if method_is m "MOVE" then
                           option_map
                             (fun out => (UWSGI_OK, fst out, snd out, cache))
                             (uwsgi_wevdav_manage_move req fs)
                         else if method_is m "LOCK" then
                           let parsed :=
                             if Nat.ltb 0 (post_cl req) then
                               match read_document xml req with
                               | (None, req') => (false, req')
                               | (Some _, req') => (true, req')
                               end
                             else (true, req) in
                           if fst parsed then
                             let out :=
                               uwsgi_wevdav_manage_lock (snd parsed) cache in
                             Some (UWSGI_OK, fst out, fs, snd out)
                           else Some (UWSGI_OK, snd parsed, fs, cache)
                         else if method_is m "PROPPATCH" then
                           if Nat.eqb (post_cl req) 0
                           then Some (UWSGI_OK, req, fs, cache)
                           else
                             match read_document xml req with
                             | (None, req') => Some (UWSGI_OK, req', fs, cache)
                             | (Some doc, req') =>
                                 match uwsgi_wevdav_manage_proppatch xml req' fs
                                         doc with
                                 | Some (_, req'', fs') =>
                                     Some (UWSGI_OK, req'', fs', cache)
                                 | None => None
                                 end
                             end
                         else Some (UWSGI_OK, req, fs, cache)
                     end).
  { unfold out, uwsgi_webdav_request.
    destruct (mountpoints udav); [congruence|]. rewrite Hp, Hua. cbn [negb].
    destruct (path_info req); [congruence|]. reflexivity. }
  clearbody out. subst out. cbv zeta. unfold method_is.
  assert (Hcl : post_cl req0 = post_cl req) by reflexivity.
  split; [exact (read_document_resp xml req0)|].
  split; [|split; [|split; [|split]]].
  - intros Hn. unfold known_methods in Hn.
    repeat match goal with
           | |- context [String.eqb (method core) ?s] =>
               let E := fresh "E" in
               destruct (String.eqb (method core) s) eqn:E;
               [apply String.eqb_eq in E; exfalso; apply Hn; rewrite E;
                simpl; tauto|]
           end.
    reflexivity.
  - intros ->. cbn [String.eqb Ascii.eqb Bool.eqb andb]. reflexivity.
  - intros -> H0. cbn [String.eqb Ascii.eqb Bool.eqb andb].
    rewrite Hcl, H0. reflexivity.
  - intros Hin Hpos Hnone. apply Nat.ltb_lt in Hpos.
    assert (Hz : Nat.eqb (post_cl req) 0 = false)
      by (apply Nat.eqb_neq; apply Nat.ltb_lt in Hpos; lia).
    unfold read. simpl in Hin.
    destruct Hin as [E|[E|[E|[]]]]; rewrite <- E;
      cbn [String.eqb Ascii.eqb Bool.eqb andb]; unfold propfind_block;
      rewrite ?Hcl, ?Hpos, ?Hz;
      destruct (read_document xml req0) as [[doc|] r]; try discriminate;
      reflexivity.
  - intros doc rns name children Hpos Hdoc Hroot Hx Hcase.
    apply Nat.ltb_lt in Hpos.
    assert (Hz : Nat.eqb (post_cl req) 0 = false)
      by (apply Nat.eqb_neq; apply Nat.ltb_lt in Hpos; lia).
    unfold read.
    destruct (read_document xml req0) as [[d|] r] eqn:Er; [|discriminate].
    simpl in Hdoc. inversion Hdoc; subst d; clear Hdoc.
    assert (Hr : app r = ua /\ path_info r = path_info req).
    { unfold read_document in Er.
      unfold uwsgi_request_body_read in Er.
      destruct (Nat.eqb _ 0); [inversion Er; auto|].
      destruct (Nat.ltb _ _); inversion Er; auto. }
    destruct Hr as [Hra Hrp].
    destruct (uwsgi_webdav_expand_path fs ua (path_info req)) as [filename|]
      eqn:Ex; [clear Hx|congruence].
    destruct Hcase as [[E Hn]|[E Hn]]; rewrite E;
      cbn [String.eqb Ascii.eqb Bool.eqb andb]; apply String.eqb_neq in Hn.
    + unfold propfind_block. rewrite Hcl, Hpos, Er.
      unfold uwsgi_wevdav_manage_propfind. rewrite Hra, Hrp, Ex, Hroot, Hn.
      reflexivity.
    + rewrite Hcl, Hz, Er.
      unfold uwsgi_wevdav_manage_proppatch. rewrite Hra, Hrp, Ex, Hroot, Hn.
      reflexivity.
Qed.

Lemma request_without_answer_witness :
  uwsgi_webdav_request SampleEnv.env SampleXml.xml SampleEnv.udav
    (mkcore true "PROPFIND" (Some Sample.dav)) []
    (Sample.request "/a.txt" [] "<propfind/>") Sample.fs
  = Some (UWSGI_OK,
          snd (read_document SampleXml.xml
                 (set_app (Sample.request "/a.txt" [] "<propfind/>") Sample.dav)),
          Sample.fs, []).
Proof.
  destruct (request_without_answer SampleEnv.env SampleXml.xml SampleEnv.udav
              (mkcore true "PROPFIND" (Some Sample.dav)) []
              (Sample.request "/a.txt" [] "<propfind/>") Sample.fs Sample.dav)
    as (_ & _ & _ & _ & H & _).
  - discriminate.
  - reflexivity.
  - discriminate.
  - reflexivity.
  - apply H.
    + left. reflexivity.
    + simpl. lia.
    + reflexivity.
Defined.

(** * Mounting *)

(** realpath returns a fixed point of realpath. *)
Lemma realpath_canonical (fs : filesys) (path f : string) :
  is_dir (root fs) = true ->
  realpath fs path = Some f -> realpath fs f = Some f.
Proof.
  intros Hroot H. unfold realpath in *.
  destruct (namei fs path) as [p|] eqn:Hn; [|discriminate].
  inversion H; subst f; clear H.
  assert (Hc : canon_path (root fs) p).
  { unfold namei in Hn. destruct (is_absolute path); [|discriminate].
    eapply walk_canon_result; [apply split_slash_no_slash| |exact Hn].
    split; [constructor|]. exists (root fs). split; [reflexivity|].
    destruct (root fs); try discriminate; reflexivity. }
  rewrite (namei_render _ _ Hc). reflexivity.
Qed.

(** X22.  Mounted docroots are canonical.  When mounting succeeds the
    applications of the worker are those there were followed by one for
    each value, in order; the mountpoint of each is what precedes the first
    '=' of its value (empty without '='), its docroot is what realpath makes
    of the rest, and realpath maps that docroot to itself; the table holds
    no more than max_apps applications. *)
Theorem mount_docroots_canonical (fs : filesys) (max_apps : nat)
  (usl : list string) :
  is_dir (root fs) = true ->
  forall uwsgi_apps apps,
    uwsgi_webdav_mount fs max_apps uwsgi_apps usl = Some apps ->
    exists mounted,
      apps = uwsgi_apps ++ mounted
      /\ (usl <> [] -> List.length apps <= max_apps)
      /\ Forall2
           (fun value ua =>
              mountpoint ua = fst (mount_value value)
              /\ realpath fs (snd (mount_value value)) = Some (interpreter ua)
              /\ realpath fs (interpreter ua) = Some (interpreter ua))
           usl mounted.
Proof.
  intros Hroot. induction usl as [|value usl IH]; intros uwsgi_apps apps H.
  - simpl in H. inversion H; subst. exists []. rewrite app_nil_r.
    split; [reflexivity|]. split; [congruence|constructor].
  - simpl in H.
    destruct (Nat.leb max_apps (List.length uwsgi_apps)) eqn:El; [discriminate|].
    apply Nat.leb_gt in El.
    destruct (mount_value value) as [mp docroot] eqn:Ev.
    destruct (realpath fs docroot) as [wd|] eqn:Er; [|discriminate].
    destruct (IH _ _ H) as (mounted & -> & Hmax & Hall).
    exists (mkapp mp wd :: mounted). rewrite <- app_assoc.
    split; [reflexivity|]. rewrite <- app_assoc in Hmax. split.
    + intros _. destruct usl as [|v usl'].
      * inversion Hall; subst. rewrite !length_app. simpl. lia.
      * apply Hmax. discriminate.
    + constructor; [|exact Hall]. rewrite Ev. simpl.
      split; [reflexivity|]. split; [exact Er|].
      exact (realpath_canonical _ _ _ Hroot Er).
Qed.

Lemma mount_docroots_canonical_witness :
  exists apps mounted,
    uwsgi_webdav_mount Sample.fs 64 [] ["/srv/dav/d/../"; "/x=/srv/dav/out"]
    = Some apps
    /\ apps = mounted
    /\ Forall2
         (fun value ua =>
            mountpoint ua = fst (mount_value value)
            /\ realpath Sample.fs (snd (mount_value value))
               = Some (interpreter ua)
            /\ realpath Sample.fs (interpreter ua) = Some (interpreter ua))
         ["/srv/dav/d/../"; "/x=/srv/dav/out"] mounted.
Proof.
  destruct (uwsgi_webdav_mount Sample.fs 64 []
              ["/srv/dav/d/../"; "/x=/srv/dav/out"]) as [apps|] eqn:E;
    [|vm_compute in E; discriminate].
  destruct (mount_docroots_canonical Sample.fs 64
              ["/srv/dav/d/../"; "/x=/srv/dav/out"] eq_refl [] apps E)
    as (mounted & Happs & _ & Hall).
  exists apps, mounted. split; [reflexivity|]. split; [exact Happs|exact Hall].
Defined.

(** * PROPFIND of a file with a Depth *)

(** X23.  PROPFIND with a Depth header whose number is not 0 on a target
    that is a regular file has no defined result: opendir fails on the file,
    its result is not checked, and the listing loop reads from the NULL
    directory stream.  The request hook has no result either: the request
    is not answered. *)
Theorem propfind_depth_on_file (env : environ) (xml : libxml2)
  (udav : uwsgi_webdav) (core : core_request) (cache : lock_cache)
  (req : wsgi_request) (fs : filesys) (ua : uwsgi_app) (filename : string)
  (w : bool) (d : string) (xa : xattrs) (http_depth : string) :
  mountpoints udav <> [] ->
  parse_vars_ok core = true ->
  path_info req <> EmptyString ->
  app_of_request core = Some ua ->
  method core = "PROPFIND" ->
  post_cl req = 0 ->
  uwsgi_webdav_expand_path fs ua (path_info req) = Some filename ->
  stat fs filename = Some (File w d xa) ->
  uwsgi_get_var req "HTTP_DEPTH" = Some http_depth ->
  uwsgi_str_num http_depth <> 0%Z ->
  opendir fs filename = None
  /\ uwsgi_wevdav_manage_propfind xml (set_app req ua) fs None = None
  /\ uwsgi_webdav_request env xml udav core cache req fs = None.
Proof.
  intros Hm Hp Hpi Hua Hmeth Hcl Hx Hst Hd Hnz.
  assert (Ho : opendir fs filename = None).
  { unfold stat in Hst. unfold opendir.
    destruct (namei fs filename); [rewrite Hst|]; reflexivity. }
  assert (Hpf : uwsgi_wevdav_manage_propfind xml (set_app req ua) fs None = None).
  { unfold uwsgi_wevdav_manage_propfind.
    change (app (set_app req ua)) with ua.
    change (path_info (set_app req ua)) with (path_info req).
    rewrite Hx. cbv iota. unfold uwsgi_webdav_manage_prop.
    match goal with
    | |- context [uwsgi_get_var ?r "HTTP_DEPTH"] =>
        change (uwsgi_get_var r "HTTP_DEPTH")
          with (uwsgi_get_var req "HTTP_DEPTH")
    end.
    rewrite Hd. apply Z.eqb_neq in Hnz. rewrite Hnz, Ho. reflexivity. }
  split; [exact Ho|]. split; [exact Hpf|].
  unfold uwsgi_webdav_request.
  destruct (mountpoints udav); [congruence|]. rewrite Hp, Hua, Hmeth.
  cbn [negb].
  assert (Hlen : Nat.eqb (String.length (path_info req)) 0 = false)
    by (destruct (path_info req); [congruence|reflexivity]).
  rewrite Hlen.
  unfold method_is. cbn [String.eqb Ascii.eqb Bool.eqb andb].
  unfold propfind_block.
  change (post_cl (set_app req ua)) with (post_cl req). rewrite Hcl.
  change (Nat.ltb 0 0) with false. cbv iota. rewrite Hpf. reflexivity.
Qed.

Lemma propfind_depth_on_file_witness :
  uwsgi_webdav_request SampleEnv.env SampleXml.xml SampleEnv.udav
    (mkcore true "PROPFIND" (Some Sample.dav)) []
    (Sample.request "/a.txt" [("HTTP_DEPTH", "1")] "") Sample.fs
  = None.
Proof.
  apply (propfind_depth_on_file SampleEnv.env SampleXml.xml SampleEnv.udav
           (mkcore true "PROPFIND" (Some Sample.dav)) []
           (Sample.request "/a.txt" [("HTTP_DEPTH", "1")] "") Sample.fs
           Sample.dav "/srv/dav/a.txt" true "hello" [] "1");
    try reflexivity; discriminate.
Defined.

(** * After a MOVE *)

Lemma is_prefix_app (p t : list string) : is_prefix p (p ++ t) = true.
Proof.
  induction p as [|c p IH]; simpl; [reflexivity|].
  rewrite String.eqb_refl. exact IH.
Qed.

Lemma is_prefix_inv (p : list string) :
  forall q, is_prefix p q = true -> exists t, q = p ++ t.
Proof.
  induction p as [|c p IH]; intros q H; simpl in H.
  - exists q. reflexivity.
  - destruct q as [|d q]; [discriminate|].
    apply andb_true_iff in H. destruct H as [Hc Hp].
    apply String.eqb_eq in Hc. subst d.
    destruct (IH _ Hp) as (t & ->). exists t. reflexivity.
Qed.

(** Resolution in a tree where entries went and entries came: a path that
    resolved resolves to the same or no longer. *)
Lemma walk_moved (r r' : node) :
  (forall s, find_node r' s = None
             \/ option_map kind_of (find_node r' s)
                = option_map kind_of (find_node r s)
             \/ find_node r s = None) ->
  forall b cs stack,
    walk r' b stack cs = None
    \/ walk r' b stack cs = walk r b stack cs
    \/ walk r b stack cs = None.
Proof.
  intros Hk. induction b as [|b IHb]; induction cs as [|c cs IH]; intros stack;
    rewrite ?walk_nil; auto; rewrite !walk_cons;
    (destruct (String.eqb c "" || String.eqb c "."); [apply IH|]);
    (destruct (String.eqb c ".."); [apply IH|]);
    destruct (Hk (stack ++ [c])) as [Hn|[He|Hn]]; try (rewrite Hn; auto; fail);
    destruct (find_node r' (stack ++ [c])) as [[? ? ?|?|? ? ?]|],
             (find_node r (stack ++ [c])) as [[? ? ?|?|? ? ?]|];
    simpl in He; try discriminate; auto.
  inversion He; subst. apply IHb.
Qed.

(** What is found where an entry was put was there before, or is at or
    below the entry. *)
Lemma find_added_new (leaf : string) (new : node) (w : bool) (xa : xattrs)
  (es : list (string * node)) :
  forall q r s n,
    find_node r q = Some (Dir w xa es) ->
    find_node (replace r q (Dir w xa (set_assoc leaf new es))) s = Some n ->
    find_node r s <> None \/ exists t, s = q ++ leaf :: t.
Proof.
  induction q as [|c q IH]; intros r s n Hf H; simpl in Hf.
  - inversion Hf; subst r. simpl in H.
    destruct s as [|c s]; [left; discriminate|]. simpl in H |- *.
    destruct (String.eqb c leaf) eqn:E.
    + apply String.eqb_eq in E. subst c. right. exists s. reflexivity.
    + rewrite assoc_set_assoc_other in H by exact E. left. rewrite H.
      discriminate.
  - destruct r as [w0 d0 xa0|t|w0 xa0 es0]; try discriminate.
    destruct (assoc c es0) as [ch|] eqn:E; [|discriminate].
    simpl in H. rewrite E in H.
    destruct s as [|c' s]; [left; discriminate|]. simpl in H |- *.
    destruct (String.eqb c' c) eqn:Ec.
    + apply String.eqb_eq in Ec. subst c'.
      rewrite assoc_set_assoc_same in H. rewrite E.
      destruct (IH _ _ _ Hf H) as [Hs|(t & ->)]; [left; exact Hs|].
      right. exists t. reflexivity.
    + rewrite assoc_set_assoc_other in H by exact Ec. left. rewrite H.
      discriminate.
Qed.

(** The text of a name under a canonical directory spells it. *)
Lemma spells_under (r1 : list string) (leaf : string) :
  Forall (fun c => good_name c = true) r1 -> good_name leaf = true ->
  spells (render r1 ++ String slash leaf) (r1 ++ [leaf]).
Proof.
  intros Hg Hl. destruct r1 as [|c r1].
  - split; [reflexivity|]. split; [repeat constructor; exact Hl|].
    exists [""%string; ""%string], [], leaf. split; [reflexivity|].
    split; [|reflexivity].
    destruct (good_name_elim _ Hl) as (_ & _ & Hs).
    change (render [] ++ String slash leaf)%string
      with (String slash (String slash leaf)).
    change (split_slash (String slash (String slash leaf)))
      with (""%string :: ""%string :: split_slash leaf).
    rewrite (split_slash_noslash _ Hs). reflexivity.
  - apply (spells_child (render (c :: r1)) (c :: r1) leaf); [|exact Hl].
    apply spells_render; [discriminate|exact Hg].
Qed.

(** What the MOVE that answers 201 Created has done. *)
Lemma move_created_inv (req req' : wsgi_request) (fs fs' : filesys) :
  uwsgi_wevdav_manage_move req fs = Some (req', fs') ->
  final_status req' = "201 Created" ->
  exists filename destination d_item d_filename,
    uwsgi_webdav_expand_path fs (app req) (path_info req) = Some filename
    /\ uwsgi_get_var req "HTTP_DESTINATION" = Some destination
    /\ destination_item req destination = Some d_item
    /\ uwsgi_webdav_expand_path fs (app req) d_item = None
    /\ uwsgi_webdav_expand_fake_path fs (app req) d_item = Some d_filename
    /\ rename fs filename d_filename = Some fs'.
Proof.
  unfold uwsgi_wevdav_manage_move.
  destruct (uwsgi_webdav_expand_path fs (app req) (path_info req))
    as [filename|] eqn:Ex.
  2:{ intros H; inversion H; subst. unfold uwsgi_404.
      rewrite final_status_prepare. discriminate. }
  destruct (uwsgi_get_var req "HTTP_DESTINATION") as [destination|] eqn:Ed.
  2:{ cbn [Nat.eqb]. intros H; inversion H; subst.
      rewrite final_status_403. discriminate. }
  destruct (Nat.eqb (String.length destination) 0).
  { intros H; inversion H; subst. rewrite final_status_403. discriminate. }
  cbv zeta.
  destruct (destination_item req destination) as [d_item|] eqn:Ei;
    [|discriminate].
  destruct (uwsgi_webdav_expand_path fs (app req) d_item) as [d|] eqn:Es.
  - destruct (negb match uwsgi_get_var req "HTTP_OVERWRITE" with
                   | Some overwrite => negb (starts_with_F overwrite)
                   | None => true
                   end);
      cbn [andb].
    { intros H; inversion H; subst. rewrite final_status_prepare. discriminate. }
    destruct (rename fs filename d); intros H; inversion H; subst;
      rewrite ?final_status_403, ?final_status_prepare; discriminate.
  - cbn [andb].
    destruct (uwsgi_webdav_expand_fake_path fs (app req) d_item) as [d|] eqn:Ef.
    2:{ intros H; inversion H; subst. rewrite final_status_prepare.
        discriminate. }
    destruct (rename fs filename d) as [fs1|] eqn:Er.
    2:{ intros H; inversion H; subst. rewrite final_status_403. discriminate. }
    intros H _. inversion H; subst.
    exists filename, destination, d_item, d.
    repeat split; assumption.
Qed.

(** What a successful rename of a canonical path to a new name under a
    canonical directory does to the tree: the entry is taken out of its
    directory and put, as it is, under the new name. *)
Lemma rename_moved (fs fs' : filesys) (p r1 : list string) (leaf : string) :
  canon_path (root fs) p -> canon_path (root fs) r1 ->
  has_char slash leaf = false ->
  find_node (root fs) (r1 ++ [leaf]) = None ->
  rename fs (render p) (render r1 ++ String slash leaf) = Some fs' ->
  exists po lo src w xa es w' xa' es',
    p = po ++ [lo]
    /\ good_name leaf = true
    /\ find_node (root fs) p = Some src
    /\ is_link src = false
    /\ find_node (root fs) po = Some (Dir w xa es)
    /\ find_node (replace (root fs) po (Dir w xa (remove_assoc lo es))) r1
       = Some (Dir w' xa' es')
    /\ root fs'
       = replace (replace (root fs) po (Dir w xa (remove_assoc lo es))) r1
           (Dir w' xa' (set_assoc leaf src es')).
Proof.
  intros Hp Hr1 Hleaf Hnew H. unfold rename in H.
  destruct (parent_leaf fs (render p)) as [[po lo]|] eqn:Hpo; [|discriminate].
  destruct (parent_leaf fs (render r1 ++ String slash leaf)) as [[pn ln]|]
    eqn:Hpn; [|discriminate].
  destruct (parent_leaf_canonical _ _ _ _ _ Hr1 Hleaf Hpn) as (-> & -> & Hg).
  (* the source *)
  assert (Hsrc : p = po ++ [lo]).
  { destruct Hp as [Hgood (n & Hn & Hl)].
    destruct p as [|c p'] eqn:Ep; [vm_compute in Hpo; discriminate|].
    rewrite <- Ep in *.
    assert (Hne : p <> []) by (rewrite Ep; discriminate).
    destruct (exists_last Hne) as (q & l & Eq). rewrite Eq in *.
    destruct (find_node_snoc _ _ _ _ Hn) as (wq & xaq & esq & Hq & _).
    rewrite (parent_leaf_spelled fs (render (q ++ [l])) q l
               (spells_render _ Hne Hgood) wq xaq esq Hq) in Hpo.
    inversion Hpo; subst. reflexivity. }
  subst p. destruct Hp as [Hgood (src & Hfsrc & Hlsrc)].
  rewrite Hfsrc in H.
  destruct (negb (dir_writable (root fs) po && dir_writable (root fs) r1));
    [discriminate|].
  destruct (is_prefix (po ++ [lo]) (r1 ++ [leaf])
            && is_prefix (r1 ++ [leaf]) (po ++ [lo])) eqn:Esame.
  { apply andb_true_iff in Esame. destruct Esame as [E1 E2].
    destruct (is_prefix_inv _ _ E1) as (t & Et).
    destruct (is_prefix_inv _ _ E2) as (t' & Et').
    assert (Ht : t' = []).
    { apply (f_equal (@List.length string)) in Et.
      apply (f_equal (@List.length string)) in Et'.
      rewrite !length_app in Et, Et'.
      destruct t'; [reflexivity|simpl in *; lia]. }
    subst t'. rewrite app_nil_r in Et'. rewrite <- Et', Hfsrc in Hnew.
    discriminate. }
  set (fits := match src, find_node (root fs) (r1 ++ [leaf]) with
               | Dir _ _ _, None => negb (is_prefix (po ++ [lo]) r1)
               | Dir _ _ _, Some (Dir _ _ []) => true
               | Dir _ _ _, Some _ => false
               | _, Some (Dir _ _ _) => false
               | _, _ => true
               end) in H.
  destruct fits; [|discriminate].
  rewrite alter_spec in H.
  destruct (find_node_snoc _ _ _ _ Hfsrc) as (w & xa & es & Hfpo & _).
  rewrite Hfpo in H. cbn [drop_entry] in H.
  rewrite alter_spec in H.
  destruct (find_node (replace (root fs) po (Dir w xa (remove_assoc lo es))) r1)
    as [[| |w' xa' es']|] eqn:Hmid; try discriminate.
  cbn [put_entry option_map] in H. inversion H; subst fs'; clear H.
  exists po, lo, src, w, xa, es, w', xa', es'. cbn [root set_root].
  repeat split; auto.
Qed.

(** X24.  What a MOVE answered 201 Created has moved is at the destination
    and gone from the source.  On a tree without symbolic links and with no
    name twice in a directory: the object the request path led to is what
    stat finds at the path the destination resolved to, as it was (contents,
    attributes, members); the request path no longer resolves, and the same
    MOVE again is answered 404 Not Found and changes nothing. *)
Theorem move_then_moved (req req' : wsgi_request) (fs fs' : filesys) :
  is_dir (root fs) = true ->
  unique_names (root fs) = true ->
  no_links (root fs) = true ->
  uwsgi_wevdav_manage_move req fs = Some (req', fs') ->
  final_status req' = "201 Created" ->
  exists filename destination d_item d_filename src,
    uwsgi_webdav_expand_path fs (app req) (path_info req) = Some filename
    /\ uwsgi_get_var req "HTTP_DESTINATION" = Some destination
    /\ destination_item req destination = Some d_item
    /\ uwsgi_webdav_expand_fake_path fs (app req) d_item = Some d_filename
    /\ stat fs filename = Some src
    /\ stat fs' d_filename = Some src
    /\ uwsgi_webdav_expand_path fs' (app req) (path_info req) = None
    /\ uwsgi_wevdav_manage_move req fs' = Some (uwsgi_404 req, fs').
Proof.
  intros Hroot Huniq Hnl Hmove Hst.
  destruct (move_created_inv req req' fs fs' Hmove Hst)
    as (filename & destination & d_item & d_filename
        & Hx & Hd & Hdi & Hstrict & Hfake & Hren).
  (* the source *)
  pose proof Hx as Hx0.
  unfold uwsgi_webdav_expand_path, realpath in Hx.
  destruct (namei fs (interpreter (app req) ++ "/" ++ path_info req))
    as [p|] eqn:Hn; [|discriminate].
  simpl in Hx. inversion Hx; subst filename; clear Hx.
  unfold namei in Hn.
  destruct (is_absolute (interpreter (app req) ++ "/" ++ path_info req))
    eqn:Habs0; [|discriminate].
  assert (Hroot0 : canon_path (root fs) []).
  { split; [constructor|]. exists (root fs). split; [reflexivity|].
    destruct (root fs); try discriminate; reflexivity. }
  assert (Hp : canon_path (root fs) p)
    by (eapply walk_canon_result; [apply split_slash_no_slash|exact Hroot0|exact Hn]).
  (* the destination *)
  destruct (fake_path_parts _ _ _ _ Hroot Hfake)
    as (pre & leaf & r1 & Hitem & Hleaf & Habs & Hw & Hr1 & ->).
  assert (Hg : good_name leaf = true).
  { pose proof Hren as H. unfold rename in H.
    destruct (parent_leaf fs (render p)); [|discriminate]. destruct p0.
    destruct (parent_leaf fs (render r1 ++ String slash leaf)) as [[pn ln]|]
      eqn:Hpn; [|discriminate].
    apply (parent_leaf_canonical _ _ _ _ _ Hr1 Hleaf Hpn). }
  assert (Hnew : find_node (root fs) (r1 ++ [leaf]) = None).
  { destruct (find_node (root fs) (r1 ++ [leaf])) as [n|] eqn:E; [|reflexivity].
    exfalso.
    assert (Hl : is_link n = false).
    { pose proof (no_links_find _ _ _ Hnl E) as Hn'.
      destruct n; [reflexivity|discriminate|reflexivity]. }
    destruct (leaf_resolves (root fs) (interpreter (app req)) pre leaf r1 n
                Habs Hw Hleaf Hg E Hl) as [Ha' Hw'].
    rewrite Hitem in Hstrict.
    unfold uwsgi_webdav_expand_path, realpath, namei in Hstrict.
    rewrite Ha', Hw' in Hstrict. discriminate. }
  destruct (rename_moved _ _ _ _ _ Hp Hr1 Hleaf Hnew Hren)
    as (po & lo & src & w & xa & es & w' & xa' & es'
        & -> & _ & Hfsrc & Hlsrc & Hfpo & Hmid & Hroot').
  set (r_mid := replace (root fs) po (Dir w xa (remove_assoc lo es))) in *.
  assert (Hgone : assoc lo (remove_assoc lo es) = None).
  { apply distinct_assoc_remove.
    pose proof (unique_names_find _ _ _ Huniq Hfpo) as Hu. simpl in Hu.
    apply andb_true_iff in Hu. apply Hu. }
  destruct (find_removed lo w xa es Hgone po (root fs) Hfpo) as [Hrem Hk1].
  fold r_mid in Hrem, Hk1.
  assert (Hmidnew : find_node r_mid (r1 ++ [leaf]) = None).
  { destruct (Hk1 (r1 ++ [leaf])) as [E|E]; [exact E|].
    rewrite Hnew in E. destruct (find_node r_mid (r1 ++ [leaf]));
      [discriminate|reflexivity]. }
  assert (Hleafnew : assoc leaf es' = None).
  { rewrite find_node_app, Hmid in Hmidnew. simpl in Hmidnew.
    destruct (assoc leaf es'); [discriminate|reflexivity]. }
  destruct (find_added leaf src w' xa' es' Hleafnew r1 r_mid Hmid)
    as [Hthere Hk2].
  rewrite <- Hroot' in Hthere, Hk2.
  assert (Hbelow : forall t, find_node (root fs) (r1 ++ leaf :: t) = None).
  { intros t. replace (r1 ++ leaf :: t) with ((r1 ++ [leaf]) ++ t)
      by (rewrite <- app_assoc; reflexivity).
    rewrite find_node_app, Hnew. reflexivity. }
  assert (Hk : forall s,
             find_node (root fs') s = None
             \/ option_map kind_of (find_node (root fs') s)
                = option_map kind_of (find_node (root fs) s)
             \/ find_node (root fs) s = None).
  { intros s. destruct (find_node (root fs') s) as [n|] eqn:E; [|auto]. right.
    pose proof E as E'. rewrite Hroot' in E'.
    destruct (find_added_new leaf src w' xa' es' r1 r_mid s n Hmid E')
      as [Hs|(t & ->)]; [|right; apply Hbelow].
    left. destruct (find_node r_mid s) as [m|] eqn:Em; [|congruence].
    pose proof (Hk2 _ _ Em) as K. rewrite E in K.
    destruct (Hk1 s) as [E1|E1]; [congruence|].
    rewrite Em in E1. simpl in K, E1 |- *. congruence. }
  assert (Hpgone : find_node (root fs') (po ++ [lo]) = None).
  { destruct (find_node (root fs') (po ++ [lo])) as [n|] eqn:E; [|reflexivity].
    exfalso. rewrite Hroot' in E.
    destruct (find_added_new leaf src w' xa' es' r1 r_mid _ n Hmid E)
      as [Hs|(t & Et)]; [exact (Hs Hrem)|].
    rewrite Et, Hbelow in Hfsrc. discriminate. }
  assert (Hgone' : uwsgi_webdav_expand_path fs' (app req) (path_info req) = None).
  { unfold uwsgi_webdav_expand_path, realpath, namei. rewrite Habs0.
    destruct (walk_moved _ _ Hk MAXSYMLINKS
                (split_slash (interpreter (app req) ++ "/" ++ path_info req)) [])
      as [E|[E|E]]; [rewrite E; reflexivity| |congruence].
    exfalso. rewrite Hn in E.
    assert (Hroot1 : canon_path (root fs') []).
    { split; [constructor|]. exists (root fs'). split; [reflexivity|].
      destruct (Hk []) as [K|[K|K]]; simpl in K; try discriminate.
      destruct (root fs'), (root fs); simpl in K; try discriminate;
        reflexivity. }
    destruct (walk_canon_result _ _ _ _ _ (split_slash_no_slash _) Hroot1 E)
      as [_ (n & Hfn & _)].
    congruence. }
  assert (Hfr1 : find_node (root fs') r1
                 = Some (Dir w' xa' (set_assoc leaf src es')))
    by (rewrite Hroot'; apply (find_replace_same _ _ _ _ Hmid)).
  exists (render (po ++ [lo])), destination, d_item,
    (render r1 ++ String slash leaf)%string, src.
  split; [exact Hx0|]. split; [exact Hd|]. split; [exact Hdi|].
  split; [exact Hfake|].
  split; [unfold stat; rewrite (namei_render _ _ Hp); exact Hfsrc|].
  split.
  - unfold stat.
    rewrite (namei_spelled fs' (render r1 ++ String slash leaf) r1 leaf
               (spells_under r1 leaf (proj1 Hr1) Hg) w' xa'
               (set_assoc leaf src es') Hfr1 src
               (assoc_set_assoc_same _ _ _) Hlsrc).
    exact Hthere.
  - split; [exact Hgone'|].
    unfold uwsgi_wevdav_manage_move. rewrite Hgone'. reflexivity.
Qed.

Lemma move_then_moved_witness :
  let req :=
    Sample.request "/d/a" [("HTTP_DESTINATION", "http://h/d/c")] "" in
  exists req' fs',
    uwsgi_wevdav_manage_move req SampleEnv.plain = Some (req', fs')
    /\ uwsgi_webdav_expand_path fs' (app req) (path_info req) = None
    /\ uwsgi_wevdav_manage_move req fs' = Some (uwsgi_404 req, fs').
Proof.
  intros req.
  destruct (uwsgi_wevdav_manage_move req SampleEnv.plain) as [[req' fs']|] eqn:E;
    [|vm_compute in E; discriminate].
  exists req', fs'. split; [reflexivity|].
  destruct (move_then_moved req req' SampleEnv.plain fs' eq_refl eq_refl eq_refl E)
    as (filename & destination & d_item & d_filename & src
        & _ & _ & _ & _ & _ & _ & Hgone & Hagain).
  - vm_compute in E. inversion E. reflexivity.
  - split; [exact Hgone|exact Hagain].
Defined.
